(** * ML_Weather: the fetch / normalise / window / deduplicate pipeline

    A shallow embedding of the weather acquisition scripts
    (fetch_buoy_data.py, build_pws_observations.py, fetch_pws_all_data.py,
    fetch_airport_mesonet_data.py, stations_registry.py and
    services/stations_service_pg.py) and the properties their
    specification states about them.

    Conventions of the embedding:
    - a [datetime.date] is its day number counted from 1970-01-01, built
      from year, month and day with [mk_date];
    - a pandas [Timestamp] is a number of microseconds counted from
      1970-01-01T00:00:00 on the clock of its column (UTC instants for a
      tz-aware column, wall clock for a naive one); [NaT] is [None];
    - a DataFrame is the list of its rows; [df.empty] is the empty list;
    - HTTP responses are supplied by an oracle; exceptions are explicit. *)

From Stdlib Require Import ZArith QArith List Bool Lia Permutation.
From Stdlib Require Import Strings.String Strings.Ascii.
From stdpp Require Import base decidable option list strings gmap pretty.

Local Open Scope string_scope.
Local Open Scope Z_scope.

(* ===================================================================== *)
(** ** Calendar: dates and timestamps *)
(* ===================================================================== *)

Module Calendar.

  (** Proleptic Gregorian calendar, as Python's [datetime.date]. *)
Definition is_leap (y : Z) : bool :=
    ((y mod 4 =? 0) && negb (y mod 100 =? 0)) || (y mod 400 =? 0).

Definition days_in_month (y m : Z) : Z :=
    if m =? 2 then (if is_leap y then 29 else 28)
    else if (m =? 4) || (m =? 6) || (m =? 9) || (m =? 11) then 30
    else 31.

Definition valid_ymd (y m d : Z) : bool :=
    (1 <=? m) && (m <=? 12) && (1 <=? d) && (d <=? days_in_month y m).

  (** Day number of year/month/day, 1970-01-01 being day 0. *)
Definition mk_date (y m d : Z) : Z :=
    let y' := if m <=? 2 then y - 1 else y in
    let era := y' / 400 in
    let yoe := y' - era * 400 in
    let mp := (m + 9) mod 12 in
    let doy := (153 * mp + 2) / 5 + d - 1 in
    let doe := yoe * 365 + yoe / 4 - yoe / 100 + doy in
    era * 146097 + doe - 719468.

  (** [date.year] of a day number. *)
Definition date_year (z : Z) : Z :=
    let z' := z + 719468 in
    let era := z' / 146097 in
    let doe := z' - era * 146097 in
    let yoe := (doe - doe / 1460 + doe / 36524 - doe / 146096) / 365 in
    let doy := doe - (365 * yoe + yoe / 4 - yoe / 100) in
    let mp := (5 * doy + 2) / 153 in
    let m := if mp <? 10 then mp + 3 else mp - 9 in
    let y := yoe + era * 400 in
    if m <=? 2 then y + 1 else y.

Definition US_PER_MINUTE : Z := 60000000.
Definition US_PER_HOUR : Z := 3600000000.
Definition US_PER_DAY : Z := 86400000000.

  (** [pd.Timestamp(d)] / [pd.to_datetime(d)] of a date: its midnight. *)
Definition Timestamp (d : Z) : Z := d * US_PER_DAY.

  (** [ts.date()]: the calendar day a timestamp falls on. *)
Definition ts_date (t : Z) : Z := t / US_PER_DAY.

Definition ts_year (t : Z) : Z := date_year (ts_date t).

  (** [pd.Timedelta(days=n)] and [pd.Timedelta(microseconds=n)]. *)
Definition Timedelta_days (n : Z) : Z := n * US_PER_DAY.
Definition Timedelta_microseconds (n : Z) : Z := n.

  (** A [Timestamp] holds a signed 64-bit count of nanoseconds. *)
Definition in_bounds (t : Z) : bool :=
    (- 2 ^ 63 <? t * 1000) && (t * 1000 <? 2 ^ 63).

  (** What pandas' [strptime] reads in the decimal digits of [v] with
      the format [%Y%m%d], whose pattern is four digits of year, a month
      [1[0-2]|0[1-9]|[1-9]] and a day [3[01]|[12]\d|0[1-9]|[1-9]]: the
      first match of the pattern, alternatives tried from left to
      right, and only if it uses up every digit.
      - Eight digits [YYYYMMDD] are read as they stand.
      - Seven digits [YYYYabc]: month [ab] and day [c] when [ab] is a
        month, day [b0] of January when [ab] is 11 or 12 and [c] is 0,
        else month [a] and day [bc].
      - Six digits [YYYYab]: month [a] and day [b].
      - Anything else, a negative number included, matches nothing. *)
Definition strptime_Ymd (v : Z) : option (Z * Z * Z) :=
    if (10000000 <=? v) && (v <? 100000000) then
      let m := v / 100 mod 100 in
      let d := v mod 100 in
      if (1 <=? m) && (m <=? 12) && (1 <=? d) && (d <=? 31)
      then Some (v / 10000, m, d) else None
    else if (1000000 <=? v) && (v <? 10000000) then
      let a := v / 100 mod 10 in
      let b := v / 10 mod 10 in
      let c := v mod 10 in
      if (1 <=? 10 * a + b) && (10 * a + b <=? 12) then
        if 1 <=? c then Some (v / 1000, 10 * a + b, c)
        else if (a =? 1) && (1 <=? b) then Some (v / 1000, 1, 10 * b)
        else None
      else if (1 <=? a) && (1 <=? 10 * b + c) && (10 * b + c <=? 31)
      then Some (v / 1000, a, 10 * b + c) else None
    else if (100000 <=? v) && (v <? 1000000) then
      let a := v / 10 mod 10 in
      let b := v mod 10 in
      if (1 <=? a) && (1 <=? b) then Some (v / 100, a, b) else None
    else None.

  (** [pd.to_datetime(frame_of_components, errors="coerce")]: pandas
      (version 2) adds [year * 10000 + month * 100 + day] and reads the
      sum back with [%Y%m%d]; what it reads must be a calendar date
      inside the range of [Timestamp]; hour and minute are added as
      durations. Anything else is [NaT]. *)
Definition to_datetime_components (y m d h mi : Z) : option Z :=
    match strptime_Ymd (y * 10000 + m * 100 + d) with
    | Some (year, month, day) =>
        if valid_ymd year month day && in_bounds (Timestamp (mk_date year month day))
        then
          let t := Timestamp (mk_date year month day)
                   + h * US_PER_HOUR + mi * US_PER_MINUTE in
          if in_bounds t then Some t else None
        else None
    | None => None
    end.

End Calendar.

(* ===================================================================== *)
(** ** Cells and rows *)
(* ===================================================================== *)

(** A cell of a parsed table: text, an integer, or a missing value. *)
Inductive Cell :=
| CStr (s : string)
| CInt (z : Z)
| CNaN.

Global Instance Cell_eq_dec : EqDecision Cell.
Proof. solve_decision. Defined.

(** The numeric reading of a cell used by [pd.to_datetime] on component
    columns ([errors="coerce"]: what is not a number is missing). *)
Definition cell_num (c : option Cell) : option Z :=
  match c with
  | Some (CInt z) => Some z
  | _ => None
  end.

(** The dtype pandas gives a column of such cells: [object] when it
    holds text, [float64] when it holds numbers and a missing value (or
    missing values only), [int64] when it holds integers only. *)
Inductive ColType := col_object | col_float | col_int.

Definition is_text (c : Cell) : bool :=
  match c with CStr _ => true | _ => false end.

Definition is_missing (c : Cell) : bool :=
  match c with CNaN => true | _ => false end.

Definition col_type (column : list Cell) : ColType :=
  if existsb is_text column then col_object
  else if existsb is_missing column then col_float
  else col_int.


(** [Series.astype(str)] on one cell of a column of dtype [dtype]: an
    integer of a [float64] column is written as a float ([123.0], for
    an integer the float holds exactly); a missing value is written
    [nan]. *)
Definition astype_str (dtype : ColType) (c : Cell) : string :=
  match c with
  | CStr s => s
  | CInt z => match dtype with
              | col_float => pretty z +:+ ".0"
              | _ => pretty z
              end
  | CNaN => "nan"
  end.

(** A canonical observation row: the two key columns, the optional
    display name, and the provider's own columns. *)
Record Row := mkRow {
  timestamp : option Z;
  station_id : string;
  station_name : option string;
  fields : gmap string Cell
}.

(** A table row built from column names and the cells of one record. *)
Definition record_of (names : list string) (cells : list Cell)
  : gmap string Cell :=
  list_to_map (zip names cells).

Definition row_key (r : Row) : string * option Z := (station_id r, timestamp r).

(* ===================================================================== *)
(** ** Table operations shared by all fetchers *)
(* ===================================================================== *)

Module Frame.

Section Generic.
Context {A K : Type} `{EqDecision K}.
Variable key : A -> K.
Variable leb : A -> A -> bool.

    (** [df.drop_duplicates(subset=...)]: scan in order, keep a row iff
        its key was not seen before. *)
Fixpoint drop_duplicates_from (seen : list K) (l : list A) : list A :=
      match l with
      | [] => []
      | x :: l' =>
          if bool_decide (key x ∈ seen) then drop_duplicates_from seen l'
          else x :: drop_duplicates_from (key x :: seen) l'
      end.

Definition drop_duplicates (l : list A) : list A :=
      drop_duplicates_from [] l.

    (** [df.sort_values(...)]: a stable sort, here by insertion. *)
Fixpoint insert_sorted (x : A) (l : list A) : list A :=
      match l with
      | [] => [x]
      | y :: l' => if leb x y then x :: y :: l' else y :: insert_sorted x l'
      end.

Fixpoint sort_values (l : list A) : list A :=
      match l with
      | [] => []
      | x :: l' => insert_sorted x (sort_values l')
      end.

Fixpoint is_sorted (l : list A) : bool :=
      match l with
      | [] => true
      | x :: l' =>
          match l' with
          | [] => true
          | y :: _ => leb x y && is_sorted l'
          end
      end.
End Generic.

  (** Ascending order on timestamps, [NaT] last. *)
Definition ts_leb (a b : option Z) : bool :=
    match a, b with
    | Some x, Some y => x <=? y
    | Some _, None => true
    | None, Some _ => false
    | None, None => true
    end.

  (** Lexicographic order on [(station_id, timestamp)]. *)
Definition key_leb (a b : Row) : bool :=
    if String.eqb (station_id a) (station_id b)
    then ts_leb (timestamp a) (timestamp b)
    else String.leb (station_id a) (station_id b).

  (** [df[ts.notna() & (ts >= lo) & (ts <= hi)]]. *)
Definition in_window (lo hi : Z) (r : Row) : bool :=
    match timestamp r with
    | Some t => (lo <=? t) && (t <=? hi)
    | None => false
    end.

Definition window (lo hi : Z) (df : list Row) : list Row :=
    List.filter (in_window lo hi) df.

  (** [.drop_duplicates(subset=["station_id","timestamp"])
       .sort_values(["station_id","timestamp"]).reset_index(drop=True)] *)
Definition dedupe_sort (df : list Row) : list Row :=
    sort_values key_leb (drop_duplicates row_key df).

End Frame.

(* ===================================================================== *)
(** ** Effects: exceptions, the network, the log and the clock *)
(* ===================================================================== *)

Inductive Exn :=
| RequestException     (* requests: connection errors, timeouts, HTTPError *)
| ValueError           (* also json.JSONDecodeError *)
| TypeError
| AttributeError
| SystemExit.

Inductive result (A : Type) :=
| Ok (a : A)
| Raise (e : Exn).
Arguments Ok {A} a.
Arguments Raise {A} e.

(** What [requests.get] can do: fail to connect, or answer with a status
    and a body. *)
Inductive Response (B : Type) :=
| ConnectionError
| Http (status : Z) (body : B).
Arguments ConnectionError {B}.
Arguments Http {B} status body.

(** [resp.raise_for_status()] raises [HTTPError] for 4xx and 5xx. *)
Definition raises_for_status (status : Z) : bool :=
  (400 <=? status) && (status <? 600).

Inductive Level := DEBUG | INFO | WARNING | ERROR.

(** The requests the scripts issue. *)
Inductive Req :=
| NdbcYear (station : string) (year : Z)
| NdbcRealtime (station : string)
| WuDay (station : string) (day : Z)
| Mesonet (station : string) (start_date end_date : Z).

(** What a run does besides computing its result, in order. *)
Inductive Event :=
| Request (r : Req)
| Sleep (seconds : Q)
| Log (lvl : Level).

(** A computation yields a value or raises, and leaves a trace. *)
Module Eff.
Definition M (A : Type) : Type := (result A * list Event)%type.

Definition ret {A} (a : A) : M A := (Ok a, []).
Definition raise {A} (e : Exn) : M A := (Raise e, []).
Definition emit (e : Event) : M unit := (Ok tt, [e]).
Definition lift {A} (r : result A) : M A := (r, []).

Definition bind {A B} (m : M A) (f : A -> M B) : M B :=
    match m with
    | (Ok a, t) => let '(r, t') := f a in (r, (t ++ t')%list)
    | (Raise e, t) => (Raise e, t)
    end.

  (** [try: m  except <caught>: h] *)
Definition try_except {A} (m : M A) (caught : Exn -> bool) (h : M A) : M A :=
    match m with
    | (Raise e, t) =>
        if caught e then let '(r, t') := h in (r, (t ++ t')%list)
        else (Raise e, t)
    | ok => ok
    end.

Definition value {A} (m : M A) : result A := fst m.
Definition trace {A} (m : M A) : list Event := snd m.

Fixpoint mapM {A B} (f : A -> M B) (l : list A) : M (list B) :=
    match l with
    | [] => ret []
    | x :: l' => bind (f x) (fun y => bind (mapM f l') (fun ys => ret (y :: ys)))
    end.

Definition log (lvl : Level) : M unit := emit (Log lvl).
Definition sleep (seconds : Q) : M unit := emit (Sleep seconds).
Definition request (r : Req) : M unit := emit (Request r).

  (** [except Exception] and [except requests.RequestException] *)
Definition any_exception (e : Exn) : bool :=
    match e with SystemExit => false | _ => true end.
Definition request_exception (e : Exn) : bool :=
    match e with RequestException => true | _ => false end.
End Eff.

Notation "x <- m ;; k" := (Eff.bind m (fun x => k))
  (at level 100, m at next level, right associativity).
Notation "m ;;; k" := (Eff.bind m (fun _ => k))
  (at level 100, right associativity).

(** Between two successive requests of a trace there is a sleep. *)
Fixpoint spaced_from (pending : bool) (tr : list Event) : bool :=
  match tr with
  | [] => true
  | Request _ :: tr' => negb pending && spaced_from true tr'
  | Sleep _ :: tr' => spaced_from false tr'
  | Log _ :: tr' => spaced_from pending tr'
  end.

Definition spaced (tr : list Event) : bool := spaced_from false tr.

(* ===================================================================== *)
(** ** Text helpers *)
(* ===================================================================== *)

Module Text.

Definition is_space (c : ascii) : bool :=
    let n := nat_of_ascii c in
    (Nat.eqb n 32) || ((Nat.leb 9 n) && (Nat.leb n 13)).

  (** [ln.startswith("#")] *)
Definition startswith_hash (s : string) : bool :=
    match s with
    | String c _ => Ascii.eqb c "#"%char
    | EmptyString => false
    end.

  (** [bool(ln.strip())]: some character is not white space. *)
Fixpoint nonblank (s : string) : bool :=
    match s with
    | EmptyString => false
    | String c s' => negb (is_space c) || nonblank s'
    end.

  (** [ln.split()]: the maximal runs of non-space characters. *)
Fixpoint split_from (cur : string) (s : string) : list string :=
    match s with
    | EmptyString =>
        match cur with EmptyString => [] | _ => [cur] end
    | String c s' =>
        if is_space c then
          match cur with
          | EmptyString => split_from EmptyString s'
          | _ => cur :: split_from EmptyString s'
          end
        else split_from (cur +:+ String c EmptyString) s'
    end.

Definition split (s : string) : list string := split_from EmptyString s.

Definition digit_val (c : ascii) : option Z :=
    let n := nat_of_ascii c in
    if (Nat.leb 48 n) && (Nat.leb n 57) then Some (Z.of_nat n - 48) else None.

Fixpoint read_digits (acc : Z) (s : string) : option Z :=
    match s with
    | EmptyString => Some acc
    | String c s' =>
        match digit_val c with
        | Some d => read_digits (acc * 10 + d) s'
        | None => None
        end
    end.

  (** A decimal integer with an optional sign. *)
Definition read_int (tok : string) : option Z :=
    match tok with
    | EmptyString => None
    | String c rest =>
        if Ascii.eqb c "-" then
          match rest with
          | EmptyString => None
          | _ => option_map Z.opp (read_digits 0 rest)
          end
        else if Ascii.eqb c "+" then
          match rest with
          | EmptyString => None
          | _ => read_digits 0 rest
          end
        else read_digits 0 tok
    end.

  (** One field as [pd.read_csv] reads it: a decimal integer, with or
      without sign, is an integer; any other text stays text. Numbers
      with a fractional part or an exponent are not modelled: they are
      kept as their text. *)
Definition read_cell (tok : string) : Cell :=
    match tok with
    | EmptyString => CNaN
    | _ => match read_int tok with
           | Some z => CInt z
           | None => CStr tok
           end
    end.

  (** [c.lower()] on one character and on a string. *)
Definition lower_ascii (c : ascii) : ascii :=
    let n := nat_of_ascii c in
    if (Nat.leb 65 n) && (Nat.leb n 90) then ascii_of_nat (n + 32) else c.

Fixpoint lower (s : string) : string :=
    match s with
    | EmptyString => EmptyString
    | String c s' => String (lower_ascii c) (lower s')
    end.

  (** [needle in s] *)
Fixpoint contains (needle s : string) : bool :=
    String.prefix needle s ||
    match s with
    | EmptyString => false
    | String _ s' => contains needle s'
    end.

End Text.

(* ===================================================================== *)
(** ** fetch_buoy_data.py *)
(* ===================================================================== *)

Module Buoy.
Import Calendar Frame.

Definition BUOY_STATIONS : list string :=
    ["46050"; "46029"; "46041"; "46087"; "46047"; "51001"].

  (** Canonical NDBC stdmet columns. *)
Definition canonical_cols : list string :=
    ["YY"; "MM"; "DD"; "hh"; "mm"; "WDIR"; "WSPD"; "GST"; "WVHT"; "DPD";
     "APD"; "MWD"; "PRES"; "ATMP"; "WTMP"; "DEWP"; "VIS"; "TIDE"].

Definition time_cols : list string := ["YY"; "MM"; "DD"; "hh"; "mm"].

  (** [time_cols.issubset(set(df.columns))] *)
Definition has_time_cols (columns : list string) : bool :=
    forallb (fun c => bool_decide (c ∈ columns)) time_cols.

  (** Header deduplication of [fetch_ndbc_realtime]: the loop over
      [raw_col_names] with the dictionary [seen]. *)
Fixpoint dedupe_names_from (seen : gmap string nat) (raw : list string)
    : list string :=
    match raw with
    | [] => []
    | name :: rest =>
        match seen !! name with
        | Some k =>
            (name +:+ "_" +:+ pretty (S k))
              :: dedupe_names_from (<[name := S k]> seen) rest
        | None =>
            name :: dedupe_names_from (<[name := 0%nat]> seen) rest
        end
    end.

Definition dedupe_names (raw_col_names : list string) : list string :=
    dedupe_names_from ∅ raw_col_names.

  (** Timestamp of one record in [fetch_ndbc_year]: whatever is in "YY"
      is the year. *)
Definition year_timestamp (r : gmap string Cell) : option Z :=
    match cell_num (r !! "YY"), cell_num (r !! "MM"), cell_num (r !! "DD"),
          cell_num (r !! "hh"), cell_num (r !! "mm") with
    | Some y, Some m, Some d, Some h, Some mi =>
        to_datetime_components y m d h mi
    | _, _, _, _, _ => None
    end.

  (** [int(cell)] for [df["YY"].astype(int)]. *)
Definition astype_int (c : option Cell) : result Z :=
    match c with
    | Some (CInt z) => Ok z
    | _ => Raise ValueError
    end.

  (** Timestamp of one record in [fetch_ndbc_realtime]:
      [YYYY = 2000 + YY], then the five components are combined. *)
Definition realtime_timestamp (r : gmap string Cell) : Eff.M (option Z) :=
    yy <- Eff.lift (astype_int (r !! "YY")) ;;
    let yyyy := 2000 + yy in
    Eff.ret match cell_num (r !! "MM"), cell_num (r !! "DD"),
                  cell_num (r !! "hh"), cell_num (r !! "mm") with
            | Some m, Some d, Some h, Some mi =>
                to_datetime_components yyyy m d h mi
            | _, _, _, _ => None
            end.

  (** [pd.read_csv(..., sep=r"\s+", engine="python")] takes the number
      of fields of a table from its first line, or from [names] when
      they are given.  A line with more fields than that makes it raise
      [ParserError], which is a [ValueError]; a line with fewer is
      filled with missing values. *)
Definition too_wide (width : nat) (lines : list string) : bool :=
    existsb (fun ln => Nat.ltb width (length (Text.split ln))) lines.

  (** With [names], the fields by which the first line is longer than
      the names are the index of the table: they come first and belong
      to no column. *)
Definition index_cols (names : list string) (lines : list string) : nat :=
    match lines with
    | [] => O
    | first :: _ => (length (Text.split first) - length names)%nat
    end.

  (** The first line that is not a comment, and the lines after it:
      [non_empty[header_idx]] and [non_empty[header_idx + 1:]]. *)
Fixpoint find_header (non_empty : list string)
    : option (string * list string) :=
    match non_empty with
    | [] => None
    | ln :: rest =>
        if Text.startswith_hash ln then find_header rest else Some (ln, rest)
    end.

Section Run.
    (** [END_DATE = datetime.utcnow().date()] *)
Variable END_DATE : Z.
Definition START_DATE : Z := END_DATE - 5 * 365.

    (** The yearly archive: [None] when it cannot be gunzipped, else the
        lines of the text. The realtime feed: the lines of [resp.text]. *)
Variable get_year : string -> Z -> Response (option (list string)).
Variable get_realtime : string -> Response (list string).

    (** The per-request window of both fetchers:
        [start_ts <= ts <= END_DATE + 1 day - 1 microsecond]. *)
Definition chunk_window (df : list Row) : list Row :=
      window (Timestamp START_DATE)
             (Timestamp END_DATE + Timedelta_days 1 - Timedelta_microseconds 1)
             df.

    (** The table of [fetch_ndbc_year] once the data lines are known
        and none is longer than the first. *)
Definition year_frame (station_id : string) (first : string)
               (data_lines : list string) : list Row :=
      let table := map (fun ln => map Text.read_cell (Text.split ln)) data_lines in
      let n := Nat.min (length (Text.split first)) (length canonical_cols) in
      let columns := take n canonical_cols in
      map (fun cells =>
             let r := record_of columns (take n cells) in
             mkRow (if has_time_cols columns then year_timestamp r else None)
                   station_id None r)
          table.

Definition fetch_ndbc_year (station_id : string) (year : Z)
      : Eff.M (list Row) :=
      Eff.log INFO ;;;
      Eff.request (NdbcYear station_id year) ;;;
      match get_year station_id year with
      | ConnectionError => Eff.log ERROR ;;; Eff.ret []
      | Http status body =>
          if raises_for_status status then
            (if status =? 404 then Eff.log WARNING else Eff.log ERROR) ;;;
            Eff.ret []
          else
            match body with
            | None => Eff.log ERROR ;;; Eff.ret []
            | Some lines =>
                let data_lines :=
                  List.filter (fun ln => negb (Text.startswith_hash ln)
                                         && Text.nonblank ln) lines in
                match data_lines with
                | [] => Eff.log WARNING ;;; Eff.ret []
                | first :: _ =>
                    if too_wide (length (Text.split first)) data_lines
                    then Eff.raise ValueError
                    else
                      let df := year_frame station_id first data_lines in
                      (if has_time_cols
                            (take (Nat.min (length (Text.split first))
                                           (length canonical_cols)) canonical_cols)
                       then Eff.ret tt else Eff.log WARNING) ;;;
                      Eff.ret (chunk_window df)
                end
            end
      end.

Definition fetch_ndbc_realtime (station_id : string) : Eff.M (list Row) :=
      Eff.log INFO ;;;
      Eff.request (NdbcRealtime station_id) ;;;
      match get_realtime station_id with
      | ConnectionError => Eff.log ERROR ;;; Eff.ret []
      | Http status lines =>
          if raises_for_status status then
            (if status =? 404 then Eff.log WARNING else Eff.log ERROR) ;;;
            Eff.ret []
          else
            let non_empty := List.filter Text.nonblank lines in
            match find_header non_empty with
            | None => Eff.log WARNING ;;; Eff.ret []
            | Some (header_line, records) =>
                let col_names := dedupe_names (Text.split header_line) in
                match records with
                | [] => Eff.log WARNING ;;; Eff.ret []
                | _ =>
                    (* pd.read_csv(names=col_names): the names must be
                       pairwise different *)
                    if negb (bool_decide (NoDup col_names))
                    then Eff.raise ValueError
                    else
                      let k := index_cols col_names records in
                      if too_wide (length col_names + k) records
                      then Eff.raise ValueError
                      else
                        let table :=
                          map (fun ln =>
                                 record_of col_names
                                   (drop k (map Text.read_cell (Text.split ln))))
                              records in
                        stamps <- (if has_time_cols col_names
                                   then Eff.mapM realtime_timestamp table
                                   else Eff.log WARNING ;;;
                                        Eff.ret (map (fun _ => None) table)) ;;
                        Eff.ret (chunk_window
                                   (map (fun '(r, ts) => mkRow ts station_id None r)
                                        (zip table stamps)))
                end
            end
      end.

    (** [range(START_DATE.year, END_DATE.year)] *)
Definition hist_years : list Z :=
      seqZ (date_year START_DATE) (date_year END_DATE - date_year START_DATE).

    (** The final window of [fetch_buoy_data]:
        [start_ts = pd.to_datetime(START_DATE)],
        [end_ts = pd.to_datetime(END_DATE)]. *)
Definition final_window (df_all : list Row) : list Row :=
      window (Timestamp START_DATE) (Timestamp END_DATE) df_all.

    (** Window Filter & Deduplicator of [fetch_buoy_data]. *)
Definition assemble (df_all : list Row) : list Row :=
      dedupe_sort (final_window df_all).

    (** One turn of the loop over [BUOY_STATIONS]: the yearly archives,
        then the realtime feed. *)
Definition fetch_station (station : string) : Eff.M (list Row) :=
      hist <- Eff.mapM (fetch_ndbc_year station) hist_years ;;
      df_rt <- fetch_ndbc_realtime station ;;
      Eff.ret (concat hist ++ df_rt)%list.

Definition fetch_buoy_data : Eff.M (list Row) :=
      Eff.log INFO ;;;
      all_frames <- Eff.mapM fetch_station BUOY_STATIONS ;;
      match concat all_frames with
      | [] => Eff.log WARNING ;;; Eff.ret []
      | df_all => Eff.ret (assemble df_all)
      end.
End Run.

End Buoy.

(* ===================================================================== *)
(** ** Station directories: stations_registry.py and
       services/stations_service_pg.py *)
(* ===================================================================== *)

Module Stations.

  (** The values a station record holds: text, [None], a boolean, or a
      nested dictionary of text (the [metadata] of a station). Numeric
      columns are left out: nothing reads them. *)
Inductive PyVal :=
  | PStr (s : string)
  | PNone
  | PBool (b : bool)
  | PDict (d : list (string * string)).

  (** A station record: a Python [dict] / [TypedDict]. *)
Abbreviation Info := (gmap string PyVal).

  (** [not info]: [None] and the empty dict are falsy. *)
Definition falsy (info : option Info) : bool :=
    match info with
    | None => true
    | Some d => bool_decide (d = ∅)
    end.

  (** [d.get(k) or dflt] for a value that is text or [None]. *)
Definition get_or (d : Info) (k : string) (dflt : string) : string :=
    match d !! k with
    | Some (PStr (String c s)) => String c s
    | _ => dflt
    end.

  (** A Python function of one or of two positional parameters, and its
      call with a list of positional arguments: a wrong number of
      arguments raises [TypeError]. *)
Inductive Callable :=
  | Fun1 (f : string -> option Info)
  | Fun2 (f : string -> string -> option Info).

Definition call (f : Callable) (args : list string) : result (option Info) :=
    match f, args with
    | Fun1 f, [a] => Ok (f a)
    | Fun2 f, [a; b] => Ok (f a b)
    | _, _ => Raise TypeError
    end.

  (** *** stations_registry.py *)
Module Registry.

Definition station (station_id name source_type provider region : string)
      : string * Info :=
      (station_id,
       list_to_map [("station_id", PStr station_id); ("name", PStr name);
                    ("source_type", PStr source_type);
                    ("provider", PStr provider); ("region", PStr region)]).

Definition STATION_REGISTRY : list (string * list (string * Info)) :=
      [("buoy",
        [station "46050" "Stonewall Banks, OR" "buoy" "NDBC" "Oregon Coast";
         station "46029" "Columbia River Bar, OR/WA" "buoy" "NDBC"
                 "Oregon/Washington Coast";
         station "46041" "Cape Elizabeth, OR" "buoy" "NDBC" "Oregon Coast";
         station "46087" "Tillamook, OR" "buoy" "NDBC" "Oregon Coast";
         station "46047" "Neah Bay, WA" "buoy" "NDBC" "Washington Coast";
         station "51001" "Northwest Hawaii" "buoy" "NDBC" "Hawaii"]);
       ("airport",
        [station "KEUG" "Eugene Airport" "airport" "Mesonet ASOS"
                 "Willamette Valley";
         station "KSLE" "Salem Airport" "airport" "Mesonet ASOS"
                 "Willamette Valley";
         station "KMMV" "McMinnville Airport" "airport" "Mesonet ASOS"
                 "Willamette Valley";
         station "KONP" "Newport Airport" "airport" "Mesonet ASOS"
                 "Oregon Coast"]);
       ("pws",
        [station "KORMCMIN133" "propdada" "pws" "Weather Underground"
                 "McMinnville";
         station "KORMCMIN127" "dustprop" "pws" "Weather Underground"
                 "McMinnville"])].

    (** [d.get(k)] on a dict kept in insertion order. *)
Fixpoint dict_get {V} (d : list (string * V)) (k : string) : option V :=
      match d with
      | [] => None
      | (k', v) :: d' => if String.eqb k' k then Some v else dict_get d' k
      end.

Definition get_station_ids (source_type : string) : list string :=
      map fst (default [] (dict_get STATION_REGISTRY source_type)).

Definition get_station_info (source_type station_id : string)
      : option Info :=
      dict_get (default [] (dict_get STATION_REGISTRY source_type)) station_id.

End Registry.

  (** *** services/stations_service_pg.py *)
Module Pg.

    (** One line of the [stations] table: the three columns the
        queries name, and whatever other columns the table has, under
        their names. *)
Record StationRow := mkStationRow {
      pg_station_id : string;
      pg_station_type : string;
      pg_active : bool;
      pg_columns : Info
    }.

    (** [dict(row)] of a [RealDictCursor] row of [SELECT *]: every
        column of the table under its name. *)
Definition dict_of (r : StationRow) : Info :=
      <["station_id" := PStr (pg_station_id r)]>
        (<["station_type" := PStr (pg_station_type r)]>
           (<["active" := PBool (pg_active r)]> (pg_columns r))).

    (** [SELECT station_id FROM stations WHERE station_type = %s
         AND active = TRUE ORDER BY station_id] *)
Definition get_station_ids (stations : list StationRow)
               (station_type : string) : list string :=
      Frame.sort_values String.leb
        (map pg_station_id
           (List.filter (fun r => String.eqb (pg_station_type r) station_type
                                  && pg_active r) stations)).

    (** [SELECT * FROM stations WHERE station_id = %s LIMIT 1]:
        one parameter, the station id. *)
Definition get_station_info (stations : list StationRow)
               (station_id : string) : option Info :=
      match List.find (fun r => String.eqb (pg_station_id r) station_id)
                      stations with
      | Some r => Some (dict_of r)
      | None => None
      end.

End Pg.

  (** The two backends as the callables a script imports under the name
      [get_station_info]. *)
Definition registry_backend : Callable := Fun2 Registry.get_station_info.
Definition pg_backend (stations : list Pg.StationRow) : Callable :=
    Fun1 (Pg.get_station_info stations).

End Stations.

(* ===================================================================== *)
(** ** Weather Underground payloads (both PWS scripts) *)
(* ===================================================================== *)

Module Wu.
Import Frame.

  (** One observation, flattened by [pd.json_normalize]: its keys in
      order, with their values. *)
Definition Obs : Type := list (string * Cell).

  (** The body of a response, as [resp.json()] and [data.get] see it. *)
Inductive Json :=
  | NotJson                                     (* resp.json() raises *)
  | JsonOther                                   (* JSON, but not an object *)
  | JsonObject (observations : option (list Obs)).

  (** The dtype of a [timestamp] column: naive, UTC-aware, or [object]
      (what [pd.concat] gives for naive and aware columns together; the
      flag tells whether it holds an aware timestamp). *)
Inductive DType :=
  | dt_naive
  | dt_utc
  | dt_object (has_aware : bool).

Record DataFrame := mkFrame { dtype : DType; rows : list Row }.

  (** [pd.DataFrame()] *)
Definition empty_frame : DataFrame := mkFrame dt_naive [].

  (** [df.empty] *)
Definition empty (df : DataFrame) : bool :=
    match rows df with [] => true | _ => false end.

Definition notna (r : Row) : bool :=
    match timestamp r with Some _ => true | None => false end.

Definition has_aware (df : DataFrame) : bool :=
    match dtype df with
    | dt_naive => false
    | dt_utc => existsb notna (rows df)
    | dt_object b => b
    end.

Definition is_utc (df : DataFrame) : bool :=
    match dtype df with dt_utc => true | _ => false end.
Definition is_naive (df : DataFrame) : bool :=
    match dtype df with dt_naive => true | _ => false end.

  (** [pd.concat(frames, ignore_index=True)] *)
Definition concat_frames (frames : list DataFrame) : DataFrame :=
    mkFrame (if forallb is_utc frames then dt_utc
             else if forallb is_naive frames then dt_naive
             else dt_object (existsb has_aware frames))
            (concat (map rows frames)).

  (** [df.columns] after [json_normalize]: the keys, each once, in the
      order they first occur. *)
Definition columns_of (observations : list Obs) : list string :=
    drop_duplicates (fun c : string => c) (concat (map (map fst) observations)).

  (** The column the timestamp is read from, and whether it is read with
      [utc=True]. *)
Definition time_column (columns : list string) : option (string * bool) :=
    if bool_decide ("obsTimeUtc" ∈ columns) then Some ("obsTimeUtc", true)
    else if bool_decide ("obsTimeLocal" ∈ columns) then Some ("obsTimeLocal", false)
    else match List.find (fun c => Text.contains "time" (Text.lower c)) columns with
         | Some c => Some (c, false)
         | None => None
         end.

Definition by_timestamp (a b : Row) : bool :=
    ts_leb (timestamp a) (timestamp b).

Section Parse.
    (** [pd.to_datetime(cell, errors="coerce", utc=...)] on one cell:
        the instant it denotes (in microseconds), or [NaT]. *)
Variable to_datetime : bool -> Cell -> option Z.

    (** A missing value is [NaT]. *)
Definition parse (utc : bool) (c : option Cell) : option Z :=
      match c with
      | None | Some CNaN => None
      | Some c => to_datetime utc c
      end.

    (** The frame both [fetch_pws_day] build from a non-empty list of
        observations: timestamp column, sorted by it, station columns.
        Observations with the same timestamp keep their order here;
        pandas does not promise any order between them. *)
Definition normalize (station_id : string) (station_name : option string)
               (observations : list Obs) : DataFrame :=
      let columns := columns_of observations in
      let stamp (o : Obs) : option Z :=
        match time_column columns with
        | Some (c, utc) => parse utc (list_to_map (M := gmap string Cell) o !! c)
        | None => None
        end in
      mkFrame
        (match time_column columns with
         | Some (_, true) => dt_utc
         | _ => dt_naive
         end)
        (sort_values by_timestamp
           (map (fun o => mkRow (stamp o) station_id station_name (list_to_map o))
                observations)).
End Parse.

End Wu.

(* ===================================================================== *)
(** ** build_pws_observations.py *)
(* ===================================================================== *)

Module Pws.
Import Calendar Frame Wu.

Definition PWS_STATION_WINDOWS : list (string * Z) :=
    [("KORMCMIN127", mk_date 2024 12 20); ("KORMCMIN133", mk_date 2025 4 25)].

  (** Seconds to sleep between each daily API request. *)
Definition REQUEST_SLEEP_SECONDS : Q := 1.

  (** [min(station_windows.values())] *)
Definition min_of (l : list Z) : result Z :=
    match l with
    | [] => Raise ValueError
    | x :: l' => Ok (fold_left Z.min l' x)
    end.

  (** The last filter of [build_combined_pws_observations]: one lower
      bound, [min_start], for every row; the branch follows the dtype of
      the timestamp column. *)
Definition window_filter (min_start end_date : Z) (df_all : DataFrame)
    : result (list Row) :=
    let start_ts := Timestamp min_start in
    let end_ts := Timestamp end_date + Timedelta_days 1 - Timedelta_microseconds 1 in
    let naive := window (Timestamp min_start)
                        (Timestamp end_date + Timedelta_days 1) (rows df_all) in
    match dtype df_all with
    | dt_utc => Ok (window start_ts end_ts (rows df_all))
    | dt_naive => Ok naive
    | dt_object aware => if aware then Raise TypeError else Ok naive
    end.

Section Run.
Variable to_datetime : bool -> Cell -> option Z.
    (** The answer of the provider for a station and a day. *)
Variable get : string -> Z -> Response Json.

Definition fetch_pws_day (station_id : string) (day : Z)
      : Eff.M DataFrame :=
      resp <- Eff.try_except
                (Eff.request (WuDay station_id day) ;;;
                 match get station_id day with
                 | ConnectionError => Eff.raise RequestException
                 | Http status body =>
                     if raises_for_status status
                     then Eff.raise RequestException
                     else Eff.ret (Some body)
                 end)
                Eff.request_exception
                (Eff.log ERROR ;;; Eff.ret None) ;;
      match resp with
      | None => Eff.ret empty_frame
      | Some NotJson => Eff.raise ValueError
      | Some JsonOther => Eff.raise AttributeError
      | Some (JsonObject None) | Some (JsonObject (Some [])) =>
          Eff.log WARNING ;;; Eff.ret empty_frame
      | Some (JsonObject (Some observations)) =>
          (match time_column (columns_of observations) with
           | Some _ => Eff.ret tt
           | None => Eff.log WARNING
           end) ;;;
          Eff.ret (normalize to_datetime station_id None observations)
      end.

    (** The days [start_date], [start_date + 1], ..., [end_date]. *)
Definition days (start_date end_date : Z) : list Z :=
      seqZ start_date (end_date - start_date + 1).

Definition fetch_pws_range (station_id : string) (start_date end_date : Z)
      : Eff.M DataFrame :=
      Eff.log INFO ;;;
      dfs <- Eff.mapM (fun current =>
                         df_day <- fetch_pws_day station_id current ;;
                         Eff.sleep REQUEST_SLEEP_SECONDS ;;;
                         Eff.ret df_day)
                      (days start_date end_date) ;;
      match List.filter (fun df => negb (empty df)) dfs with
      | [] => Eff.log WARNING ;;; Eff.ret empty_frame
      | all_dfs => Eff.ret (concat_frames all_dfs)
      end.

Definition build_combined_pws_observations
               (station_windows : list (string * Z)) (end_date : Z)
      : Eff.M (list Row) :=
      frames <- Eff.mapM (fun '(station_id, start_date) =>
                            if end_date <? start_date
                            then Eff.log WARNING ;;; Eff.ret empty_frame
                            else fetch_pws_range station_id start_date end_date)
                         station_windows ;;
      match List.filter (fun df => negb (empty df)) frames with
      | [] => Eff.log WARNING ;;; Eff.ret []
      | all_frames =>
          let df_all := concat_frames all_frames in
          min_start <- Eff.lift (min_of (map snd station_windows)) ;;
          df <- Eff.lift (window_filter min_start end_date df_all) ;;
          Eff.ret (dedupe_sort df)
      end.
End Run.

End Pws.

(* ===================================================================== *)
(** ** fetch_pws_all_data.py *)
(* ===================================================================== *)

Module PwsAll.
Import Calendar Frame Wu Stations.

Section Run.
Variable to_datetime : bool -> Cell -> option Z.
Variable get : string -> Z -> Response Json.
    (** The names imported from the station service. *)
Variable get_station_info : Callable.
Variable get_station_ids : string -> list string.
    (** [os.getenv("WEATHER_API_KEY")] and [datetime.utcnow().date()] *)
Variable API_KEY : option string.
Variable END_DATE : Z.
Definition START_DATE : Z := END_DATE - 5 * 365.

Definition get_pws_ids : list string := get_station_ids "pws".

Definition get_pws_info (station_id : string) : Eff.M (option Info) :=
      Eff.lift (call get_station_info ["pws"; station_id]).

Definition get_pws_name (station_id : string) : Eff.M string :=
      info <- get_pws_info station_id ;;
      Eff.ret (match info with
               | Some d => if falsy info then station_id
                           else get_or d "name" station_id
               | None => station_id
               end).

    (** The id sent to the provider: [metadata["wu_station_id"]], else
        [code], else the logical id. Metadata stored as text is never
        decoded (the module does not import [json]; the failure is caught
        and the metadata taken as empty). *)
Definition get_wu_station_id (station_id : string) : Eff.M string :=
      info <- get_pws_info station_id ;;
      Eff.ret (match info with
               | Some d =>
                   if falsy info then station_id
                   else
                     let metadata :=
                       match d !! "metadata" with
                       | Some (PDict m) => m
                       | _ => []
                       end in
                     match Registry.dict_get metadata "wu_station_id" with
                     | Some wu => wu
                     | None => get_or d "code" station_id
                     end
               | None => station_id
               end).

Definition fetch_pws_day (station_id : string) (date_obj : Z)
      : Eff.M DataFrame :=
      wu_station_id <- get_wu_station_id station_id ;;
      Eff.log DEBUG ;;;
      Eff.request (WuDay wu_station_id date_obj) ;;;
      match get wu_station_id date_obj with
      | ConnectionError => Eff.raise RequestException
      | Http status body =>
          if raises_for_status status then Eff.raise RequestException
          else
            match body with
            | NotJson => Eff.raise ValueError
            | JsonOther => Eff.raise AttributeError
            | JsonObject None | JsonObject (Some []) =>
                Eff.log WARNING ;;; Eff.ret empty_frame
            | JsonObject (Some observations) =>
                (match time_column (columns_of observations) with
                 | Some _ => Eff.ret tt
                 | None => Eff.log ERROR
                 end) ;;;
                name <- get_pws_name station_id ;;
                Eff.ret (normalize to_datetime station_id (Some name) observations)
            end
      end.

Definition fetch_pws_range (station_id : string) (start_date end_date : Z)
      : Eff.M DataFrame :=
      Eff.log INFO ;;;
      dfs <- Eff.mapM (fun current =>
                         Eff.try_except (fetch_pws_day station_id current)
                                        Eff.any_exception
                                        (Eff.log ERROR ;;; Eff.ret empty_frame))
                      (Pws.days start_date end_date) ;;
      match List.filter (fun df => negb (empty df)) dfs with
      | [] => Eff.log WARNING ;;; Eff.ret empty_frame
      | all_dfs => Eff.ret (concat_frames all_dfs)
      end.

    (** The last filter of [fetch_pws_data]: both bounds are naive. *)
Definition window_filter (df_all : DataFrame) : result (list Row) :=
      let kept := window (Timestamp START_DATE)
                         (Timestamp END_DATE + Timedelta_days 1
                          - Timedelta_microseconds 1) (rows df_all) in
      match dtype df_all with
      | dt_naive => Ok kept
      | dt_utc => Raise TypeError
      | dt_object aware => if aware then Raise TypeError else Ok kept
      end.

Definition fetch_pws_data : Eff.M (list Row) :=
      match API_KEY with
      | None | Some EmptyString => Eff.raise SystemExit
      | Some _ =>
          match get_pws_ids with
          | [] => Eff.log WARNING ;;; Eff.ret []
          | pws_ids =>
              Eff.log INFO ;;;
              frames <- Eff.mapM (fun station =>
                                    fetch_pws_range station START_DATE END_DATE)
                                 pws_ids ;;
              match List.filter (fun df => negb (empty df)) frames with
              | [] => Eff.log WARNING ;;; Eff.ret []
              | all_frames =>
                  df <- Eff.lift (window_filter (concat_frames all_frames)) ;;
                  Eff.ret (dedupe_sort df)
              end
          end
      end.
End Run.

End PwsAll.

(* ===================================================================== *)
(** ** fetch_airport_mesonet_data.py *)
(* ===================================================================== *)

Module Airport.
Import Calendar Frame Stations.

  (** The body of a Mesonet answer, as [pd.read_csv] sees it. *)
Inductive Csv :=
  | EmptyText                       (* resp.text.strip() is empty *)
  | BadCsv                          (* pd.read_csv raises *)
  | Table (columns : list string) (records : list (list Cell)).

Section Run.
Variable to_datetime : bool -> Cell -> option Z.
    (** The answer of the provider for a station and a window. *)
Variable get : string -> Z -> Z -> Response Csv.
    (** The names imported from the station service. *)
Variable get_station_info : Callable.
Variable get_station_ids : string -> list string.
Variable END_DATE : Z.
Definition START_DATE : Z := END_DATE - 5 * 365.

Definition get_airport_ids : list string := get_station_ids "airport".

Definition get_airport_name (station_id : string) : Eff.M string :=
      info <- Eff.lift (call get_station_info ["airport"; station_id]) ;;
      Eff.ret (match info with
               | Some d => if falsy info then station_id
                           else get_or d "name" station_id
               | None => station_id
               end).

    (** The cell of one record in the column [station]. *)
Definition station_cell (columns : list string) (cells : list Cell) : Cell :=
      default CNaN (record_of columns cells !! "station").

    (** [df["station"]], the column as a whole. *)
Definition station_column (columns : list string)
               (records : list (list Cell)) : list Cell :=
      map (station_cell columns) records.

    (** The rows of [fetch_asos_for_station] before its window: the
        timestamp from [valid], the station id from
        [df["station"].astype(str)] when the table has that column, the
        name from the directory. *)
Definition standardize (station_id station_name : string)
               (columns : list string) (records : list (list Cell)) : list Row :=
      map (fun cells =>
             let r := record_of columns cells in
             mkRow (if bool_decide ("valid" ∈ columns)
                    then Wu.parse to_datetime true (r !! "valid") else None)
                   (if bool_decide ("station" ∈ columns)
                    then astype_str (col_type (station_column columns records))
                                    (station_cell columns cells)
                    else station_id)
                   (Some station_name) r)
          records.

    (** [start_ts <= ts <= END_DATE + 1 day - 1 microsecond], all UTC. *)
Definition global_window (df : list Row) : list Row :=
      window (Timestamp START_DATE)
             (Timestamp END_DATE + Timedelta_days 1 - Timedelta_microseconds 1)
             df.

Definition fetch_asos_for_station (station_id : string)
               (start_date end_date : Z) : Eff.M (list Row) :=
      station_name <- get_airport_name station_id ;;
      Eff.log INFO ;;;
      Eff.request (Mesonet station_id start_date end_date) ;;;
      match get station_id start_date end_date with
      | ConnectionError => Eff.log ERROR ;;; Eff.ret []
      | Http status body =>
          if raises_for_status status then Eff.log ERROR ;;; Eff.ret []
          else
            match body with
            | EmptyText => Eff.log WARNING ;;; Eff.ret []
            | BadCsv => Eff.log ERROR ;;; Eff.ret []
            | Table _ [] => Eff.log WARNING ;;; Eff.ret []
            | Table columns records =>
                if bool_decide ("valid" ∈ columns) then
                  let df := global_window
                              (standardize station_id station_name columns records) in
                  (match df with [] => Eff.log WARNING | _ => Eff.ret tt end) ;;;
                  Eff.ret df
                else
                  (* df["timestamp"] = pd.NaT is a naive column: comparing
                     it with the tz-aware bounds raises *)
                  Eff.log WARNING ;;; Eff.raise TypeError
            end
      end.

    (** Window Filter & Deduplicator of [fetch_airport_data]. *)
Definition assemble (df_all : list Row) : list Row :=
      dedupe_sort (global_window df_all).

Definition fetch_airport_data : Eff.M (list Row) :=
      match get_airport_ids with
      | [] => Eff.log WARNING ;;; Eff.ret []
      | airport_ids =>
          Eff.log INFO ;;;
          all_frames <- Eff.mapM (fun station =>
                                    fetch_asos_for_station station
                                                           START_DATE END_DATE)
                                 airport_ids ;;
          match concat all_frames with
          | [] => Eff.log WARNING ;;; Eff.ret []
          | df_all => Eff.ret (assemble df_all)
          end
      end.
End Run.

End Airport.

(* ===================================================================== *)
(** ** Reading ISO timestamps, and the tables a run can return *)
(* ===================================================================== *)

Module Iso.
Import Calendar.

Definition num2 (a b : ascii) : option Z :=
    match Text.digit_val a, Text.digit_val b with
    | Some x, Some y => Some (10 * x + y)
    | _, _ => None
    end.

Definition is_char (c : ascii) (s : string) : bool :=
    String.eqb (String c EmptyString) s.

  (** An instance of [pd.to_datetime] for text of the shapes
      [YYYY-MM-DD HH:MM:SS], [YYYY-MM-DDTHH:MM:SS] and
      [YYYY-MM-DDTHH:MM:SSZ]; anything else is [NaT]. *)
Definition to_datetime (utc : bool) (c : Cell) : option Z :=
    match c with
    | CStr s =>
        match list_ascii_of_string s with
        | y1 :: y2 :: y3 :: y4 :: p1 :: m1 :: m2 :: p2 :: d1 :: d2 :: sep
            :: h1 :: h2 :: q1 :: n1 :: n2 :: q2 :: s1 :: s2 :: rest =>
            match num2 y1 y2, num2 y3 y4, num2 m1 m2, num2 d1 d2,
                  num2 h1 h2, num2 n1 n2, num2 s1 s2 with
            | Some yh, Some yl, Some m, Some d, Some h, Some mi, Some sec =>
                let y := 100 * yh + yl in
                if is_char p1 "-" && is_char p2 "-"
                   && (is_char sep " " || is_char sep "T")
                   && is_char q1 ":" && is_char q2 ":"
                   && match rest with
                      | [] => true
                      | [z] => is_char z "Z"
                      | _ => false
                      end
                   && valid_ymd y m d && (h <? 24) && (mi <? 60) && (sec <? 60)
                then Some (Timestamp (mk_date y m d) + h * US_PER_HOUR
                           + mi * US_PER_MINUTE + sec * 1000000)
                else None
            | _, _, _, _, _, _, _ => None
            end
        | _ => None
        end
    | _ => None
    end.
End Iso.

(** The tables the four fetchers can return. *)
Inductive final_table : list Row -> Prop :=
| final_buoy END_DATE get_year get_realtime df :
    Eff.value (Buoy.fetch_buoy_data END_DATE get_year get_realtime) = Ok df ->
    final_table df
| final_airport to_datetime get get_station_info get_station_ids END_DATE df :
    Eff.value (Airport.fetch_airport_data to_datetime get get_station_info
                 get_station_ids END_DATE) = Ok df ->
    final_table df
| final_pws to_datetime get station_windows end_date df :
    Eff.value (Pws.build_combined_pws_observations to_datetime get
                 station_windows end_date) = Ok df ->
    final_table df
| final_pws_all to_datetime get get_station_info get_station_ids API_KEY
                END_DATE df :
    Eff.value (PwsAll.fetch_pws_data to_datetime get get_station_info
                 get_station_ids API_KEY END_DATE) = Ok df ->
    final_table df.

(* ===================================================================== *)
(** ** Vocabulary of the statements, and concrete runs *)
(* ===================================================================== *)

(** How many earlier occurrences the dictionary [seen] records. *)
Definition occurrences (seen : gmap string nat) (name : string) : nat :=
  match seen !! name with
  | Some k => S k
  | None => 0
  end.

(** A name as it stands for its first occurrence, with [_k] appended for
    its [k]-th repeat. *)
Definition suffixed (name : string) (k : nat) : string :=
  match k with
  | O => name
  | S _ => name +:+ "_" +:+ pretty k
  end.

(** A date of the years 2000..2099 is read back as it was written in
    [year * 10000 + month * 100 + day], is computed back from its day
    number, and lies well inside the range of a timestamp. *)
Definition century_ok (yy m d : Z) : bool :=
  implb (Calendar.valid_ymd (2000 + yy) m d)
        (bool_decide (Calendar.strptime_Ymd ((2000 + yy) * 10000 + m * 100 + d)
                      = Some (2000 + yy, m, d))
         && (Calendar.date_year (Calendar.mk_date (2000 + yy) m d) =? 2000 + yy)
         && (0 <=? Calendar.mk_date (2000 + yy) m d)
         && (Calendar.mk_date (2000 + yy) m d <? 50000)).

(** With a year of one or two digits, what is read back in
    [year * 10000 + month * 100 + day] is not a date of the year
    [2000 + year]. *)
Definition two_digits_ok (yy m d : Z) : bool :=
  match Calendar.strptime_Ymd (yy * 10000 + m * 100 + d) with
  | Some (year, month, day) =>
      negb (Calendar.valid_ymd year month day
            && (Calendar.date_year (Calendar.mk_date year month day) =? 2000 + yy))
  | None => true
  end.

(** A check of every year [0..99], month [1..12] and day [1..31]. *)
Definition every_date (check : Z -> Z -> Z -> bool) : bool :=
  forallb (fun yy =>
    forallb (fun m => forallb (check yy m) (seqZ 1 31)) (seqZ 1 12)) (seqZ 0 100).

(** Whether a request is still waiting for its sleep at the end of a
    trace. *)
Fixpoint pending_after (pending : bool) (tr : list Event) : bool :=
  match tr with
  | [] => pending
  | Request _ :: tr' => pending_after true tr'
  | Sleep _ :: tr' => pending_after false tr'
  | Log _ :: tr' => pending_after pending tr'
  end.

(** Every sleep of a trace lasts [delay] seconds. *)
Definition sleeps_are (delay : Q) (tr : list Event) : Prop :=
  Forall (fun ev => match ev with Sleep s => s = delay | _ => True end) tr.

(** A computation that leaves no request waiting: its trace is spaced,
    its sleeps last [delay], and when it returns the last request has
    been followed by a sleep. *)
Definition paced {A} (delay : Q) (m : Eff.M A) : Prop :=
  spaced (Eff.trace m) = true
  /\ sleeps_are delay (Eff.trace m)
  /\ (forall a, Eff.value m = Ok a -> pending_after false (Eff.trace m) = false).

Definition is_log (ev : Event) : Prop :=
  match ev with Log _ => True | _ => False end.

Module Scenario.
Import Calendar.

  (** A run on 2025-11-18. *)
Definition END_DATE : Z := mk_date 2025 11 18.

  (** NDBC: no yearly archive is published; station 46050 has a realtime
      feed with a repeated header name and a repeated record. *)
Definition no_archive (station : string) (year : Z)
    : Response (option (list string)) := Http 404 None.

Definition realtime_46050 (station : string) : Response (list string) :=
    if String.eqb station "46050" then
      Http 200 ["#station 46050";
                "YY MM DD hh mm WDIR WSPD WDIR";
                "25 11 17 10 00 310 5 300";
                "25 11 17 10 00 310 5 300";
                "25 11 16 10 00 300 4 290"]
    else Http 404 [].

Definition buoy_table : list Row :=
    match Eff.value (Buoy.fetch_buoy_data END_DATE no_archive realtime_46050) with
    | Ok df => df
    | Raise _ => []
    end.

  (** A record of the five time columns. *)
Definition time_record (yy m d h mi : Z) : gmap string Cell :=
    record_of Buoy.time_cols [CInt yy; CInt m; CInt d; CInt h; CInt mi].

  (** NDBC: the realtime feed of station 46050 holds one record, stamped
      noon of the day of the run. *)
Definition realtime_today (station : string) : Response (list string) :=
    if String.eqb station "46050" then
      Http 200 ["YY MM DD hh mm WDIR"; "25 11 18 12 00 310"]
    else Http 404 [].

Definition buoy_today_chunk : list Row :=
    match Eff.value (Buoy.fetch_ndbc_realtime END_DATE realtime_today "46050") with
    | Ok df => df
    | Raise _ => []
    end.

  (** Weather Underground: one station whose window is the day of the
      run; the provider returns one observation, stamped (local time) the
      midnight that ends that day. *)
Definition one_day_window : list (string * Z) := [("KORMCMIN127", END_DATE)].

Definition wu_midnight (station : string) (day : Z) : Response Wu.Json :=
    Http 200 (Wu.JsonObject
                (Some [[("stationID", CStr station);
                        ("obsTimeLocal", CStr "2025-11-19 00:00:00");
                        ("tempAvg", CInt 50)]])).

Definition pws_midnight_table : list Row :=
    match Eff.value (Pws.build_combined_pws_observations
                       Iso.to_datetime wu_midnight one_day_window END_DATE) with
    | Ok df => df
    | Raise _ => []
    end.

  (** Weather Underground: three days are asked for; the answer for the
      second one is an HTML page served with status 200. *)
Definition wu_observation (station : string) (day : Z) : Wu.Obs :=
    [("stationID", CStr station);
     ("obsTimeUtc", CStr (if day =? END_DATE - 2 then "2025-11-16T12:00:00Z"
                          else if day =? END_DATE - 1 then "2025-11-17T12:00:00Z"
                          else "2025-11-18T12:00:00Z"));
     ("tempAvg", CInt 50)].

Definition wu_second_day_html (station : string) (day : Z) : Response Wu.Json :=
    if day =? END_DATE - 1 then Http 200 Wu.NotJson
    else Http 200 (Wu.JsonObject (Some [wu_observation station day])).

  (** Weather Underground answering every day with one observation, and
      a two-day range. *)
Definition wu_every_day (station : string) (day : Z) : Response Wu.Json :=
    Http 200 (Wu.JsonObject (Some [wu_observation station day])).

  (** Two stations, the second one configured to start a day later; for
      the day it is asked about, the provider returns an observation of
      the second station stamped 23:30 UTC of the day before. *)
Definition two_windows : list (string * Z) :=
    [("KORMCMIN127", END_DATE - 1); ("KORMCMIN133", END_DATE)].

Definition wu_early (station : string) (day : Z) : Response Wu.Json :=
    if String.eqb station "KORMCMIN133" then
      Http 200 (Wu.JsonObject
                  (Some [[("stationID", CStr station);
                          ("obsTimeUtc", CStr "2025-11-17T23:30:00Z")]]))
    else wu_every_day station day.

Definition early_stamp : Z :=
    Timestamp (END_DATE - 1) + 23 * US_PER_HOUR + 30 * US_PER_MINUTE.

  (** What [fetch_pws_range] returns for the second station on that
      run, its first row, and the table of the whole run. *)
Definition early_fetched : Wu.DataFrame :=
    match Eff.value (Pws.fetch_pws_range Iso.to_datetime wu_early
                       "KORMCMIN133" END_DATE END_DATE) with
    | Ok df => df
    | Raise _ => Wu.empty_frame
    end.

Definition early_row : Row :=
    hd (mkRow None "" None ∅) (Wu.rows early_fetched).

Definition early_table : list Row :=
    match Eff.value (Pws.build_combined_pws_observations
                       Iso.to_datetime wu_early two_windows END_DATE) with
    | Ok df => df
    | Raise _ => []
    end.

  (** Mesonet answering a request for KEUG with rows it labels EUG. *)
Definition mesonet_eug (station : string) (start_date end_date : Z)
    : Response Airport.Csv :=
    Http 200 (Airport.Table ["station"; "valid"; "tmpf"]
                [[CStr "EUG"; CStr "2025-11-17 10:00:00"; CInt 50];
                 [CStr "EUG"; CStr "2025-11-17 11:00:00"; CInt 51]]).

Definition requests_of (tr : list Event) : list Req :=
    omap (fun ev => match ev with Request r => Some r | _ => None end) tr.
End Scenario.

(* ===================================================================== *)
(** ** The other functions of the station directories *)
(* ===================================================================== *)

Module Directory.
Import Stations.

  (** [stations_registry.all_stations_flat]: the records of every source
      type, one list. *)
Definition all_stations_flat : list Info :=
    concat (map (fun '(_, stations_dict) => map snd stations_dict)
                Registry.STATION_REGISTRY).

  (** [ORDER BY station_type, station_id] *)
Definition by_type_then_id (a b : Pg.StationRow) : bool :=
    if String.eqb (Pg.pg_station_type a) (Pg.pg_station_type b)
    then String.leb (Pg.pg_station_id a) (Pg.pg_station_id b)
    else String.leb (Pg.pg_station_type a) (Pg.pg_station_type b).

  (** [stations_service_pg.get_all_stations]: [if station_type:] filters
      on the type; [None] and the empty string select every row. *)
Definition get_all_stations (stations : list Pg.StationRow)
             (station_type : option string) : list Info :=
    match station_type with
    | Some (String c s) =>
        map Pg.dict_of
            (Frame.sort_values by_type_then_id
               (List.filter (fun r => String.eqb (Pg.pg_station_type r) (String c s))
                            stations))
    | _ => map Pg.dict_of (Frame.sort_values by_type_then_id stations)
    end.

  (** A table of stations: two airports, one of them switched off, and
      a PWS. *)
Definition sample_table : list Pg.StationRow :=
    [Pg.mkStationRow "KSLE" "airport" true
       (list_to_map [("station_name", PStr "Salem Airport");
                     ("source_system", PStr "MESONET_ASOS");
                     ("timezone", PStr "America/Los_Angeles")]);
     Pg.mkStationRow "KORMCMIN127" "pws" true
       (list_to_map [("station_name", PStr "dustprop");
                     ("source_system", PStr "WU_PWS");
                     ("timezone", PNone)]);
     Pg.mkStationRow "KEUG" "airport" false
       (list_to_map [("station_name", PStr "Eugene Airport");
                     ("source_system", PStr "MESONET_ASOS");
                     ("timezone", PStr "America/Los_Angeles")])].
End Directory.

(* ===================================================================== *)
(** ** build_pws_observations.py, second part: the api.weather.gov
       fetcher *)
(* ===================================================================== *)

Module Noaa.
Import Calendar Frame.

  (** Chunk size (days) per request. *)
Definition CHUNK_DAYS : Z := 7.

  (** [timedelta(days=CHUNK_DAYS)] *)
Definition chunk : Z := CHUNK_DAYS * US_PER_DAY.

  (** [dt.replace(microsecond=0)] *)
Definition whole_seconds (t : Z) : Z := t / 1000000 * 1000000.

  (** What a run does: a GET with its [start] and [end] parameters, a
      [time.sleep], a printed line. *)
Inductive Event :=
  | Get (station : string) (start_param end_param : Z)
  | Pause (seconds : Q)
  | Print.

Definition M (A : Type) : Type := (result A * list Event)%type.

Definition ret {A} (a : A) : M A := (Ok a, []).
Definition raise {A} (e : Exn) : M A := (Raise e, []).
Definition emit (e : Event) : M unit := (Ok tt, [e]).

Definition bind {A B} (m : M A) (f : A -> M B) : M B :=
    match m with
    | (Ok a, t) => let '(r, t') := f a in (r, (t ++ t')%list)
    | (Raise e, t) => (Raise e, t)
    end.

Fixpoint mapM {A B} (f : A -> M B) (l : list A) : M (list B) :=
    match l with
    | [] => ret []
    | x :: l' => bind (f x) (fun y => bind (mapM f l') (fun ys => ret (y :: ys)))
    end.

  (** The body of an answer, as [resp.json()] and [data.get] see it. *)
Inductive Json :=
  | NotJson
  | JsonOther
  | JsonObject (features : option (list Wu.Obs)).

  (** A row of the frame indexed by timestamp. *)
Record Observation := mkObservation {
    index : option Z;
    properties : gmap string Cell
  }.

Definition by_index (a b : Observation) : bool := ts_leb (index a) (index b).

Section Run.
    (** [pd.to_datetime] on one cell of text, with its default
        [errors="raise"]: [None] stands for text that cannot be read. *)
Variable to_datetime : Cell -> option Z.
    (** The answer to a GET for a station and its two parameters. *)
Variable get : string -> Z -> Z -> Response Json.

Definition stamp (c : option Cell) : M (option Z) :=
      match c with
      | None | Some CNaN => ret None
      | Some c => match to_datetime c with
                  | Some t => ret (Some t)
                  | None => raise ValueError
                  end
      end.

Definition fetch_station_chunk (station_id : string) (start end_ : Z)
      : M (list Observation) :=
      let start_param := whole_seconds start in
      let end_param := whole_seconds end_ in
      bind (emit Print) (fun _ =>
      bind (emit (Get station_id start_param end_param)) (fun _ =>
      match get station_id start_param end_param with
      | ConnectionError => raise RequestException
      | Http status body =>
          if negb (status =? 200) then bind (emit Print) (fun _ => ret [])
          else
            match body with
            | NotJson => raise ValueError
            | JsonOther => raise AttributeError
            | JsonObject None | JsonObject (Some []) =>
                bind (emit Print) (fun _ => ret [])
            | JsonObject (Some features) =>
                if bool_decide ("properties.timestamp" ∈ Wu.columns_of features)
                then
                  bind (mapM (fun o : Wu.Obs =>
                                stamp (list_to_map (M := gmap string Cell) o
                                         !! "properties.timestamp"))
                             features) (fun stamps =>
                  ret (sort_values by_index
                         (map (fun '(ts, o) => mkObservation ts (list_to_map o))
                              (zip stamps features))))
                else bind (emit Print) (fun _ => ret [])
            end
      end)).

    (** The [while current < end] loop; [fuel] bounds its turns. *)
Fixpoint range_loop (fuel : nat) (station_id : string) (current end_ : Z)
      : M (list (list Observation)) :=
      if current <? end_ then
        match fuel with
        | O => ret []
        | S fuel' =>
            let chunk_end := Z.min (current + chunk) end_ in
            bind (fetch_station_chunk station_id current chunk_end) (fun df_chunk =>
            bind (emit (Pause (1 # 2))) (fun _ =>
            bind (range_loop fuel' station_id chunk_end end_) (fun rest =>
            ret (match df_chunk with [] => rest | _ => df_chunk :: rest end))))
        end
      else ret [].

    (** More turns than the loop can take between [start] and [end]. *)
Definition turns (start end_ : Z) : nat := Z.to_nat ((end_ - start) / chunk + 1).

Definition fetch_station_range (station_id : string) (start end_ : Z)
      : M (list Observation) :=
      bind (emit Print) (fun _ =>
      bind (range_loop (turns start end_) station_id start end_) (fun all_dfs =>
      match all_dfs with
      | [] => bind (emit Print) (fun _ => ret [])
      | _ =>
          let df_full := concat all_dfs in
          let df_full := drop_duplicates index df_full in
          let df_full := sort_values by_index df_full in
          bind (emit Print) (fun _ => ret df_full)
      end)).
End Run.

  (** The consecutive [(current, chunk_end)] pairs of the loop. *)
Fixpoint tiles (fuel : nat) (current end_ : Z) : list (Z * Z) :=
    if current <? end_ then
      match fuel with
      | O => []
      | S fuel' =>
          let chunk_end := Z.min (current + chunk) end_ in
          (current, chunk_end) :: tiles fuel' chunk_end end_
      end
    else [].

  (** How many chunks of [chunk] microseconds cover [[start, end)]. *)
Definition chunk_count (start end_ : Z) : Z :=
    if start <? end_ then (end_ - start + chunk - 1) / chunk else 0.

  (** A run without its printed lines: the requests and the pauses, in
      the order in which they happen. *)
Definition calls_of (tr : list Event) : list Event :=
    List.filter (fun ev => match ev with Print => false | _ => true end) tr.

Definition value {A} (m : M A) : result A := fst m.
Definition trace {A} (m : M A) : list Event := snd m.
End Noaa.

(** A printed line of a run of the api.weather.gov fetcher. *)
Definition is_print (ev : Noaa.Event) : Prop :=
  match ev with Noaa.Print => True | _ => False end.

(** The index of a row is the reading of its own timestamp text. *)
Definition stamped (to_datetime : Cell -> option Z) (obs : Noaa.Observation) : Prop :=
  Noaa.stamp to_datetime (Noaa.properties obs !! "properties.timestamp")
  = (Ok (Noaa.index obs), []).




(** A column name without the character the header loop puts before the
    number of a repeat. *)
Fixpoint plain (name : string) : bool :=
  match name with
  | EmptyString => true
  | String c rest => negb (Ascii.eqb c "_") && plain rest
  end.

(* ===================================================================== *)
(** ** Further runs *)
(* ===================================================================== *)

Module Runs.
Import Calendar.

  (** The airport run of 2025-11-18 against the registry, Mesonet
      answering every request with the two rows it labels EUG. *)
Definition airport_table : list Row :=
    match Eff.value (Airport.fetch_airport_data Iso.to_datetime
                       Scenario.mesonet_eug Stations.registry_backend
                       Stations.Registry.get_station_ids Scenario.END_DATE) with
    | Ok df => df
    | Raise _ => []
    end.




  (** A yearly archive of 2024 for station 46050, gunzipped. *)
Definition archive_2024 (station : string) (year : Z)
    : Response (option (list string)) :=
    if String.eqb station "46050" && (year =? 2024) then
      Http 200 (Some ["#YY  MM DD hh mm WDIR WSPD";
                      "2024 03 15 12 00 310 5";
                      "2024 03 15 13 00 300 4"])
    else if year =? 2023 then Http 500 None
    else Http 404 None.

Definition archive_rows : list Row :=
    match Eff.value (Buoy.fetch_ndbc_year Scenario.END_DATE archive_2024 "46050" 2024) with
    | Ok df => df
    | Raise _ => []
    end.

  (** Mesonet failing in one way or another for some stations. *)
Definition mesonet_flaky (station : string) (start_date end_date : Z)
    : Response Airport.Csv :=
    if String.eqb station "KEUG" then ConnectionError
    else if String.eqb station "KSLE" then Http 503 Airport.EmptyText
    else if String.eqb station "KMMV" then Http 200 Airport.BadCsv
    else Scenario.mesonet_eug station start_date end_date.

  (** api.weather.gov answering the first chunk of a range, with 404
      ([noaa_ok]) or no connection ([noaa_down]) afterwards. *)
Definition noaa_start : Z := Timestamp (mk_date 2025 11 1) + 1234567.
Definition noaa_end : Z := Timestamp (mk_date 2025 11 18) + 1234567.

Definition noaa_feature (stamp : string) (temp : Z) : Wu.Obs :=
    [("properties.timestamp", CStr stamp); ("properties.temperature.value", CInt temp)].

Definition noaa_ok (station : string) (start_param end_param : Z)
    : Response Noaa.Json :=
    if start_param =? Noaa.whole_seconds noaa_start then
      Http 200 (Noaa.JsonObject
                  (Some [noaa_feature "2025-11-02T10:00:00Z" 11;
                         noaa_feature "2025-11-01T10:00:00Z" 10;
                         noaa_feature "2025-11-02T10:00:00Z" 12]))
    else Http 404 Noaa.NotJson.

Definition noaa_down (station : string) (start_param end_param : Z)
    : Response Noaa.Json :=
    if start_param =? Noaa.whole_seconds noaa_start then
      noaa_ok station start_param end_param
    else ConnectionError.

Definition iso (c : Cell) : option Z := Iso.to_datetime true c.

Definition no_row : Row := mkRow None "" None ∅.

Definition first_row (df : list Row) : Row := hd no_row df.
End Runs.

(* ===================================================================== *)
(** * Properties *)
(* ===================================================================== *)

(** ** Computations and their traces *)

Section EffFacts.
Context {A B : Type}.

Lemma value_bind_Ok (m : Eff.M A) (f : A -> Eff.M B) (b : B) :
    Eff.value (Eff.bind m f) = Ok b ->
    exists a, Eff.value m = Ok a /\ Eff.value (f a) = Ok b.
Proof.
    destruct m as [[a|e] t]; simpl; [|discriminate].
    destruct (f a) as [r t'] eqn:E; simpl. intros ->.
    exists a. rewrite E. auto.
Qed.

Lemma value_bind_eq (m : Eff.M A) (f : A -> Eff.M B) (a : A) :
    Eff.value m = Ok a -> Eff.value (Eff.bind m f) = Eff.value (f a).
Proof.
    destruct m as [[a'|e] t]; simpl; [|discriminate].
    intros [= ->]. now destruct (f a).
Qed.

Lemma value_bind_Raise (m : Eff.M A) (f : A -> Eff.M B) (e : Exn) :
    Eff.value m = Raise e -> Eff.value (Eff.bind m f) = Raise e.
Proof. destruct m as [[a'|e'] t]; simpl; [discriminate | intros [= ->]; reflexivity]. Qed.

Lemma trace_bind_Ok (m : Eff.M A) (f : A -> Eff.M B) (a : A) :
    Eff.value m = Ok a ->
    Eff.trace (Eff.bind m f) = (Eff.trace m ++ Eff.trace (f a))%list.
Proof.
    destruct m as [[a'|e] t]; simpl; [|discriminate].
    intros [= ->]. now destruct (f a).
Qed.

Lemma trace_bind_Raise (m : Eff.M A) (f : A -> Eff.M B) (e : Exn) :
    Eff.value m = Raise e -> Eff.trace (Eff.bind m f) = Eff.trace m.
Proof. destruct m as [[a'|e'] t]; simpl; [discriminate | reflexivity]. Qed.
End EffFacts.

Lemma value_mapM_Ok {A B} (f : A -> Eff.M B) (l : list A) (ys : list B) :
  Eff.value (Eff.mapM f l) = Ok ys ->
  Forall2 (fun x y => Eff.value (f x) = Ok y) l ys.
Proof.
  revert ys. induction l as [|x l IH]; simpl; intros ys H.
  - injection H as <-. constructor.
  - apply value_bind_Ok in H as (y & Hy & H).
    apply value_bind_Ok in H as (ys' & Hys & H).
    injection H as <-. constructor; auto.
Qed.

Lemma value_mapM_Raise {A B} (f : A -> Eff.M B) (l : list A) (x : A) (e : Exn) :
  In x l -> Eff.value (f x) = Raise e ->
  exists e', Eff.value (Eff.mapM f l) = Raise e'.
Proof.
  induction l as [|y l IH]; simpl; [tauto|]. intros [->|Hin] Hx.
  - exists e. now apply value_bind_Raise.
  - destruct (Eff.value (f y)) as [b|e1] eqn:Hy.
    + destruct (IH Hin Hx) as [e' He']. exists e'.
      rewrite (value_bind_eq _ _ _ Hy). now apply value_bind_Raise.
    + exists e1. now apply value_bind_Raise.
Qed.

(** ** Deduplication, sorting and the window *)

Section FrameFacts.
Context {A K : Type} `{EqDecision K}.
Variable key : A -> K.
Variable leb : A -> A -> bool.
Hypothesis leb_total : forall a b, leb a b = true \/ leb b a = true.

Lemma drop_duplicates_from_In seen l x :
    In x (Frame.drop_duplicates_from key seen l) -> In x l.
Proof.
    revert seen. induction l as [|y l IH]; simpl; intros seen; [tauto|].
    case_bool_decide; simpl; intros Hx.
    - right. eauto.
    - destruct Hx as [->|Hx]; [now left | right; eauto].
Qed.

Lemma drop_duplicates_from_fresh seen l x :
    In x (Frame.drop_duplicates_from key seen l) -> key x ∉ seen.
Proof.
    revert seen. induction l as [|y l IH]; simpl; intros seen; [tauto|].
    case_bool_decide as Hs; simpl; intros Hx; [eauto|].
    destruct Hx as [->|Hx]; [assumption|].
    apply IH in Hx. intros Hin. apply Hx. now right.
Qed.

Lemma drop_duplicates_from_NoDup seen l :
    NoDup (map key (Frame.drop_duplicates_from key seen l)).
Proof.
    revert seen. induction l as [|y l IH]; simpl; intros seen.
    - constructor.
    - case_bool_decide as Hs; simpl; [apply IH|].
      apply NoDup_cons_2; [|apply IH].
      rewrite list_elem_of_In, in_map_iff. intros (x & Hk & Hx).
      apply drop_duplicates_from_fresh in Hx. apply Hx.
      rewrite Hk. now left.
Qed.

Lemma drop_duplicates_from_id seen l :
    NoDup (map key l) -> (forall x, In x l -> key x ∉ seen) ->
    Frame.drop_duplicates_from key seen l = l.
Proof.
    revert seen. induction l as [|y l IH]; simpl; intros seen Hnd Hs; [reflexivity|].
    apply NoDup_cons in Hnd as [Hy Hnd].
    case_bool_decide as Hin.
    - exfalso. apply (Hs y); auto.
    - f_equal. apply IH; [assumption|].
      intros x Hx [E|Hin']%elem_of_cons.
      + apply Hy. rewrite <- E, list_elem_of_In. now apply in_map.
      + apply (Hs x); auto.
Qed.

  (** A key of the input is a key of the output. *)
Lemma drop_duplicates_from_keeps seen l x :
    In x l -> key x ∉ seen ->
    exists y, In y (Frame.drop_duplicates_from key seen l) /\ key y = key x.
Proof.
    revert seen. induction l as [|z l IH]; simpl; intros seen; [tauto|].
    intros [->|Hx] Hs.
    - case_bool_decide; [contradiction|]. exists x. simpl. auto.
    - case_bool_decide as Hz.
      + destruct (IH seen Hx Hs) as (y & ? & ?). eauto.
      + destruct (decide (key x = key z)) as [E|E].
        * exists z. simpl. auto.
        * destruct (IH (key z :: seen) Hx) as (y & ? & ?).
          { intros [?|?]%elem_of_cons; [congruence | contradiction]. }
          exists y. simpl. auto.
Qed.

Lemma insert_sorted_perm x l :
    Permutation (Frame.insert_sorted leb x l) (x :: l).
Proof.
    induction l as [|y l IH]; simpl; [reflexivity|].
    destruct (leb x y); [reflexivity|].
    rewrite IH. apply perm_swap.
Qed.

Lemma sort_values_perm l : Permutation (Frame.sort_values leb l) l.
Proof.
    induction l as [|x l IH]; simpl; [reflexivity|].
    rewrite insert_sorted_perm. now apply perm_skip.
Qed.

Lemma insert_sorted_sorted x l :
    Frame.is_sorted leb l = true ->
    Frame.is_sorted leb (Frame.insert_sorted leb x l) = true.
Proof.
    induction l as [|y l IH]; simpl; [reflexivity|]. intros Hs.
    destruct (leb x y) eqn:Hxy.
    - simpl. rewrite Hxy. simpl. exact Hs.
    - assert (Hyx : leb y x = true)
        by (destruct (leb_total x y); congruence).
      destruct l as [|z l].
      + simpl. now rewrite Hyx.
      + apply andb_true_iff in Hs as [Hyz Hs]. specialize (IH Hs).
        simpl in *. destruct (leb x z); simpl in *.
        * now rewrite Hyx.
        * now rewrite Hyz.
Qed.

Lemma sort_values_sorted l :
    Frame.is_sorted leb (Frame.sort_values leb l) = true.
Proof.
    induction l as [|x l IH]; simpl; [reflexivity|].
    now apply insert_sorted_sorted.
Qed.

Lemma sort_values_id l :
    Frame.is_sorted leb l = true -> Frame.sort_values leb l = l.
Proof.
    induction l as [|x l IH]; [reflexivity|]. intros Hs.
    change (Frame.insert_sorted leb x (Frame.sort_values leb l) = x :: l).
    destruct l as [|y l]; [reflexivity|].
    simpl in Hs. apply andb_true_iff in Hs as [Hxy Hs].
    rewrite (IH Hs). simpl. now rewrite Hxy.
Qed.

Lemma sort_values_idem l :
    Frame.sort_values leb (Frame.sort_values leb l) = Frame.sort_values leb l.
Proof. apply sort_values_id, sort_values_sorted. Qed.
End FrameFacts.

Lemma filter_id {A} (p : A -> bool) (l : list A) :
  (forall x, In x l -> p x = true) -> List.filter p l = l.
Proof.
  induction l as [|x l IH]; simpl; intros H; [reflexivity|].
  rewrite (H x) by auto. f_equal. apply IH. auto.
Qed.

Lemma ts_leb_total a b : Frame.ts_leb a b = true \/ Frame.ts_leb b a = true.
Proof.
  destruct a as [x|], b as [y|]; simpl; auto.
  destruct (Z.leb_spec x y); [now left|]. right. apply Z.leb_le. lia.
Qed.

Lemma key_leb_total a b : Frame.key_leb a b = true \/ Frame.key_leb b a = true.
Proof.
  unfold Frame.key_leb. rewrite (String.eqb_sym (station_id b)).
  destruct (String.eqb (station_id a) (station_id b)).
  - apply ts_leb_total.
  - apply String.leb_total.
Qed.

Lemma dedupe_sort_perm df :
  Permutation (Frame.dedupe_sort df) (Frame.drop_duplicates row_key df).
Proof. apply sort_values_perm. Qed.

Lemma dedupe_sort_In df r : In r (Frame.dedupe_sort df) -> In r df.
Proof.
  intros H. apply (Permutation_in _ (dedupe_sort_perm df)) in H.
  now apply drop_duplicates_from_In in H.
Qed.

Lemma dedupe_sort_NoDup df : NoDup (map row_key (Frame.dedupe_sort df)).
Proof.
  rewrite (Permutation_map row_key (dedupe_sort_perm df)).
  apply drop_duplicates_from_NoDup.
Qed.

Lemma dedupe_sort_sorted df :
  Frame.is_sorted Frame.key_leb (Frame.dedupe_sort df) = true.
Proof. apply sort_values_sorted, key_leb_total. Qed.

Lemma dedupe_sort_keeps df r :
  In r df -> exists r', In r' (Frame.dedupe_sort df) /\ row_key r' = row_key r.
Proof.
  intros H. destruct (drop_duplicates_from_keeps row_key [] df r H) as (y & Hy & E).
  { apply not_elem_of_nil. }
  exists y. split; [|assumption].
  eapply Permutation_in; [symmetry; apply dedupe_sort_perm | exact Hy].
Qed.

Lemma dedupe_sort_idem df :
  Frame.dedupe_sort (Frame.dedupe_sort df) = Frame.dedupe_sort df.
Proof.
  unfold Frame.dedupe_sort at 1. unfold Frame.drop_duplicates.
  rewrite drop_duplicates_from_id.
  - apply sort_values_id, dedupe_sort_sorted.
  - apply dedupe_sort_NoDup.
  - intros x _. apply not_elem_of_nil.
Qed.

Lemma window_In lo hi df r :
  In r (Frame.window lo hi df) <-> In r df /\ Frame.in_window lo hi r = true.
Proof. apply filter_In. Qed.

(** Windowing, deduplicating and sorting a second time changes nothing. *)
Lemma window_dedupe_sort_idem lo hi df :
  Frame.dedupe_sort (Frame.window lo hi (Frame.dedupe_sort (Frame.window lo hi df)))
  = Frame.dedupe_sort (Frame.window lo hi df).
Proof.
  unfold Frame.window at 1. rewrite filter_id.
  - apply dedupe_sort_idem.
  - intros r Hr. apply dedupe_sort_In in Hr. now apply window_In in Hr.
Qed.

(* ===================================================================== *)
(** ** C5: header deduplication *)
(* ===================================================================== *)

Lemma occurrences_insert_eq seen name k :
  occurrences (<[name := k]> seen) name = S k.
Proof. unfold occurrences. now rewrite lookup_insert_eq. Qed.

Lemma occurrences_insert_ne seen name name' k :
  name <> name' -> occurrences (<[name := k]> seen) name' = occurrences seen name'.
Proof. intros H. unfold occurrences. now rewrite lookup_insert_ne. Qed.

Lemma dedupe_names_from_spec seen raw :
  Buoy.dedupe_names_from seen raw
  = imap (fun i name =>
            suffixed name (occurrences seen name
                           + count_occ string_dec (take i raw) name)%nat) raw.
Proof.
  revert seen. induction raw as [|name rest IH]; intros seen; [reflexivity|].
  cbn [Buoy.dedupe_names_from imap].
  assert (Htail : forall k, occurrences seen name = k ->
    imap (fun i n => suffixed n (occurrences (<[name := k]> seen) n
                                 + count_occ string_dec (take i rest) n)%nat) rest
    = imap ((fun i n => suffixed n (occurrences seen n
                + count_occ string_dec (take i (name :: rest)) n)%nat) ∘ S) rest).
  { intros k Hk. apply imap_ext. intros i n _. cbn [compose take count_occ].
    f_equal. destruct (string_dec name n) as [<-|Hne].
    - rewrite occurrences_insert_eq, Hk. lia.
    - now rewrite occurrences_insert_ne. }
  unfold occurrences at 1. cbn [take count_occ].
  destruct (seen !! name) as [k|] eqn:Hs.
  - rewrite IH, (Htail (S k)) by (unfold occurrences; now rewrite Hs).
    f_equal. now rewrite Nat.add_0_r.
  - rewrite IH, (Htail 0%nat) by (unfold occurrences; now rewrite Hs).
    reflexivity.
Qed.

(** C5. The header loop of [fetch_ndbc_realtime] keeps the first
    occurrence of every column name and appends [_k] to its [k]-th
    repeat; on ["WDIR"; "WSPD"; "WDIR"] it yields
    ["WDIR"; "WSPD"; "WDIR_1"]. *)
Theorem C5_header_deduplication :
  Buoy.dedupe_names ["WDIR"; "WSPD"; "WDIR"] = ["WDIR"; "WSPD"; "WDIR_1"]
  /\ forall raw_col_names,
       Buoy.dedupe_names raw_col_names
       = imap (fun i name =>
                 suffixed name (count_occ string_dec (take i raw_col_names) name))
              raw_col_names.
Proof.
  split; [reflexivity|].
  intros raw. unfold Buoy.dedupe_names. rewrite dedupe_names_from_spec.
  apply imap_ext. intros i n _. unfold occurrences. now rewrite lookup_empty.
Qed.

(* ===================================================================== *)
(** ** C4: two-digit years *)
(* ===================================================================== *)

Lemma days_in_month_le y m : Calendar.days_in_month y m <= 31.
Proof.
  unfold Calendar.days_in_month.
  repeat match goal with |- context [if ?b then _ else _] => destruct b end; lia.
Qed.

Lemma valid_ymd_range y m d :
  Calendar.valid_ymd y m d = true -> 1 <= m <= 12 /\ 1 <= d <= 31.
Proof.
  intros Hv. pose proof (days_in_month_le y m).
  unfold Calendar.valid_ymd in Hv.
  repeat (apply andb_true_iff in Hv as [Hv ?]). lia.
Qed.

Lemma every_date_spec (check : Z -> Z -> Z -> bool) yy m d :
  every_date check = true ->
  0 <= yy < 100 -> 1 <= m <= 12 -> 1 <= d <= 31 ->
  check yy m d = true.
Proof.
  unfold every_date. intros H Hyy Hm Hd.
  rewrite forallb_forall in H. specialize (H yy).
  rewrite <- list_elem_of_In, elem_of_seqZ in H. specialize (H ltac:(lia)).
  rewrite forallb_forall in H. specialize (H m).
  rewrite <- list_elem_of_In, elem_of_seqZ in H. specialize (H ltac:(lia)).
  rewrite forallb_forall in H. specialize (H d).
  rewrite <- list_elem_of_In, elem_of_seqZ in H. exact (H ltac:(lia)).
Qed.

Lemma century_checked : every_date century_ok = true.
Proof. vm_compute. reflexivity. Qed.

Lemma two_digits_checked : every_date two_digits_ok = true.
Proof. vm_compute. reflexivity. Qed.

Lemma century_date yy m d :
  0 <= yy < 100 -> Calendar.valid_ymd (2000 + yy) m d = true ->
  Calendar.strptime_Ymd ((2000 + yy) * 10000 + m * 100 + d) = Some (2000 + yy, m, d)
  /\ Calendar.date_year (Calendar.mk_date (2000 + yy) m d) = 2000 + yy
  /\ 0 <= Calendar.mk_date (2000 + yy) m d < 50000.
Proof.
  intros Hyy Hv.
  destruct (valid_ymd_range _ _ _ Hv) as [Hm Hd].
  pose proof (every_date_spec century_ok yy m d century_checked Hyy Hm Hd) as H.
  unfold century_ok in H. rewrite Hv in H. cbn [implb] in H.
  repeat (apply andb_true_iff in H as [H ?]).
  apply bool_decide_eq_true in H. split; [exact H | lia].
Qed.

(** A time of day added to a midnight stays on that day. *)
Lemma ts_date_clock date h mi :
  0 <= h < 24 -> 0 <= mi < 60 ->
  Calendar.ts_date (Calendar.Timestamp date + h * Calendar.US_PER_HOUR
                    + mi * Calendar.US_PER_MINUTE) = date.
Proof.
  intros Hh Hmi. unfold Calendar.ts_date. symmetry.
  apply (Z.div_unique _ _ _ (h * Calendar.US_PER_HOUR + mi * Calendar.US_PER_MINUTE)).
  - left. unfold Calendar.US_PER_DAY, Calendar.US_PER_HOUR, Calendar.US_PER_MINUTE. lia.
  - unfold Calendar.Timestamp. lia.
Qed.

Lemma century_timestamp yy m d h mi :
  0 <= yy < 100 -> Calendar.valid_ymd (2000 + yy) m d = true ->
  0 <= h < 24 -> 0 <= mi < 60 ->
  let t := Calendar.Timestamp (Calendar.mk_date (2000 + yy) m d)
           + h * Calendar.US_PER_HOUR + mi * Calendar.US_PER_MINUTE in
  Calendar.to_datetime_components (2000 + yy) m d h mi = Some t
  /\ Calendar.ts_year t = 2000 + yy.
Proof.
  intros Hyy Hv Hh Hmi t.
  destruct (century_date yy m d Hyy Hv) as (Hread & Hy & Hd).
  split.
  - unfold Calendar.to_datetime_components. rewrite Hread, Hv. fold t.
    assert (Hb0 : Calendar.in_bounds
                    (Calendar.Timestamp (Calendar.mk_date (2000 + yy) m d)) = true).
    { unfold Calendar.in_bounds, Calendar.Timestamp, Calendar.US_PER_DAY.
      apply andb_true_iff. split; apply Z.ltb_lt; lia. }
    assert (Hb : Calendar.in_bounds t = true).
    { unfold Calendar.in_bounds, t, Calendar.Timestamp, Calendar.US_PER_DAY,
        Calendar.US_PER_HOUR, Calendar.US_PER_MINUTE.
      apply andb_true_iff. split; apply Z.ltb_lt; lia. }
    now rewrite Hb0, Hb.
  - unfold Calendar.ts_year, t. now rewrite ts_date_clock.
Qed.

(** What is read in a year of one or two digits is never a time of the
    year 2000 + yy. *)
Lemma two_digit_year_elsewhere yy m d h mi t :
  0 <= yy < 100 -> 1 <= m <= 12 -> 1 <= d <= 31 ->
  0 <= h < 24 -> 0 <= mi < 60 ->
  Calendar.to_datetime_components yy m d h mi = Some t ->
  Calendar.ts_year t <> 2000 + yy.
Proof.
  intros Hyy Hm Hd Hh Hmi.
  pose proof (every_date_spec two_digits_ok yy m d two_digits_checked Hyy Hm Hd) as H.
  unfold two_digits_ok in H. unfold Calendar.to_datetime_components.
  destruct (Calendar.strptime_Ymd (yy * 10000 + m * 100 + d))
    as [[[year month] day]|]; [|discriminate].
  destruct (Calendar.valid_ymd year month day) eqn:Hv; [|discriminate].
  cbn [andb] in *.
  destruct (Calendar.in_bounds (Calendar.Timestamp _)); [|discriminate].
  destruct (Calendar.in_bounds _); [|discriminate].
  intros [= <-]. unfold Calendar.ts_year. rewrite ts_date_clock by assumption.
  apply negb_true_iff, Z.eqb_neq in H. exact H.
Qed.

(** C4 (as amended). For a record whose date and time are the separate
    fields YY, MM, DD, hh and mm, the realtime normaliser
    ([fetch_ndbc_realtime]) adds 2000 to YY and combines the five
    components into one timestamp, which lies in the year 2000 + YY --
    year 24 with (03, 15, 12, 00) gives a timestamp in 2024.  The
    yearly-archive normaliser ([fetch_ndbc_year]) adds nothing: it
    combines the fields as they are, which gives that same timestamp
    when the year field holds the four digits of 2000 + YY, and never a
    time of the year 2000 + YY when it holds the two digits YY. *)
Theorem C4_year_expansion (r r4 : gmap string Cell) (yy m d h mi : Z) :
  r !! "YY" = Some (CInt yy) -> r !! "MM" = Some (CInt m) ->
  r !! "DD" = Some (CInt d) -> r !! "hh" = Some (CInt h) ->
  r !! "mm" = Some (CInt mi) ->
  r4 !! "YY" = Some (CInt (2000 + yy)) -> r4 !! "MM" = Some (CInt m) ->
  r4 !! "DD" = Some (CInt d) -> r4 !! "hh" = Some (CInt h) ->
  r4 !! "mm" = Some (CInt mi) ->
  0 <= yy < 100 -> Calendar.valid_ymd (2000 + yy) m d = true ->
  0 <= h < 24 -> 0 <= mi < 60 ->
  exists t,
    t = Calendar.Timestamp (Calendar.mk_date (2000 + yy) m d)
        + h * Calendar.US_PER_HOUR + mi * Calendar.US_PER_MINUTE
    /\ Calendar.ts_year t = 2000 + yy
    /\ Buoy.realtime_timestamp r = (Ok (Some t), [])
    /\ Buoy.year_timestamp r4 = Some t
    /\ forall t', Buoy.year_timestamp r = Some t' -> Calendar.ts_year t' <> 2000 + yy.
Proof.
  intros HY HM HD Hh Hm HY4 HM4 HD4 Hh4 Hm4 Hyy Hv Hhr Hmr.
  destruct (century_timestamp yy m d h mi Hyy Hv Hhr Hmr) as [Ht Hyear].
  eexists. split; [reflexivity|]. split; [exact Hyear|]. split; [|split].
  - unfold Buoy.realtime_timestamp. rewrite HY, HM, HD, Hh, Hm. simpl.
    now rewrite Ht.
  - unfold Buoy.year_timestamp. rewrite HY4, HM4, HD4, Hh4, Hm4. simpl.
    exact Ht.
  - intros t'. unfold Buoy.year_timestamp. rewrite HY, HM, HD, Hh, Hm. simpl.
    destruct (valid_ymd_range _ _ _ Hv).
    now apply two_digit_year_elsewhere.
Qed.

Lemma C4_year_expansion_witness :
  exists t,
    t = Calendar.Timestamp (Calendar.mk_date (2000 + 24) 3 15)
        + 12 * Calendar.US_PER_HOUR + 0 * Calendar.US_PER_MINUTE
    /\ Calendar.ts_year t = 2000 + 24
    /\ Buoy.realtime_timestamp (Scenario.time_record 24 3 15 12 0) = (Ok (Some t), [])
    /\ Buoy.year_timestamp (Scenario.time_record 2024 3 15 12 0) = Some t
    /\ forall t', Buoy.year_timestamp (Scenario.time_record 24 3 15 12 0) = Some t' ->
                  Calendar.ts_year t' <> 2000 + 24.
Proof.
  apply (C4_year_expansion (Scenario.time_record 24 3 15 12 0)
           (Scenario.time_record 2024 3 15 12 0) 24 3 15 12 0);
    try reflexivity; lia.
Defined.

(** In [fetch_ndbc_year] the record with year 24 and (03, 15, 12, 00)
    does not get a timestamp in 2024: pandas reads 2403-01-05 in
    [240315], which no [Timestamp] can hold, and the timestamp is
    [NaT]. *)
Lemma C4_two_digit_year_in_archive :
  Calendar.strptime_Ymd (24 * 10000 + 3 * 100 + 15) = Some (2403, 1, 5)
  /\ map timestamp (Buoy.year_frame "46050" "24 03 15 12 00 310"
                                    ["24 03 15 12 00 310"])
     = [None]
  /\ ~ (exists t,
          map timestamp (Buoy.year_frame "46050" "24 03 15 12 00 310"
                                         ["24 03 15 12 00 310"]) = [Some t]
          /\ Calendar.ts_year t = 2024).
Proof.
  assert (H : map timestamp (Buoy.year_frame "46050" "24 03 15 12 00 310"
                               ["24 03 15 12 00 310"]) = [None])
    by (vm_compute; reflexivity).
  split; [reflexivity|]. split; [exact H|].
  intros (t & Ht & _). rewrite H in Ht. discriminate.
Qed.

(** A two-digit year can also give a timestamp, of another year: year 20
    with (03, 15, 12, 00) is read as 2003-01-05 12:00. *)
Lemma year_20_in_archive :
  map timestamp (Buoy.year_frame "46050" "20 03 15 12 00 310" ["20 03 15 12 00 310"])
  = [Some (Calendar.Timestamp (Calendar.mk_date 2003 1 5)
           + 12 * Calendar.US_PER_HOUR)].
Proof. vm_compute. reflexivity. Qed.

(* ===================================================================== *)
(** ** C6: the Window Filter & Deduplicator is idempotent *)
(* ===================================================================== *)

(** C6. Dropping the rows without a timestamp or outside the window,
    deduplicating on [(station_id, timestamp)] with the first occurrence
    kept and sorting by [(station_id, timestamp)] is idempotent: applied
    to its own output, the step of [fetch_buoy_data] and the step of
    [fetch_airport_data] return that output, rows and order unchanged. *)
Theorem C6_window_dedupe_idempotent :
  (forall END_DATE df,
      Buoy.assemble END_DATE (Buoy.assemble END_DATE df)
      = Buoy.assemble END_DATE df)
  /\ (forall END_DATE df,
      Airport.assemble END_DATE (Airport.assemble END_DATE df)
      = Airport.assemble END_DATE df).
Proof.
  split; intros END_DATE df.
  - unfold Buoy.assemble, Buoy.final_window. apply window_dedupe_sort_idem.
  - unfold Airport.assemble, Airport.global_window. apply window_dedupe_sort_idem.
Qed.

(* ===================================================================== *)
(** ** C2: unique keys *)
(* ===================================================================== *)

Lemma NoDup_keys_nil : NoDup (map row_key []).
Proof. constructor. Qed.

Lemma value_log_ret {A} lvl (a b : A) :
  Eff.value (Eff.log lvl ;;; Eff.ret a) = Ok b -> a = b.
Proof. simpl. congruence. Qed.

Lemma buoy_table_unique END_DATE get_year get_realtime df :
  Eff.value (Buoy.fetch_buoy_data END_DATE get_year get_realtime) = Ok df ->
  NoDup (map row_key df).
Proof.
  unfold Buoy.fetch_buoy_data. intros H.
  apply value_bind_Ok in H as (_ & _ & H).
  apply value_bind_Ok in H as (frames & _ & H).
  destruct (concat frames) as [|r df_all].
  - apply value_log_ret in H as <-. apply NoDup_keys_nil.
  - injection H as <-. apply dedupe_sort_NoDup.
Qed.

Lemma airport_table_unique to_datetime get info ids END_DATE df :
  Eff.value (Airport.fetch_airport_data to_datetime get info ids END_DATE) = Ok df ->
  NoDup (map row_key df).
Proof.
  unfold Airport.fetch_airport_data. intros H.
  destruct (Airport.get_airport_ids ids) as [|s l].
  - apply value_log_ret in H as <-. apply NoDup_keys_nil.
  - apply value_bind_Ok in H as (_ & _ & H).
    apply value_bind_Ok in H as (frames & _ & H).
    destruct (concat frames) as [|r df_all].
    + apply value_log_ret in H as <-. apply NoDup_keys_nil.
    + injection H as <-. apply dedupe_sort_NoDup.
Qed.

Lemma pws_table_unique to_datetime get station_windows end_date df :
  Eff.value (Pws.build_combined_pws_observations to_datetime get
               station_windows end_date) = Ok df ->
  NoDup (map row_key df).
Proof.
  unfold Pws.build_combined_pws_observations. intros H.
  apply value_bind_Ok in H as (frames & _ & H).
  destruct (List.filter _ frames) as [|f fs].
  - apply value_log_ret in H as <-. apply NoDup_keys_nil.
  - apply value_bind_Ok in H as (ms & _ & H).
    apply value_bind_Ok in H as (kept & _ & H).
    injection H as <-. apply dedupe_sort_NoDup.
Qed.

Lemma pws_all_table_unique to_datetime get info ids key END_DATE df :
  Eff.value (PwsAll.fetch_pws_data to_datetime get info ids key END_DATE) = Ok df ->
  NoDup (map row_key df).
Proof.
  unfold PwsAll.fetch_pws_data. intros H.
  destruct key as [[|c k]|]; try discriminate.
  destruct (PwsAll.get_pws_ids ids) as [|s l].
  - apply value_log_ret in H as <-. apply NoDup_keys_nil.
  - apply value_bind_Ok in H as (_ & _ & H).
    apply value_bind_Ok in H as (frames & _ & H).
    destruct (List.filter _ frames) as [|f fs].
    + apply value_log_ret in H as <-. apply NoDup_keys_nil.
    + apply value_bind_Ok in H as (kept & _ & H).
      injection H as <-. apply dedupe_sort_NoDup.
Qed.

(** C2. In the table a fetcher returns, no two rows share both their
    [station_id] and their [timestamp]. *)
Theorem C2_unique_keys (df : list Row) :
  final_table df -> NoDup (map row_key df).
Proof.
  intros [? ? ? ? H | ? ? ? ? ? ? H | ? ? ? ? ? H | ? ? ? ? ? ? ? H].
  - exact (buoy_table_unique _ _ _ _ H).
  - exact (airport_table_unique _ _ _ _ _ _ H).
  - exact (pws_table_unique _ _ _ _ _ H).
  - exact (pws_all_table_unique _ _ _ _ _ _ _ H).
Qed.

Lemma C2_unique_keys_witness :
  length Scenario.buoy_table = 2%nat /\ NoDup (map row_key Scenario.buoy_table).
Proof.
  split; [vm_compute; reflexivity|].
  apply (C2_unique_keys Scenario.buoy_table).
  apply (final_buoy Scenario.END_DATE Scenario.no_archive Scenario.realtime_46050).
  vm_compute. reflexivity.
Defined.

(* ===================================================================== *)
(** ** C1: the window *)
(* ===================================================================== *)

(** With an upper bound one microsecond before the midnight that ends
    [end_date], the window keeps exactly the rows stamped within
    [[start_date, end_date + 1 day)], whose dates lie between the two
    dates. This is the window of the per-request filters of the buoy
    script, of both airport filters and of the tz-aware branch of
    [build_combined_pws_observations]. *)
Lemma day_window_exact start_date end_date r :
  Frame.in_window (Calendar.Timestamp start_date)
    (Calendar.Timestamp end_date + Calendar.Timedelta_days 1
     - Calendar.Timedelta_microseconds 1) r = true
  <-> exists t, timestamp r = Some t
                /\ Calendar.Timestamp start_date <= t
                   < Calendar.Timestamp (end_date + 1).
Proof.
  unfold Frame.in_window, Calendar.Timestamp, Calendar.Timedelta_days,
    Calendar.Timedelta_microseconds, Calendar.US_PER_DAY.
  destruct (timestamp r) as [t|].
  - rewrite andb_true_iff, Z.leb_le, Z.leb_le. split.
    + intros H. exists t. split; [reflexivity | lia].
    + intros (t' & [= <-] & H). lia.
  - split; [discriminate | intros (t & H & _); discriminate].
Qed.

Lemma window_dates start_date end_date t :
  Calendar.Timestamp start_date <= t < Calendar.Timestamp (end_date + 1) ->
  start_date <= Calendar.ts_date t <= end_date.
Proof.
  unfold Calendar.Timestamp, Calendar.ts_date, Calendar.US_PER_DAY. intros H.
  split.
  - apply Z.div_le_lower_bound; lia.
  - assert (t / 86400000000 < end_date + 1); [|lia].
    apply Z.div_lt_upper_bound; lia.
Qed.

(** The table of [fetch_airport_data] obeys the window: every row is
    stamped on a day between [START_DATE] and [END_DATE]. *)
Lemma airport_table_in_window to_datetime get info ids END_DATE df r :
  Eff.value (Airport.fetch_airport_data to_datetime get info ids END_DATE) = Ok df ->
  In r df ->
  exists t, timestamp r = Some t
            /\ Airport.START_DATE END_DATE <= Calendar.ts_date t <= END_DATE.
Proof.
  unfold Airport.fetch_airport_data. intros H Hr.
  destruct (Airport.get_airport_ids ids) as [|s l].
  { apply value_log_ret in H as <-. destruct Hr. }
  apply value_bind_Ok in H as (_ & _ & H).
  apply value_bind_Ok in H as (frames & _ & H).
  destruct (concat frames) as [|r0 df_all].
  { apply value_log_ret in H as <-. destruct Hr. }
  injection H as <-. apply dedupe_sort_In, window_In in Hr as [_ Hr].
  apply day_window_exact in Hr as (t & Ht & Hw).
  exists t. split; [assumption|]. now apply window_dates.
Qed.

(** So does the table of [fetch_buoy_data], whose last filter is the
    narrower one. *)
Lemma buoy_table_in_window END_DATE get_year get_realtime df r :
  Eff.value (Buoy.fetch_buoy_data END_DATE get_year get_realtime) = Ok df ->
  In r df ->
  exists t, timestamp r = Some t
            /\ Buoy.START_DATE END_DATE <= Calendar.ts_date t <= END_DATE.
Proof.
  unfold Buoy.fetch_buoy_data. intros H Hr.
  apply value_bind_Ok in H as (_ & _ & H).
  apply value_bind_Ok in H as (frames & _ & H).
  destruct (concat frames) as [|r0 df_all].
  { apply value_log_ret in H as <-. destruct Hr. }
  injection H as <-. apply dedupe_sort_In, window_In in Hr as [_ Hr].
  unfold Frame.in_window in Hr. destruct (timestamp r) as [t|]; [|discriminate].
  apply andb_true_iff in Hr as [Hlo Hhi]. apply Z.leb_le in Hlo, Hhi.
  exists t. split; [reflexivity|]. apply window_dates.
  unfold Calendar.Timestamp, Calendar.US_PER_DAY in *. lia.
Qed.

(** C1 (the code departs from it). On 2025-11-18 a buoy record stamped
    12:00 of that day passes the window of its own request, lies within
    [[start_date, end_date + 1 day)], and is dropped by the last filter
    of [fetch_buoy_data], whose upper bound is the midnight that begins
    [END_DATE]; and the naive branch of the last filter of
    [build_combined_pws_observations] keeps a row stamped the midnight
    that ends [end_date], whose date is the day after [end_date]. *)
Theorem C1_window_bounds_off :
  (map timestamp Scenario.buoy_today_chunk
   = [Some (Calendar.Timestamp Scenario.END_DATE + 12 * Calendar.US_PER_HOUR)]
   /\ Calendar.Timestamp (Buoy.START_DATE Scenario.END_DATE)
      <= Calendar.Timestamp Scenario.END_DATE + 12 * Calendar.US_PER_HOUR
      < Calendar.Timestamp (Scenario.END_DATE + 1)
   /\ Eff.value (Buoy.fetch_buoy_data Scenario.END_DATE Scenario.no_archive
                   Scenario.realtime_today) = Ok [])
  /\ (Eff.value (Pws.build_combined_pws_observations Iso.to_datetime
                   Scenario.wu_midnight Scenario.one_day_window Scenario.END_DATE)
      = Ok Scenario.pws_midnight_table
      /\ map timestamp Scenario.pws_midnight_table
         = [Some (Calendar.Timestamp (Scenario.END_DATE + 1))]
      /\ Calendar.ts_date (Calendar.Timestamp (Scenario.END_DATE + 1))
         = Scenario.END_DATE + 1).
Proof.
  repeat split; vm_compute; try reflexivity; discriminate.
Qed.

(* ===================================================================== *)
(** ** C7: the two station directories *)
(* ===================================================================== *)

(** C7 (the code departs from it). The call sites pass two arguments,
    [get_station_info("airport", station_id)]. The registry answers such
    a call with the station's record; the Postgres service, whose
    [get_station_info] has the single parameter [station_id], raises
    [TypeError] whatever the table holds, and so does
    [get_airport_name] on top of it. *)
Theorem C7_backends_not_interchangeable :
  (forall source_type station_id,
      Stations.call Stations.registry_backend [source_type; station_id]
      = Ok (Stations.Registry.get_station_info source_type station_id))
  /\ (forall stations source_type station_id,
      Stations.call (Stations.pg_backend stations) [source_type; station_id]
      = Raise TypeError)
  /\ Eff.value (Airport.get_airport_name Stations.registry_backend "KEUG")
     = Ok "Eugene Airport"
  /\ (forall stations,
      Eff.value (Airport.get_airport_name (Stations.pg_backend stations) "KEUG")
      = Raise TypeError).
Proof.
  repeat split; try reflexivity.
Qed.

(* ===================================================================== *)
(** ** C3: a failing chunk *)
(* ===================================================================== *)

Lemma pws_day_unparseable to_datetime get station day status :
  get station day = Http status Wu.NotJson ->
  raises_for_status status = false ->
  Eff.value (Pws.fetch_pws_day to_datetime get station day) = Raise ValueError.
Proof.
  intros Hget Hst. unfold Pws.fetch_pws_day. rewrite Hget, Hst. reflexivity.
Qed.

(** The failures the request itself reports are contained: a connection
    error or an error status gives the empty frame and an [ERROR] line. *)
Lemma pws_day_request_failure to_datetime get station day :
  (get station day = ConnectionError
   \/ exists status body, get station day = Http status body
                          /\ raises_for_status status = true) ->
  Pws.fetch_pws_day to_datetime get station day
  = (Ok Wu.empty_frame, [Request (WuDay station day); Log ERROR]).
Proof.
  intros [H | (status & body & H & Hst)]; unfold Pws.fetch_pws_day; rewrite H.
  - reflexivity.
  - rewrite Hst. reflexivity.
Qed.

(** C3 (the code departs from it). In [build_pws_observations.py] a body
    that is not JSON, served with a success status for one day of the
    range, is read outside the [try] of [fetch_pws_day]: the exception
    leaves [fetch_pws_range] instead of giving zero rows for that day. *)
Theorem C3_unparseable_body_escapes
        (to_datetime : bool -> Cell -> option Z)
        (get : string -> Z -> Response Wu.Json)
        (station : string) (start_date end_date day status : Z) :
  start_date <= day <= end_date ->
  get station day = Http status Wu.NotJson ->
  raises_for_status status = false ->
  exists e,
    Eff.value (Pws.fetch_pws_range to_datetime get station start_date end_date)
    = Raise e.
Proof.
  intros Hday Hget Hst. unfold Pws.fetch_pws_range.
  rewrite (value_bind_eq _ _ tt) by reflexivity.
  destruct (value_mapM_Raise
              (fun current =>
                 df_day <- Pws.fetch_pws_day to_datetime get station current ;;
                 Eff.sleep Pws.REQUEST_SLEEP_SECONDS ;;; Eff.ret df_day)
              (Pws.days start_date end_date) day ValueError) as [e He].
  - apply list_elem_of_In. unfold Pws.days. apply elem_of_seqZ. lia.
  - apply value_bind_Raise. now apply (pws_day_unparseable _ _ _ _ status).
  - exists e. now apply value_bind_Raise.
Qed.

Lemma C3_unparseable_body_escapes_witness :
  exists e,
    Eff.value (Pws.fetch_pws_range Iso.to_datetime Scenario.wu_second_day_html
                 "KORMCMIN127" (Scenario.END_DATE - 2) Scenario.END_DATE)
    = Raise e.
Proof.
  apply (C3_unparseable_body_escapes Iso.to_datetime Scenario.wu_second_day_html
           "KORMCMIN127" (Scenario.END_DATE - 2) Scenario.END_DATE
           (Scenario.END_DATE - 1) 200).
  - vm_compute. split; discriminate.
  - vm_compute. reflexivity.
  - vm_compute. reflexivity.
Defined.

(** On that run the exception is [ValueError], the third day is never
    asked for, and the whole build stops with the same exception. *)
Lemma second_day_html_run :
  Eff.value (Pws.fetch_pws_range Iso.to_datetime Scenario.wu_second_day_html
               "KORMCMIN127" (Scenario.END_DATE - 2) Scenario.END_DATE)
  = Raise ValueError
  /\ Scenario.requests_of
       (Eff.trace (Pws.fetch_pws_range Iso.to_datetime Scenario.wu_second_day_html
                     "KORMCMIN127" (Scenario.END_DATE - 2) Scenario.END_DATE))
     = [WuDay "KORMCMIN127" (Scenario.END_DATE - 2);
        WuDay "KORMCMIN127" (Scenario.END_DATE - 1)]
  /\ Eff.value (Pws.build_combined_pws_observations Iso.to_datetime
                  Scenario.wu_second_day_html
                  [("KORMCMIN127", Scenario.END_DATE - 2)] Scenario.END_DATE)
     = Raise ValueError.
Proof. repeat split; vm_compute; reflexivity. Qed.

Lemma value_mapM_total {A B} (f : A -> Eff.M B) (l : list A) :
  (forall x, exists y, Eff.value (f x) = Ok y) ->
  exists ys, Eff.value (Eff.mapM f l) = Ok ys.
Proof.
  intros Hf. induction l as [|x l [ys IH]]; simpl.
  - now exists [].
  - destruct (Hf x) as [y Hy]. exists (y :: ys).
    rewrite (value_bind_eq _ _ _ Hy), (value_bind_eq _ _ _ IH). reflexivity.
Qed.

Lemma try_except_total {A} (m : Eff.M A) (a : A) lvl :
  Eff.value m <> Raise SystemExit ->
  exists y, Eff.value (Eff.try_except m Eff.any_exception
                         (Eff.log lvl ;;; Eff.ret a)) = Ok y.
Proof.
  destruct m as [[x|e] t]; simpl; intros H.
  - now exists x.
  - destruct e; simpl; now exists a.
Qed.

Lemma pws_all_day_no_exit to_datetime get info station day :
  Eff.value (PwsAll.fetch_pws_day to_datetime get info station day)
  <> Raise SystemExit.
Proof.
  unfold PwsAll.fetch_pws_day, PwsAll.get_wu_station_id, PwsAll.get_pws_name,
    PwsAll.get_pws_info.
  destruct (Stations.call info ["pws"; station]) as [i|e] eqn:Hcall.
  - cbn [Eff.lift Eff.bind Eff.ret Eff.log Eff.emit Eff.request app].
    match goal with |- context [get ?wu day] => destruct (get wu day) as [|status body] end;
      [simpl; discriminate|].
    destruct (raises_for_status status); [simpl; discriminate|].
    destruct body as [| |[[|o os]|]]; try (simpl; discriminate).
    destruct (Wu.time_column _); simpl; discriminate.
  - destruct info as [f|f]; simpl in Hcall; [injection Hcall as <- | discriminate].
    simpl. discriminate.
Qed.

(** The day loop of [fetch_pws_all_data.py] wraps each day in
    [try ... except Exception]: whatever the provider and the directory
    do, [fetch_pws_range] returns a frame. *)
Lemma pws_all_range_contains to_datetime get info station start_date end_date :
  exists df,
    Eff.value (PwsAll.fetch_pws_range to_datetime get info station
                 start_date end_date) = Ok df.
Proof.
  unfold PwsAll.fetch_pws_range.
  rewrite (value_bind_eq _ _ tt) by reflexivity.
  destruct (value_mapM_total
              (fun current =>
                 Eff.try_except
                   (PwsAll.fetch_pws_day to_datetime get info station current)
                   Eff.any_exception (Eff.log ERROR ;;; Eff.ret Wu.empty_frame))
              (Pws.days start_date end_date)) as [dfs Hdfs].
  - intros current. apply try_except_total, pws_all_day_no_exit.
  - rewrite (value_bind_eq _ _ _ Hdfs).
    destruct (List.filter _ dfs); eexists; reflexivity.
Qed.

(* ===================================================================== *)
(** ** C8: the delay between requests *)
(* ===================================================================== *)






Section Paced.
Variable delay : Q.


Lemma paced_raise {A} e : paced delay (@Eff.raise A e).
Proof. repeat split. constructor. Qed.





End Paced.

(** What [fetch_pws_day] leaves in the trace: its request, then only
    log lines. *)
Lemma pws_day_trace to_datetime get station day :
  exists logs,
    Eff.trace (Pws.fetch_pws_day to_datetime get station day)
    = Request (WuDay station day) :: logs
    /\ Forall is_log logs.
Proof.
  unfold Pws.fetch_pws_day.
  destruct (get station day) as [|status body]; simpl.
  - eexists. split; [reflexivity|]. repeat constructor.
  - destruct (raises_for_status status); simpl.
    + eexists. split; [reflexivity|]. repeat constructor.
    + destruct body as [| |[[|o os]|]]; simpl;
        try (eexists; split; [reflexivity|]; repeat constructor).
      destruct (Wu.time_column _); simpl;
        eexists; (split; [reflexivity|]); repeat constructor.
Qed.





(** The day loop of [fetch_pws_all_data.py], run against the registry,
    asks for its days back to back as well. *)
Lemma pws_all_requests_back_to_back :
  Eff.trace (PwsAll.fetch_pws_range Iso.to_datetime Scenario.wu_every_day
               Stations.registry_backend "KORMCMIN127"
               (Scenario.END_DATE - 1) Scenario.END_DATE)
  = [Log INFO; Log DEBUG; Request (WuDay "KORMCMIN127" (Scenario.END_DATE - 1));
     Log DEBUG; Request (WuDay "KORMCMIN127" Scenario.END_DATE)].
Proof. vm_compute. reflexivity. Qed.

(* ===================================================================== *)
(** ** C9: one lower bound for every station *)
(* ===================================================================== *)

Lemma fold_min_le_init (l : list Z) (x : Z) : fold_left Z.min l x <= x.
Proof.
  revert x. induction l as [|z l IH]; simpl; intros x; [lia|].
  specialize (IH (Z.min x z)). lia.
Qed.

Lemma fold_min_le_in (l : list Z) (x y : Z) : In y l -> fold_left Z.min l x <= y.
Proof.
  revert x. induction l as [|z l IH]; simpl; intros x; [tauto|].
  intros [E|H].
  - pose proof (fold_min_le_init l (Z.min x z)). lia.
  - now apply IH.
Qed.

Lemma min_of_le (l : list Z) (m y : Z) : Pws.min_of l = Ok m -> In y l -> m <= y.
Proof.
  destruct l as [|x l]; simpl; [discriminate|]. intros [= <-] [E|H].
  - subst. apply fold_min_le_init.
  - now apply fold_min_le_in.
Qed.

Lemma fold_min_in (l : list Z) (x : Z) :
  fold_left Z.min l x = x \/ In (fold_left Z.min l x) l.
Proof.
  revert x. induction l as [|z l IH]; simpl; intros x; [now left|].
  destruct (IH (Z.min x z)) as [E|H]; [|now right; right].
  rewrite E. destruct (Z.min_spec x z) as [[_ ->]|[_ ->]]; auto.
Qed.

Lemma min_of_in (l : list Z) (m : Z) : Pws.min_of l = Ok m -> In m l.
Proof.
  destruct l as [|x l]; simpl; [discriminate|]. intros [= <-].
  destruct (fold_min_in l x) as [-> | H]; auto.
Qed.

(** What the last filter keeps lies between its bounds. *)
Lemma window_filter_bounds min_start end_date df_all kept r :
  Pws.window_filter min_start end_date df_all = Ok kept ->
  In r kept ->
  In r (Wu.rows df_all)
  /\ exists t, timestamp r = Some t
               /\ Calendar.Timestamp min_start <= t
                  <= Calendar.Timestamp end_date + Calendar.Timedelta_days 1.
Proof.
  assert (Hw : forall hi,
             hi <= Calendar.Timestamp end_date + Calendar.Timedelta_days 1 ->
             In r (Frame.window (Calendar.Timestamp min_start) hi (Wu.rows df_all)) ->
             In r (Wu.rows df_all)
             /\ exists t, timestamp r = Some t
                          /\ Calendar.Timestamp min_start <= t
                             <= Calendar.Timestamp end_date
                                + Calendar.Timedelta_days 1).
  { intros hi Hhi [Hin Hwin]%window_In. split; [exact Hin|].
    unfold Frame.in_window in Hwin.
    destruct (timestamp r) as [t|]; [|discriminate].
    apply andb_true_iff in Hwin as [H1 H2]. exists t. split; [reflexivity|]. lia. }
  unfold Pws.window_filter.
  destruct (Wu.dtype df_all) as [| |[|]]; try discriminate;
    intros [= <-]; apply Hw;
    unfold Calendar.Timedelta_microseconds; lia.
Qed.

(** A timestamp between the bounds passes the last filter whenever the
    filter returns. *)
Lemma window_filter_keeps min_start end_date df_all kept r t :
  Pws.window_filter min_start end_date df_all = Ok kept ->
  In r (Wu.rows df_all) -> timestamp r = Some t ->
  Calendar.Timestamp min_start <= t <= Calendar.Timestamp end_date ->
  In r kept.
Proof.
  intros Hf Hr Ht Hwin.
  assert (Hin : forall hi, Calendar.Timestamp end_date <= hi ->
                  Frame.in_window (Calendar.Timestamp min_start) hi r = true).
  { intros hi Hhi. unfold Frame.in_window. rewrite Ht.
    apply andb_true_iff. rewrite !Z.leb_le. lia. }
  unfold Pws.window_filter in Hf.
  destruct (Wu.dtype df_all) as [| |[|]]; try discriminate;
    injection Hf as <-; apply window_In; (split; [assumption|]); apply Hin;
    unfold Calendar.Timestamp, Calendar.Timedelta_days,
      Calendar.Timedelta_microseconds, Calendar.US_PER_DAY; lia.
Qed.

Lemma Forall2_In_l {A B} (P : A -> B -> Prop) (l : list A) (ys : list B) (x : A) :
  Forall2 P l ys -> In x l -> exists y, In y ys /\ P x y.
Proof.
  induction 1 as [|a b l ys Hab _ IH]; simpl; [tauto|].
  intros [<-|Hin]; [eauto|]. destruct (IH Hin) as (y & ? & ?). eauto.
Qed.

(** C9. In [build_combined_pws_observations] the last filter has one
    lower bound, the earliest of the configured start dates, for every
    row whatever station it comes from.  For a run that returns a
    table: the bound [min_start] is one of the configured start dates
    and none is earlier; no row of the table is stamped before it; and a
    row that [fetch_pws_range] returned for a station, stamped before
    that station's own start date but not before [min_start], has its
    [(station_id, timestamp)] in the table. *)
Theorem C9_min_start_lower_bound
        (to_datetime : bool -> Cell -> option Z)
        (get : string -> Z -> Response Wu.Json)
        (station_windows : list (string * Z)) (end_date min_start : Z)
        (df : list Row) :
  Eff.value (Pws.build_combined_pws_observations to_datetime get
               station_windows end_date) = Ok df ->
  Pws.min_of (map snd station_windows) = Ok min_start ->
  (exists station, In (station, min_start) station_windows)
  /\ (forall station start_date,
        In (station, start_date) station_windows -> min_start <= start_date)
  /\ (forall r, In r df ->
        exists t, timestamp r = Some t
                  /\ Calendar.Timestamp min_start <= t
                     <= Calendar.Timestamp end_date + Calendar.Timedelta_days 1)
  /\ (forall station own_start df_station r t,
        In (station, own_start) station_windows ->
        own_start <= end_date ->
        Eff.value (Pws.fetch_pws_range to_datetime get station own_start end_date)
        = Ok df_station ->
        In r (Wu.rows df_station) ->
        timestamp r = Some t ->
        Calendar.Timestamp min_start <= t < Calendar.Timestamp own_start ->
        exists r', In r' df /\ row_key r' = row_key r).
Proof.
  intros Hrun Hmin. split; [|split].
  { apply min_of_in in Hmin. apply in_map_iff in Hmin as ([station start] & E & Hin).
    simpl in E. subst start. eauto. }
  { intros station start_date Hin. apply (min_of_le _ _ _ Hmin).
    apply in_map_iff. exists (station, start_date). auto. }
  unfold Pws.build_combined_pws_observations in Hrun.
  apply value_bind_Ok in Hrun as (frames & Hframes & Hrun).
  apply value_mapM_Ok in Hframes.
  destruct (List.filter (fun df0 => negb (Wu.empty df0)) frames) as [|f fs] eqn:Hall.
  { apply value_log_ret in Hrun as <-. split; [intros r []|].
    intros station own_start df_station r t Hin Hend Hfetch Hr _ _. exfalso.
    destruct (Forall2_In_l _ _ _ _ Hframes Hin) as (y & Hy & Hv).
    cbv beta iota in Hv.
    destruct (Z.ltb_spec end_date own_start) as [?|_]; [lia|].
    rewrite Hfetch in Hv. injection Hv as <-.
    assert (Hf : In df_station
                   (List.filter (fun df0 => negb (Wu.empty df0)) frames)).
    { apply filter_In. split; [exact Hy|]. unfold Wu.empty.
      destruct (Wu.rows df_station); [destruct Hr | reflexivity]. }
    rewrite Hall in Hf. destruct Hf. }
  rewrite Hmin in Hrun. cbn [Eff.lift] in Hrun.
  apply value_bind_Ok in Hrun as (ms & Hms & Hrun). injection Hms as <-.
  apply value_bind_Ok in Hrun as (kept & Hkept & Hrun).
  injection Hrun as <-.
  assert (Hfilter : Pws.window_filter min_start end_date (Wu.concat_frames (f :: fs))
                    = Ok kept).
  { destruct (Pws.window_filter _ _ _); simpl in Hkept; congruence. }
  split.
  - intros r Hr. apply dedupe_sort_In in Hr.
    now destruct (window_filter_bounds _ _ _ _ _ Hfilter Hr).
  - intros station own_start df_station r t Hin Hend Hfetch Hr Ht Hwin.
    destruct (Forall2_In_l _ _ _ _ Hframes Hin) as (y & Hy & Hv).
    cbv beta iota in Hv.
    destruct (Z.ltb_spec end_date own_start) as [?|_]; [lia|].
    rewrite Hfetch in Hv. injection Hv as <-.
    assert (Hf : In df_station (f :: fs)).
    { rewrite <- Hall. apply filter_In. split; [exact Hy|]. unfold Wu.empty.
      destruct (Wu.rows df_station); [destruct Hr | reflexivity]. }
    assert (Hrow : In r (Wu.rows (Wu.concat_frames (f :: fs)))).
    { unfold Wu.concat_frames. cbn [Wu.rows]. apply in_concat.
      exists (Wu.rows df_station). split; [now apply in_map | exact Hr]. }
    apply dedupe_sort_keeps.
    apply (window_filter_keeps _ _ _ _ _ t Hfilter Hrow Ht).
    unfold Calendar.Timestamp, Calendar.US_PER_DAY in *. lia.
Qed.

Lemma C9_min_start_lower_bound_witness :
  timestamp Scenario.early_row = Some Scenario.early_stamp
  /\ (forall r, In r Scenario.early_table ->
        exists t, timestamp r = Some t
                  /\ Calendar.Timestamp (Scenario.END_DATE - 1) <= t
                     <= Calendar.Timestamp Scenario.END_DATE
                        + Calendar.Timedelta_days 1)
  /\ exists r', In r' Scenario.early_table
                /\ row_key r' = ("KORMCMIN133", Some Scenario.early_stamp).
Proof.
  destruct (C9_min_start_lower_bound Iso.to_datetime Scenario.wu_early
              Scenario.two_windows Scenario.END_DATE (Scenario.END_DATE - 1)
              Scenario.early_table
              ltac:(vm_compute; reflexivity) ltac:(vm_compute; reflexivity))
    as (_ & _ & Hbound & Hkept).
  split; [vm_compute; reflexivity|]. split; [exact Hbound|].
  destruct (Hkept "KORMCMIN133" Scenario.END_DATE Scenario.early_fetched
              Scenario.early_row Scenario.early_stamp)
    as (r' & Hin & Hkey).
  - simpl. right. left. reflexivity.
  - lia.
  - vm_compute. reflexivity.
  - vm_compute. left. reflexivity.
  - vm_compute. reflexivity.
  - vm_compute. split; [discriminate | reflexivity].
  - exists r'. split; [exact Hin|]. rewrite Hkey. vm_compute. reflexivity.
Defined.

(** The same through a whole run: the second station starts on
    2025-11-18, its observation stamped 2025-11-17 23:30 UTC is in the
    table that [build_combined_pws_observations] returns. *)
Lemma early_row_in_final_table :
  option_map (map row_key)
    (match Eff.value (Pws.build_combined_pws_observations Iso.to_datetime
                        Scenario.wu_early Scenario.two_windows Scenario.END_DATE)
     with Ok df => Some df | Raise _ => None end)
  = Some [("KORMCMIN127", Some (Calendar.Timestamp (Scenario.END_DATE - 1)
                                + 12 * Calendar.US_PER_HOUR));
          ("KORMCMIN127", Some (Calendar.Timestamp Scenario.END_DATE
                                + 12 * Calendar.US_PER_HOUR));
          ("KORMCMIN133", Some Scenario.early_stamp)].
Proof. vm_compute. reflexivity. Qed.

(* ===================================================================== *)
(** ** C10: the station id of an airport row *)
(* ===================================================================== *)







(** On that run the caller asks for KEUG and every returned row is keyed
    by EUG. *)
Lemma mesonet_eug_run :
  option_map (map station_id)
    (match Eff.value (Airport.fetch_asos_for_station Iso.to_datetime
                        Scenario.mesonet_eug Stations.registry_backend
                        Scenario.END_DATE "KEUG"
                        (Airport.START_DATE Scenario.END_DATE) Scenario.END_DATE)
     with Ok df => Some df | Raise _ => None end)
  = Some ["EUG"; "EUG"].
Proof. vm_compute. reflexivity. Qed.

(* ===================================================================== *)
(** * Further properties of the scripts *)
(* ===================================================================== *)

(** ** The returned tables *)

(** What every fetcher returns is empty or comes out of the
    deduplicate-and-sort step. *)
Lemma final_table_shape df :
  final_table df -> df = [] \/ exists d, df = Frame.dedupe_sort d.
Proof.
  intros [E gy gr df' H | td g i ids E df' H | td g sw e df' H
          | td g i ids key E df' H].
  - unfold Buoy.fetch_buoy_data in H.
    apply value_bind_Ok in H as (_ & _ & H).
    apply value_bind_Ok in H as (frames & _ & H).
    destruct (concat frames).
    + apply value_log_ret in H as <-. now left.
    + injection H as <-. right. eexists. reflexivity.
  - unfold Airport.fetch_airport_data in H.
    destruct (Airport.get_airport_ids ids).
    { apply value_log_ret in H as <-. now left. }
    apply value_bind_Ok in H as (_ & _ & H).
    apply value_bind_Ok in H as (frames & _ & H).
    destruct (concat frames).
    + apply value_log_ret in H as <-. now left.
    + injection H as <-. right. eexists. reflexivity.
  - unfold Pws.build_combined_pws_observations in H.
    apply value_bind_Ok in H as (frames & _ & H).
    destruct (List.filter _ frames).
    + apply value_log_ret in H as <-. now left.
    + apply value_bind_Ok in H as (ms & _ & H).
      apply value_bind_Ok in H as (kept & _ & H).
      injection H as <-. right. eexists. reflexivity.
  - unfold PwsAll.fetch_pws_data in H.
    destruct key as [[|c k]|]; try discriminate.
    destruct (PwsAll.get_pws_ids ids).
    { apply value_log_ret in H as <-. now left. }
    apply value_bind_Ok in H as (_ & _ & H).
    apply value_bind_Ok in H as (frames & _ & H).
    destruct (List.filter _ frames).
    + apply value_log_ret in H as <-. now left.
    + apply value_bind_Ok in H as (kept & _ & H).
      injection H as <-. right. eexists. reflexivity.
Qed.

(** X1. The table a fetcher returns is in non-decreasing order of
    [(station_id, timestamp)]. *)
Theorem X1_final_table_sorted (df : list Row) :
  final_table df -> Frame.is_sorted Frame.key_leb df = true.
Proof.
  intros H. destruct (final_table_shape df H) as [-> | [d ->]].
  - reflexivity.
  - apply dedupe_sort_sorted.
Qed.

Lemma X1_final_table_sorted_witness :
  length Scenario.buoy_table = 2%nat
  /\ Frame.is_sorted Frame.key_leb Scenario.buoy_table = true.
Proof.
  split; [vm_compute; reflexivity|].
  apply (X1_final_table_sorted Scenario.buoy_table).
  apply (final_buoy Scenario.END_DATE Scenario.no_archive Scenario.realtime_46050).
  vm_compute. reflexivity.
Defined.

(** X2. Every row of the table [fetch_airport_data] returns, and every
    row of the table [fetch_buoy_data] returns, has a timestamp, on a
    day from the fetcher's [START_DATE] to [END_DATE]: no row without a
    readable time and no row outside the window reaches the caller. *)
Theorem X2_rows_in_window (END_DATE : Z) (df : list Row) (r : Row) :
  In r df ->
  (forall (to_datetime : bool -> Cell -> option Z)
          (get : string -> Z -> Z -> Response Airport.Csv)
          (get_station_info : Stations.Callable)
          (get_station_ids : string -> list string),
      Eff.value (Airport.fetch_airport_data to_datetime get get_station_info
                   get_station_ids END_DATE) = Ok df ->
      exists t, timestamp r = Some t
                /\ Airport.START_DATE END_DATE <= Calendar.ts_date t <= END_DATE)
  /\ (forall (get_year : string -> Z -> Response (option (list string)))
             (get_realtime : string -> Response (list string)),
         Eff.value (Buoy.fetch_buoy_data END_DATE get_year get_realtime) = Ok df ->
         exists t, timestamp r = Some t
                   /\ Buoy.START_DATE END_DATE <= Calendar.ts_date t <= END_DATE).
Proof.
  intros Hin. split.
  - intros to_datetime get info ids H.
    exact (airport_table_in_window to_datetime get info ids END_DATE df r H Hin).
  - intros get_year get_realtime H.
    exact (buoy_table_in_window END_DATE get_year get_realtime df r H Hin).
Qed.

Lemma X2_rows_in_window_witness :
  (exists t, timestamp (Runs.first_row Runs.airport_table) = Some t
             /\ Airport.START_DATE Scenario.END_DATE <= Calendar.ts_date t
                <= Scenario.END_DATE)
  /\ (exists t, timestamp (Runs.first_row Scenario.buoy_table) = Some t
                /\ Buoy.START_DATE Scenario.END_DATE <= Calendar.ts_date t
                   <= Scenario.END_DATE).
Proof.
  split.
  - apply (proj1 (X2_rows_in_window Scenario.END_DATE Runs.airport_table
                    (Runs.first_row Runs.airport_table)
                    ltac:(vm_compute; left; reflexivity))
             Iso.to_datetime Scenario.mesonet_eug Stations.registry_backend
             Stations.Registry.get_station_ids).
    vm_compute. reflexivity.
  - apply (proj2 (X2_rows_in_window Scenario.END_DATE Scenario.buoy_table
                    (Runs.first_row Scenario.buoy_table)
                    ltac:(vm_compute; left; reflexivity))
             Scenario.no_archive Scenario.realtime_46050).
    vm_compute. reflexivity.
Defined.

(** ** What the deduplicate-and-sort step keeps *)

Section FirstOccurrence.
Context {A K : Type} `{EqDecision K}.
Variable key : A -> K.

Lemma drop_duplicates_from_first seen l x :
    In x (Frame.drop_duplicates_from key seen l) ->
    exists l1 l2, l = (l1 ++ x :: l2)%list
                  /\ forall y, In y l1 -> key y <> key x.
Proof.
    revert seen. induction l as [|z l IH]; simpl; intros seen; [tauto|].
    case_bool_decide as Hz; simpl.
    - intros Hx. pose proof (drop_duplicates_from_fresh key _ _ _ Hx) as Hf.
      destruct (IH _ Hx) as (l1 & l2 & -> & Hl1).
      exists (z :: l1), l2. split; [reflexivity|].
      intros y [<-|Hy]; [|auto]. intros E. apply Hf. now rewrite <- E.
    - intros [<-|Hx].
      + exists [], l. split; [reflexivity|]. intros y [].
      + pose proof (drop_duplicates_from_fresh key _ _ _ Hx) as Hf.
        destruct (IH _ Hx) as (l1 & l2 & -> & Hl1).
        exists (z :: l1), l2. split; [reflexivity|].
        intros y [<-|Hy]; [|auto]. intros E. apply Hf. rewrite <- E. now left.
Qed.
End FirstOccurrence.

Lemma filter_split_first {A} (p : A -> bool) (l : list A) l1 x l2 :
  List.filter p l = (l1 ++ x :: l2)%list ->
  exists k1 k2, l = (k1 ++ x :: k2)%list /\ List.filter p k1 = l1.
Proof.
  revert l1. induction l as [|a l IH]; simpl; intros l1 H.
  - destruct l1; discriminate.
  - destruct (p a) eqn:Ha.
    + destruct l1 as [|b l1]; simpl in H; injection H as <- H.
      * exists [], l. split; reflexivity.
      * destruct (IH _ H) as (k1 & k2 & -> & <-).
        exists (a :: k1), k2. simpl. rewrite Ha. split; reflexivity.
    + destruct (IH _ H) as (k1 & k2 & -> & <-).
      exists (a :: k1), k2. simpl. rewrite Ha. split; reflexivity.
Qed.

Lemma in_window_same_key lo hi a b :
  row_key a = row_key b -> Frame.in_window lo hi a = Frame.in_window lo hi b.
Proof. unfold row_key, Frame.in_window. intros [= _ ->]. reflexivity. Qed.

(** The row kept for a key is the first row of the whole input that
    has that key. *)
Lemma window_dedupe_first lo hi df r :
  In r (Frame.dedupe_sort (Frame.window lo hi df)) ->
  exists l1 l2, df = (l1 ++ r :: l2)%list
                /\ forall y, In y l1 -> row_key y <> row_key r.
Proof.
  intros Hr.
  assert (Hw : Frame.in_window lo hi r = true).
  { apply dedupe_sort_In, window_In in Hr. tauto. }
  apply (Permutation_in _ (dedupe_sort_perm _)) in Hr.
  apply drop_duplicates_from_first in Hr as (l1 & l2 & Hsplit & Hl1).
  apply filter_split_first in Hsplit as (k1 & k2 & -> & <-).
  exists k1, k2. split; [reflexivity|].
  intros y Hy E. apply (Hl1 y); [|assumption].
  apply filter_In. split; [assumption|].
  now rewrite (in_window_same_key lo hi y r E).
Qed.

(** X3. When several rows of the concatenated frames share a station
    and a timestamp, the table of [fetch_buoy_data] and the table of
    [fetch_airport_data] keep the one that comes first in the
    concatenation (a yearly archive before the realtime feed, a station
    asked for earlier before a later one). *)
Theorem X3_first_occurrence_kept :
  (forall END_DATE df_all r,
      In r (Buoy.assemble END_DATE df_all) ->
      exists l1 l2, df_all = (l1 ++ r :: l2)%list
                    /\ forall y, In y l1 -> row_key y <> row_key r)
  /\ (forall END_DATE df_all r,
      In r (Airport.assemble END_DATE df_all) ->
      exists l1 l2, df_all = (l1 ++ r :: l2)%list
                    /\ forall y, In y l1 -> row_key y <> row_key r).
Proof.
  split; intros END_DATE df_all r; apply window_dedupe_first.
Qed.

(** X4. The step loses no key and invents no row: a row of the input
    that has a timestamp inside the window has its
    [(station_id, timestamp)] in the output, and every row of the output
    is such a row of the input. *)
Theorem X4_assemble_keys_preserved :
  forall END_DATE df_all,
    (forall r, In r df_all ->
               Frame.in_window (Calendar.Timestamp (Airport.START_DATE END_DATE))
                 (Calendar.Timestamp END_DATE + Calendar.Timedelta_days 1
                  - Calendar.Timedelta_microseconds 1) r = true ->
               exists r', In r' (Airport.assemble END_DATE df_all)
                          /\ row_key r' = row_key r)
    /\ (forall r, In r (Airport.assemble END_DATE df_all) ->
                  In r df_all
                  /\ Frame.in_window
                       (Calendar.Timestamp (Airport.START_DATE END_DATE))
                       (Calendar.Timestamp END_DATE + Calendar.Timedelta_days 1
                        - Calendar.Timedelta_microseconds 1) r = true)
    /\ (length (Airport.assemble END_DATE df_all) <= length df_all)%nat.
Proof.
  intros END_DATE df_all. unfold Airport.assemble, Airport.global_window.
  repeat split.
  - intros r Hr Hw. apply dedupe_sort_keeps. now apply window_In.
  - apply dedupe_sort_In, window_In in H. tauto.
  - apply dedupe_sort_In, window_In in H. tauto.
  - rewrite (Permutation_length (dedupe_sort_perm _)).
    etransitivity; [|apply List.filter_length_le].
    assert (G : forall (l s : list (string * option Z)),
               (length (Frame.drop_duplicates_from row_key s
                          (Frame.window
                             (Calendar.Timestamp (Airport.START_DATE END_DATE))
                             (Calendar.Timestamp END_DATE + Calendar.Timedelta_days 1
                              - Calendar.Timedelta_microseconds 1) df_all))
                <= length (Frame.window
                             (Calendar.Timestamp (Airport.START_DATE END_DATE))
                             (Calendar.Timestamp END_DATE + Calendar.Timedelta_days 1
                              - Calendar.Timedelta_microseconds 1) df_all))%nat).
    { intros _ s. generalize (Frame.window
                             (Calendar.Timestamp (Airport.START_DATE END_DATE))
                             (Calendar.Timestamp END_DATE + Calendar.Timedelta_days 1
                              - Calendar.Timedelta_microseconds 1) df_all).
      intros l. revert s. induction l as [|x l IH]; simpl; intros s; [lia|].
      case_bool_decide; simpl; [specialize (IH s) | specialize (IH (row_key x :: s))]; lia. }
    apply (G [] []).
Qed.

(** ** Traces of loops *)

Lemma requests_of_app t1 t2 :
  Scenario.requests_of (t1 ++ t2)
  = (Scenario.requests_of t1 ++ Scenario.requests_of t2)%list.
Proof. apply omap_app. Qed.

Lemma requests_of_request r tr :
  Scenario.requests_of (Request r :: tr) = r :: Scenario.requests_of tr.
Proof. reflexivity. Qed.

Lemma requests_of_log lvl tr :
  Scenario.requests_of (Log lvl :: tr) = Scenario.requests_of tr.
Proof. reflexivity. Qed.

Lemma requests_of_logs logs : Forall is_log logs -> Scenario.requests_of logs = [].
Proof.
  induction 1 as [|[r|s|l] logs H _ IH]; simpl; try contradiction; auto.
Qed.

Lemma trace_mapM_Ok {A B} (f : A -> Eff.M B) (l : list A) (ys : list B) :
  Eff.value (Eff.mapM f l) = Ok ys ->
  Eff.trace (Eff.mapM f l) = concat (map (fun x => Eff.trace (f x)) l).
Proof.
  revert ys. induction l as [|x l IH]; simpl; intros ys H; [reflexivity|].
  apply value_bind_Ok in H as (y & Hy & H).
  apply value_bind_Ok in H as (ys' & Hys & H).
  rewrite (trace_bind_Ok _ _ _ Hy), (trace_bind_Ok _ _ _ Hys), (IH _ Hys).
  simpl. now rewrite app_nil_r.
Qed.

(** The trace of a loop that stops on an exception is a prefix of the
    trace it would leave otherwise. *)
Lemma trace_mapM_prefix {A B} (f : A -> Eff.M B) (l : list A) :
  exists rest,
    concat (map (fun x => Eff.trace (f x)) l)
    = (Eff.trace (Eff.mapM f l) ++ rest)%list.
Proof.
  induction l as [|x l [rest IH]]; simpl.
  - now exists [].
  - destruct (Eff.value (f x)) as [y|e] eqn:Hy.
    + rewrite (trace_bind_Ok _ _ _ Hy).
      destruct (Eff.value (Eff.mapM f l)) as [ys|e] eqn:Hys.
      * rewrite (trace_bind_Ok _ _ _ Hys). simpl. rewrite app_nil_r.
        exists rest. rewrite IH. now rewrite app_assoc.
      * rewrite (trace_bind_Raise _ _ _ Hys).
        exists rest. rewrite IH. now rewrite app_assoc.
    + rewrite (trace_bind_Raise _ _ _ Hy). eexists. reflexivity.
Qed.

Lemma value_mapM_Raise_inv {A B} (f : A -> Eff.M B) (l : list A) (e : Exn) :
  Eff.value (Eff.mapM f l) = Raise e ->
  exists x, In x l /\ Eff.value (f x) = Raise e.
Proof.
  induction l as [|x l IH]; simpl; [discriminate|]. intros H.
  destruct (Eff.value (f x)) as [y|e1] eqn:Hy.
  - rewrite (value_bind_eq _ _ _ Hy) in H.
    destruct (Eff.value (Eff.mapM f l)) as [ys|e2] eqn:Hys.
    + rewrite (value_bind_eq _ _ _ Hys) in H. discriminate.
    + rewrite (value_bind_Raise _ _ _ Hys) in H. injection H as <-.
      destruct (IH eq_refl) as (x' & ? & ?). exists x'. auto.
  - rewrite (value_bind_Raise _ _ _ Hy) in H. injection H as <-.
    exists x. auto.
Qed.

(** ** fetch_buoy_data.py: the two fetchers *)


(** The shape of a run of [fetch_ndbc_year]: one request and log lines
    only; it raises nothing but [ValueError] (a line of the archive
    longer than the first), and what it returns is a window of the
    table of the archive. *)
Lemma year_fetch_shape END_DATE get_year station year :
  exists logs,
    Eff.trace (Buoy.fetch_ndbc_year END_DATE get_year station year)
    = Log INFO :: Request (NdbcYear station year) :: logs
    /\ Forall is_log logs
    /\ (forall e, Eff.value (Buoy.fetch_ndbc_year END_DATE get_year station year)
                  = Raise e -> e = ValueError)
    /\ (forall df, Eff.value (Buoy.fetch_ndbc_year END_DATE get_year station year)
                   = Ok df ->
                   df = []
                   \/ exists first data_lines,
                        df = Buoy.chunk_window END_DATE
                               (Buoy.year_frame station first data_lines)).
Proof.
  unfold Buoy.fetch_ndbc_year.
  destruct (get_year station year) as [|status body].
  { eexists. split; [reflexivity|]. split; [repeat constructor|].
    split; [discriminate|]. intros df [= <-]. now left. }
  destruct (raises_for_status status).
  { destruct (status =? 404); eexists; (split; [reflexivity|]);
      (split; [repeat constructor|]); (split; [discriminate|]);
      intros df [= <-]; now left. }
  destruct body as [lines|].
  2: { eexists. split; [reflexivity|]. split; [repeat constructor|].
       split; [discriminate|]. intros df [= <-]. now left. }
  destruct (List.filter _ lines) as [|first rest].
  { eexists. split; [reflexivity|]. split; [repeat constructor|].
    split; [discriminate|]. intros df [= <-]. now left. }
  destruct (Buoy.too_wide _ _).
  { exists []. split; [reflexivity|]. split; [constructor|].
    split; [intros e [= <-]; reflexivity | discriminate]. }
  destruct (Buoy.has_time_cols _).
  - exists []. split; [reflexivity|]. split; [constructor|].
    split; [discriminate|]. intros df [= <-].
    right. exists first, (first :: rest). reflexivity.
  - exists [Log WARNING]. split; [reflexivity|]. split; [repeat constructor|].
    split; [discriminate|]. intros df [= <-].
    right. exists first, (first :: rest). reflexivity.
Qed.

(** X5. [fetch_ndbc_year] asks NDBC exactly once, whatever the answer,
    and contains every failure of the download: a connection error, an
    error status, an archive that cannot be gunzipped and an archive
    without data lines each give no rows and one more log line -- a
    warning for status 404 (archive not published) and for an archive
    without data, an error otherwise. *)
Theorem X5_year_fetch_contained :
  forall END_DATE get_year station year,
    Scenario.requests_of
      (Eff.trace (Buoy.fetch_ndbc_year END_DATE get_year station year))
    = [NdbcYear station year]
    /\ (get_year station year = ConnectionError ->
        Buoy.fetch_ndbc_year END_DATE get_year station year
        = (Ok [], [Log INFO; Request (NdbcYear station year); Log ERROR]))
    /\ (forall status body,
           get_year station year = Http status body ->
           raises_for_status status = true ->
           Buoy.fetch_ndbc_year END_DATE get_year station year
           = (Ok [], [Log INFO; Request (NdbcYear station year);
                      Log (if status =? 404 then WARNING else ERROR)]))
    /\ (forall status,
           get_year station year = Http status None ->
           raises_for_status status = false ->
           Buoy.fetch_ndbc_year END_DATE get_year station year
           = (Ok [], [Log INFO; Request (NdbcYear station year); Log ERROR]))
    /\ (forall status lines,
           get_year station year = Http status (Some lines) ->
           raises_for_status status = false ->
           Forall (fun ln => Text.startswith_hash ln = true
                             \/ Text.nonblank ln = false) lines ->
           Buoy.fetch_ndbc_year END_DATE get_year station year
           = (Ok [], [Log INFO; Request (NdbcYear station year); Log WARNING])).
Proof.
  intros END_DATE get_year station year.
  destruct (year_fetch_shape END_DATE get_year station year)
    as (logs & E & Hlogs & _).
  split; [|split; [|split; [|split]]].
  - rewrite E. simpl. now rewrite requests_of_logs.
  - intros Hget. unfold Buoy.fetch_ndbc_year. now rewrite Hget.
  - intros status body Hget Hst. unfold Buoy.fetch_ndbc_year.
    rewrite Hget, Hst. destruct (status =? 404); reflexivity.
  - intros status Hget Hst. unfold Buoy.fetch_ndbc_year.
    now rewrite Hget, Hst.
  - intros status lines Hget Hst Hlines. unfold Buoy.fetch_ndbc_year.
    rewrite Hget, Hst.
    replace (List.filter _ lines) with (@nil string); [reflexivity|].
    symmetry. clear Hget. induction Hlines as [|ln lines Hln _ IH]; [reflexivity|].
    simpl. destruct Hln as [-> | ->]; simpl; [exact IH|].
    rewrite andb_false_r. exact IH.
Qed.

Lemma X5_year_fetch_contained_witness :
  Buoy.fetch_ndbc_year Scenario.END_DATE Runs.archive_2024 "46050" 2023
  = (Ok [], [Log INFO; Request (NdbcYear "46050" 2023); Log ERROR])
  /\ Buoy.fetch_ndbc_year Scenario.END_DATE Runs.archive_2024 "46050" 2022
     = (Ok [], [Log INFO; Request (NdbcYear "46050" 2022); Log WARNING])
  /\ Buoy.fetch_ndbc_year Scenario.END_DATE
       (fun _ _ => Http 200 (Some ["#YY  MM DD hh mm WDIR WSPD"; "  "])) "46050" 2021
     = (Ok [], [Log INFO; Request (NdbcYear "46050" 2021); Log WARNING]).
Proof.
  split; [|split].
  - apply (proj1 (proj2 (proj2 (X5_year_fetch_contained Scenario.END_DATE
                                  Runs.archive_2024 "46050" 2023))) 500 None);
      reflexivity.
  - apply (proj1 (proj2 (proj2 (X5_year_fetch_contained Scenario.END_DATE
                                  Runs.archive_2024 "46050" 2022))) 404 None);
      reflexivity.
  - apply (proj2 (proj2 (proj2 (proj2
             (X5_year_fetch_contained Scenario.END_DATE
                (fun _ _ => Http 200 (Some ["#YY  MM DD hh mm WDIR WSPD"; "  "]))
                "46050" 2021)))) 200 ["#YY  MM DD hh mm WDIR WSPD"; "  "]).
    + reflexivity.
    + reflexivity.
    + constructor; [left; reflexivity|].
      constructor; [right; reflexivity | constructor].
Defined.

Lemma record_of_keys names cells c v :
  record_of names cells !! c = Some v -> c ∈ names.
Proof.
  unfold record_of. intros H. apply elem_of_list_to_map_2 in H.
  now apply elem_of_zip_l in H.
Qed.

(** X6. Every row [fetch_ndbc_year] returns carries the station that
    was asked for, has a timestamp on a day from [START_DATE] to
    [END_DATE], and has no column outside the canonical NDBC list: a
    wider table is cut to it. *)
Theorem X6_year_rows
        (END_DATE : Z)
        (get_year : string -> Z -> Response (option (list string)))
        (station : string) (year : Z) (df : list Row) (r : Row) :
  Eff.value (Buoy.fetch_ndbc_year END_DATE get_year station year) = Ok df ->
  In r df ->
  station_id r = station
  /\ station_name r = None
  /\ (exists t, timestamp r = Some t
                /\ Buoy.START_DATE END_DATE <= Calendar.ts_date t <= END_DATE)
  /\ (forall c v, fields r !! c = Some v -> c ∈ Buoy.canonical_cols).
Proof.
  intros Hv Hr.
  destruct (year_fetch_shape END_DATE get_year station year)
    as (logs & _ & _ & _ & Hdf).
  destruct (Hdf df Hv) as [-> | (first & data_lines & ->)]; [destruct Hr|].
  unfold Buoy.chunk_window in Hr. apply window_In in Hr as [Hr Hw].
  apply day_window_exact in Hw as (t & Ht & Hw).
  unfold Buoy.year_frame in Hr. apply in_map_iff in Hr as (cells & <- & _).
  simpl in *. repeat split.
  - exists t. split; [assumption|]. now apply window_dates.
  - intros c v Hc. apply record_of_keys in Hc.
    now apply (subseteq_take _ _ c) in Hc.
Qed.

Lemma X6_year_rows_witness :
  length Runs.archive_rows = 2%nat
  /\ station_id (Runs.first_row Runs.archive_rows) = "46050"
  /\ station_name (Runs.first_row Runs.archive_rows) = None
  /\ (exists t, timestamp (Runs.first_row Runs.archive_rows) = Some t
                /\ Buoy.START_DATE Scenario.END_DATE <= Calendar.ts_date t
                   <= Scenario.END_DATE)
  /\ (forall c v, fields (Runs.first_row Runs.archive_rows) !! c = Some v ->
                  c ∈ Buoy.canonical_cols).
Proof.
  split; [vm_compute; reflexivity|].
  apply (X6_year_rows Scenario.END_DATE Runs.archive_2024 "46050" 2024
           Runs.archive_rows).
  - vm_compute. reflexivity.
  - vm_compute. left. reflexivity.
Defined.

Lemma realtime_timestamp_quiet r : Eff.trace (Buoy.realtime_timestamp r) = [].
Proof.
  unfold Buoy.realtime_timestamp.
  destruct (Buoy.astype_int (r !! "YY")) as [yy|e]; reflexivity.
Qed.

Lemma realtime_timestamp_raises r e :
  Eff.value (Buoy.realtime_timestamp r) = Raise e -> e = ValueError.
Proof.
  unfold Buoy.realtime_timestamp, Buoy.astype_int.
  destruct (r !! "YY") as [[s|z|]|]; simpl; congruence.
Qed.

Lemma trace_mapM_quiet {A B} (f : A -> Eff.M B) (l : list A) :
  (forall x, Eff.trace (f x) = []) -> Eff.trace (Eff.mapM f l) = [].
Proof.
  intros Hf.
  assert (E : concat (map (fun x => Eff.trace (f x)) l) = []).
  { induction l as [|x l IH]; simpl; [reflexivity|]. now rewrite Hf. }
  destruct (trace_mapM_prefix f l) as [rest H].
  rewrite E in H. symmetry in H. now apply app_eq_nil in H as [H _].
Qed.

(** The rows of the realtime fetcher before its window. *)
Lemma realtime_fetch_shape END_DATE get_realtime station :
  exists logs,
    Eff.trace (Buoy.fetch_ndbc_realtime END_DATE get_realtime station)
    = Log INFO :: Request (NdbcRealtime station) :: logs
    /\ Forall is_log logs
    /\ (forall e, Eff.value (Buoy.fetch_ndbc_realtime END_DATE get_realtime station)
                  = Raise e -> e = ValueError)
    /\ (forall df, Eff.value (Buoy.fetch_ndbc_realtime END_DATE get_realtime station)
                   = Ok df ->
                   df = [] \/ exists table,
                     df = Buoy.chunk_window END_DATE
                            (map (fun '(r, ts) => mkRow ts station None r) table)).
Proof.
  unfold Buoy.fetch_ndbc_realtime.
  destruct (get_realtime station) as [|status lines].
  { eexists. split; [reflexivity|]. split; [repeat constructor|].
    split; [discriminate|]. intros df [= <-]. now left. }
  destruct (raises_for_status status).
  { destruct (status =? 404); eexists; (split; [reflexivity|]);
      (split; [repeat constructor|]); (split; [discriminate|]);
      intros df [= <-]; now left. }
  destruct (Buoy.find_header _) as [[header_line records]|].
  2: { eexists. split; [reflexivity|]. split; [repeat constructor|].
       split; [discriminate|]. intros df [= <-]. now left. }
  destruct records as [|ln records].
  { eexists. split; [reflexivity|]. split; [repeat constructor|].
    split; [discriminate|]. intros df [= <-]. now left. }
  set (col_names := Buoy.dedupe_names (Text.split header_line)).
  destruct (negb (bool_decide (NoDup col_names))).
  { exists []. split; [reflexivity|]. split; [constructor|].
    split; [intros e [= <-]; reflexivity | discriminate]. }
  destruct (Buoy.too_wide _ _).
  { exists []. split; [reflexivity|]. split; [constructor|].
    split; [intros e [= <-]; reflexivity | discriminate]. }
  set (table := map _ (ln :: records)).
  destruct (Buoy.has_time_cols col_names).
  - pose proof (trace_mapM_quiet Buoy.realtime_timestamp table
                  realtime_timestamp_quiet) as Hq.
    destruct (Eff.value (Eff.mapM Buoy.realtime_timestamp table))
      as [stamps|e] eqn:Hv.
    + exists []. cbn [Eff.bind Eff.log Eff.emit Eff.request Eff.ret app].
      destruct (Eff.mapM Buoy.realtime_timestamp table) as [v t].
      simpl in Hq, Hv. subst. simpl.
      split; [reflexivity|]. split; [constructor|]. split; [discriminate|].
      intros df [= <-]. right. eexists. reflexivity.
    + exists []. cbn [Eff.bind Eff.log Eff.emit Eff.request Eff.ret app].
      destruct (Eff.mapM Buoy.realtime_timestamp table) as [v t] eqn:Hm.
      simpl in Hq, Hv. subst. simpl.
      split; [reflexivity|]. split; [constructor|]. split; [|discriminate].
      intros e' [= <-].
      assert (Hv : Eff.value (Eff.mapM Buoy.realtime_timestamp table) = Raise e)
        by now rewrite Hm.
      apply value_mapM_Raise_inv in Hv as (x & _ & Hx).
      now apply realtime_timestamp_raises in Hx.
  - exists [Log WARNING]. split; [reflexivity|]. split; [repeat constructor|].
    split; [discriminate|]. intros df [= <-]. right. eexists. reflexivity.
Qed.






(** ** fetch_buoy_data.py: the run *)





Lemma years_requests END_DATE get_year station years :
  Scenario.requests_of
    (concat (map (fun y => Eff.trace (Buoy.fetch_ndbc_year END_DATE get_year
                                        station y)) years))
  = map (NdbcYear station) years.
Proof.
  induction years as [|y ys IH]; [reflexivity|].
  cbn [map concat]. rewrite requests_of_app, IH.
  destruct (year_fetch_shape END_DATE get_year station y)
    as (lg & E & Hlg & _).
  rewrite E. cbn. now rewrite requests_of_logs.
Qed.

Lemma buoy_station_trace END_DATE get_year get_realtime station df :
  Eff.value (Buoy.fetch_station END_DATE get_year get_realtime station) = Ok df ->
  Scenario.requests_of
    (Eff.trace (Buoy.fetch_station END_DATE get_year get_realtime station))
  = (map (NdbcYear station) (Buoy.hist_years END_DATE)
     ++ [NdbcRealtime station])%list
  /\ forall s, ~ In (Sleep s)
                  (Eff.trace (Buoy.fetch_station END_DATE get_year get_realtime
                                station)).
Proof.
  unfold Buoy.fetch_station. intros H.
  apply value_bind_Ok in H as (frames & Hf & H).
  apply value_bind_Ok in H as (df_rt & Hrt & H).
  rewrite (trace_bind_Ok _ _ _ Hf), (trace_bind_Ok _ _ _ Hrt),
    (trace_mapM_Ok _ _ _ Hf).
  destruct (realtime_fetch_shape END_DATE get_realtime station)
    as (logs & Et & Hlogs & _).
  rewrite Et. cbn [Eff.trace Eff.ret snd]. rewrite app_nil_r.
  split.
  - rewrite requests_of_app. f_equal.
    + apply years_requests.
    + cbn. now rewrite requests_of_logs.
  - intros s Hs. apply in_app_or in Hs as [Hs|Hs].
    + apply in_concat in Hs as (tr & Htr & Hs).
      apply in_map_iff in Htr as (y & <- & _).
      destruct (year_fetch_shape END_DATE get_year station y)
        as (lg & E & Hlg & _).
      rewrite E in Hs. cbn in Hs. destruct Hs as [?|[?|Hs]]; try discriminate.
      rewrite Forall_forall in Hlg. apply (Hlg (Sleep s)).
      now apply list_elem_of_In.
    + cbn in Hs. destruct Hs as [?|[?|Hs]]; try discriminate.
      rewrite Forall_forall in Hlogs. apply (Hlogs (Sleep s)).
      now apply list_elem_of_In.
Qed.

Lemma concat_map_singleton {A B} (g : A -> B) (l : list A) :
  concat (map (fun x => [g x]) l) = map g l.
Proof. induction l as [|x l IH]; simpl; [reflexivity | now rewrite IH]. Qed.

Lemma requests_of_concat {A} (tr : A -> list Event) (g : A -> list Req) l :
  Forall (fun x => Scenario.requests_of (tr x) = g x) l ->
  Scenario.requests_of (concat (map tr l)) = concat (map g l).
Proof.
  induction 1 as [|x l Hx _ IH]; [reflexivity|].
  cbn [map concat]. now rewrite requests_of_app, Hx, IH.
Qed.

Lemma Forall2_Forall_l {A B} (P : A -> B -> Prop) (Q : A -> Prop) l k :
  Forall2 P l k -> (forall x y, P x y -> Q x) -> Forall Q l.
Proof. induction 1; intros HQ; constructor; eauto. Qed.

(** X9. A run of [fetch_buoy_data] that returns has asked NDBC, for
    each station of [BUOY_STATIONS] in turn, for the archive of every
    year from the year of [START_DATE] up to the year before the year of
    [END_DATE], then for the realtime feed: nothing else, each once, and
    with no sleep anywhere in the run. *)
Theorem X9_buoy_requests
        (END_DATE : Z)
        (get_year : string -> Z -> Response (option (list string)))
        (get_realtime : string -> Response (list string)) (df : list Row) :
  Eff.value (Buoy.fetch_buoy_data END_DATE get_year get_realtime) = Ok df ->
  Scenario.requests_of
    (Eff.trace (Buoy.fetch_buoy_data END_DATE get_year get_realtime))
  = concat (map (fun station =>
                   (map (NdbcYear station) (Buoy.hist_years END_DATE)
                    ++ [NdbcRealtime station])%list)
                Buoy.BUOY_STATIONS)
  /\ forall s, ~ In (Sleep s)
                  (Eff.trace (Buoy.fetch_buoy_data END_DATE get_year get_realtime)).
Proof.
  unfold Buoy.fetch_buoy_data. intros H.
  rewrite (value_bind_eq _ _ tt) in H by reflexivity.
  apply value_bind_Ok in H as (frames & Hf & H).
  rewrite (trace_bind_Ok _ _ tt) by reflexivity.
  rewrite (trace_bind_Ok _ _ _ Hf), (trace_mapM_Ok _ _ _ Hf).
  pose proof (value_mapM_Ok _ _ _ Hf) as Hall.
  assert (Hst : Forall (fun station =>
              Scenario.requests_of
                (Eff.trace (Buoy.fetch_station END_DATE get_year get_realtime station))
              = (map (NdbcYear station) (Buoy.hist_years END_DATE)
                 ++ [NdbcRealtime station])%list
              /\ forall s, ~ In (Sleep s)
                   (Eff.trace (Buoy.fetch_station END_DATE get_year get_realtime
                                 station))) Buoy.BUOY_STATIONS).
  { apply (Forall2_Forall_l _ _ _ _ Hall). intros station d Hd.
    now apply (buoy_station_trace _ _ _ _ d). }
  assert (Htail : exists logs,
             Eff.trace (match concat frames with
                        | [] => Eff.log WARNING ;;; Eff.ret []
                        | r :: l => Eff.ret (Buoy.assemble END_DATE (r :: l))
                        end) = logs /\ Forall is_log logs).
  { destruct (concat frames); eexists; (split; [reflexivity|]); repeat constructor. }
  destruct Htail as (logs & -> & Hlogs).
  split.
  - rewrite !requests_of_app, (requests_of_logs logs Hlogs), app_nil_r.
    change (Scenario.requests_of (Eff.trace (Eff.log INFO))) with (@nil Req).
    cbn [app]. apply requests_of_concat. eapply Forall_impl; [exact Hst | simpl; tauto].
  - intros s Hs.
    apply in_app_or in Hs as [Hs|Hs];
      [cbn in Hs; destruct Hs as [?|[]]; discriminate|].
    apply in_app_or in Hs as [Hs|Hs].
    + apply in_concat in Hs as (tr & Htr & Hs).
      apply in_map_iff in Htr as (station & <- & Hin).
      rewrite Forall_forall in Hst. apply list_elem_of_In in Hin.
      now apply (proj2 (Hst station Hin) s).
    + rewrite Forall_forall in Hlogs. apply (Hlogs (Sleep s)).
      now apply list_elem_of_In.
Qed.

Lemma X9_buoy_requests_witness :
  length (Scenario.requests_of
            (Eff.trace (Buoy.fetch_buoy_data Scenario.END_DATE Scenario.no_archive
                          Scenario.realtime_46050))) = 36%nat
  /\ Scenario.requests_of
       (Eff.trace (Buoy.fetch_buoy_data Scenario.END_DATE Scenario.no_archive
                     Scenario.realtime_46050))
     = concat (map (fun station =>
                      (map (NdbcYear station) (Buoy.hist_years Scenario.END_DATE)
                       ++ [NdbcRealtime station])%list)
                   Buoy.BUOY_STATIONS)
  /\ forall s, ~ In (Sleep s)
                  (Eff.trace (Buoy.fetch_buoy_data Scenario.END_DATE
                                Scenario.no_archive Scenario.realtime_46050)).
Proof.
  split; [vm_compute; reflexivity|].
  apply (X9_buoy_requests Scenario.END_DATE Scenario.no_archive
           Scenario.realtime_46050 Scenario.buoy_table).
  vm_compute. reflexivity.
Defined.

Lemma buoy_station_rows END_DATE get_year get_realtime station df r :
  Eff.value (Buoy.fetch_station END_DATE get_year get_realtime station) = Ok df ->
  In r df -> station_id r = station /\ station_name r = None.
Proof.
  unfold Buoy.fetch_station. intros H Hr.
  apply value_bind_Ok in H as (frames & Hf & H).
  apply value_bind_Ok in H as (df_rt & Hrt & H).
  injection H as <-. apply in_app_or in Hr as [Hr|Hr].
  - apply in_concat in Hr as (d & Hd & Hr).
    apply value_mapM_Ok in Hf.
    assert (Hy : exists year,
               Eff.value (Buoy.fetch_ndbc_year END_DATE get_year station year) = Ok d).
    { clear -Hf Hd. induction Hf as [|y d' ys ds Hyd _ IH]; [destruct Hd|].
      destruct Hd as [<-|Hd]; eauto. }
    destruct Hy as [year Hy].
    destruct (year_fetch_shape END_DATE get_year station year)
      as (lg & _ & _ & _ & Hshape).
    destruct (Hshape _ Hy) as [-> | (first & data_lines & ->)]; [destruct Hr|].
    apply window_In in Hr as [Hr _].
    apply in_map_iff in Hr as (cells & <- & _). split; reflexivity.
  - destruct (realtime_fetch_shape END_DATE get_realtime station)
      as (logs & _ & _ & _ & Hshape).
    destruct (Hshape _ Hrt) as [-> | (table & ->)]; [destruct Hr|].
    apply window_In in Hr as [Hr _].
    apply in_map_iff in Hr as ([f ts] & <- & _). split; reflexivity.
Qed.

(** X10. Every row of the table [fetch_buoy_data] returns is
    attributed to one of the configured [BUOY_STATIONS] (the station
    whose file it was read from) and carries no station name. *)
Theorem X10_buoy_rows_configured_station
        (END_DATE : Z)
        (get_year : string -> Z -> Response (option (list string)))
        (get_realtime : string -> Response (list string))
        (df : list Row) (r : Row) :
  Eff.value (Buoy.fetch_buoy_data END_DATE get_year get_realtime) = Ok df ->
  In r df ->
  In (station_id r) Buoy.BUOY_STATIONS /\ station_name r = None.
Proof.
  unfold Buoy.fetch_buoy_data. intros H Hr.
  rewrite (value_bind_eq _ _ tt) in H by reflexivity.
  apply value_bind_Ok in H as (frames & Hf & H).
  assert (Hin : In r (concat frames)).
  { destruct (concat frames) as [|r0 l] eqn:E.
    - apply value_log_ret in H as <-. destruct Hr.
    - injection H as <-. rewrite <- E.
      apply dedupe_sort_In, window_In in Hr as [Hr _]. now rewrite E. }
  apply in_concat in Hin as (d & Hd & Hrd).
  apply value_mapM_Ok in Hf.
  assert (Hs : exists station,
             In station Buoy.BUOY_STATIONS
             /\ Eff.value (Buoy.fetch_station END_DATE get_year get_realtime
                             station) = Ok d).
  { clear -Hf Hd. induction Hf as [|s d' ss ds Hsd _ IH]; [destruct Hd|].
    destruct Hd as [<-|Hd].
    - exists s. split; [now left | assumption].
    - destruct (IH Hd) as (s' & ? & ?). exists s'. split; [now right | assumption]. }
  destruct Hs as (station & Hst & Hv).
  destruct (buoy_station_rows _ _ _ _ _ _ Hv Hrd) as [-> ?]. now split.
Qed.

Lemma X10_buoy_rows_configured_station_witness :
  In (station_id (Runs.first_row Scenario.buoy_table)) Buoy.BUOY_STATIONS
  /\ station_name (Runs.first_row Scenario.buoy_table) = None.
Proof.
  apply (X10_buoy_rows_configured_station Scenario.END_DATE Scenario.no_archive
           Scenario.realtime_46050 Scenario.buoy_table).
  - vm_compute. reflexivity.
  - vm_compute. left. reflexivity.
Defined.

(** ** build_pws_observations.py *)

Lemma in_trace_mapM {A B} (f : A -> Eff.M B) (l : list A) ev :
  In ev (Eff.trace (Eff.mapM f l)) -> exists x, In x l /\ In ev (Eff.trace (f x)).
Proof.
  intros H. destruct (trace_mapM_prefix f l) as [rest E].
  assert (Hc : In ev (concat (map (fun x => Eff.trace (f x)) l))).
  { rewrite E. apply in_or_app. now left. }
  apply in_concat in Hc as (tr & Htr & Hev).
  apply in_map_iff in Htr as (x & <- & Hx). eauto.
Qed.

(** One turn of the day loop: the day is asked for, whatever happens
    next. *)
Lemma pws_step_requests to_datetime get station day :
  Scenario.requests_of
    (Eff.trace (df_day <- Pws.fetch_pws_day to_datetime get station day ;;
                Eff.sleep Pws.REQUEST_SLEEP_SECONDS ;;; Eff.ret df_day))
  = [WuDay station day].
Proof.
  destruct (pws_day_trace to_datetime get station day) as (logs & Et & Hlogs).
  destruct (Eff.value (Pws.fetch_pws_day to_datetime get station day))
    as [df|e] eqn:Hv.
  - rewrite (trace_bind_Ok _ _ _ Hv), Et, requests_of_app, requests_of_request,
      (requests_of_logs logs Hlogs). reflexivity.
  - rewrite (trace_bind_Raise _ _ _ Hv), Et, requests_of_request,
      (requests_of_logs logs Hlogs). reflexivity.
Qed.

Lemma pws_step_value to_datetime get station day df :
  Eff.value (df_day <- Pws.fetch_pws_day to_datetime get station day ;;
             Eff.sleep Pws.REQUEST_SLEEP_SECONDS ;;; Eff.ret df_day) = Ok df ->
  Eff.value (Pws.fetch_pws_day to_datetime get station day) = Ok df.
Proof.
  intros H. apply value_bind_Ok in H as (d & Hd & H). simpl in H. congruence.
Qed.

Lemma pws_range_trace to_datetime get station start_date end_date :
  exists logs,
    Eff.trace (Pws.fetch_pws_range to_datetime get station start_date end_date)
    = (Log INFO
         :: Eff.trace (Eff.mapM
                         (fun current =>
                            df_day <- Pws.fetch_pws_day to_datetime get station current ;;
                            Eff.sleep Pws.REQUEST_SLEEP_SECONDS ;;; Eff.ret df_day)
                         (Pws.days start_date end_date)) ++ logs)%list
    /\ Forall is_log logs.
Proof.
  unfold Pws.fetch_pws_range.
  rewrite (trace_bind_Ok _ _ tt) by reflexivity.
  match goal with |- context [Eff.mapM ?f ?l] => set (loop := Eff.mapM f l) end.
  destruct (Eff.value loop) as [dfs|e] eqn:Hv.
  - rewrite (trace_bind_Ok _ _ _ Hv).
    destruct (List.filter _ dfs); eexists; (split; [reflexivity|]);
      repeat constructor.
  - rewrite (trace_bind_Raise _ _ _ Hv). exists [].
    split; [now rewrite app_nil_r | constructor].
Qed.

(** X11. [fetch_pws_range] asks for the days [start_date],
    [start_date + 1], ... in that order, each at most once and none
    outside [[start_date, end_date]]; a run that returns has asked for
    every day of the range. *)
Theorem X11_pws_range_requests :
  forall to_datetime get station start_date end_date,
    let requests :=
      Scenario.requests_of
        (Eff.trace (Pws.fetch_pws_range to_datetime get station
                      start_date end_date)) in
    (exists rest,
        map (WuDay station) (Pws.days start_date end_date)
        = (requests ++ rest)%list)
    /\ (forall req, In req requests ->
          exists day, req = WuDay station day /\ start_date <= day <= end_date)
    /\ (forall df,
          Eff.value (Pws.fetch_pws_range to_datetime get station
                       start_date end_date) = Ok df ->
          requests = map (WuDay station) (Pws.days start_date end_date)).
Proof.
  intros to_datetime get station start_date end_date requests.
  destruct (pws_range_trace to_datetime get station start_date end_date)
    as (logs & Et & Hlogs).
  set (step := fun current =>
                 df_day <- Pws.fetch_pws_day to_datetime get station current ;;
                 Eff.sleep Pws.REQUEST_SLEEP_SECONDS ;;; Eff.ret df_day) in *.
  assert (Hreq : requests
                 = Scenario.requests_of
                     (Eff.trace (Eff.mapM step (Pws.days start_date end_date)))).
  { unfold requests.
    now rewrite Et, requests_of_log, requests_of_app,
      (requests_of_logs logs Hlogs), app_nil_r. }
  assert (Hall : Scenario.requests_of
                   (concat (map (fun x => Eff.trace (step x))
                                (Pws.days start_date end_date)))
                 = map (WuDay station) (Pws.days start_date end_date)).
  { rewrite (requests_of_concat _ (fun d => [WuDay station d])).
    - apply concat_map_singleton.
    - apply Forall_forall. intros d _. apply pws_step_requests. }
  assert (Hprefix : exists rest,
             map (WuDay station) (Pws.days start_date end_date)
             = (requests ++ rest)%list).
  { destruct (trace_mapM_prefix step (Pws.days start_date end_date)) as [rest E].
    exists (Scenario.requests_of rest).
    now rewrite <- Hall, E, requests_of_app, Hreq. }
  split; [exact Hprefix|]. split.
  - intros req Hin. destruct Hprefix as [rest E].
    assert (Hm : In req (map (WuDay station) (Pws.days start_date end_date))).
    { rewrite E. apply in_or_app. now left. }
    apply in_map_iff in Hm as (day & <- & Hday). exists day. split; [reflexivity|].
    apply list_elem_of_In in Hday. unfold Pws.days in Hday.
    apply elem_of_seqZ in Hday. lia.
  - intros df Hv. rewrite Hreq, <- Hall. f_equal.
    unfold Pws.fetch_pws_range in Hv.
    rewrite (value_bind_eq _ _ tt) in Hv by reflexivity.
    apply value_bind_Ok in Hv as (dfs & Hdfs & _).
    exact (trace_mapM_Ok _ _ _ Hdfs).
Qed.

(** X12. Whatever the provider answers, every request of a run of
    [build_combined_pws_observations] is for a configured station and
    for a day from that station's own start date to [end_date]: a
    station whose start date is after [end_date] is never asked about. *)
Theorem X12_pws_requests_within_station_windows :
  forall to_datetime get station_windows end_date req,
    In req (Scenario.requests_of
              (Eff.trace (Pws.build_combined_pws_observations to_datetime get
                            station_windows end_date))) ->
    exists station start_date day,
      req = WuDay station day
      /\ In (station, start_date) station_windows
      /\ start_date <= day <= end_date.
Proof.
  intros to_datetime get station_windows end_date req Hreq.
  unfold Pws.build_combined_pws_observations in Hreq.
  match type of Hreq with context [Eff.mapM ?f ?l] => set (loop := Eff.mapM f l) in * end.
  assert (Hloop : In (Request req) (Eff.trace loop)).
  { apply list_elem_of_In, list_elem_of_omap in Hreq as (ev & Hev & E).
    destruct ev as [r| |]; try discriminate. injection E as ->.
    apply list_elem_of_In in Hev.
    destruct (Eff.value loop) as [frames|e] eqn:Hv.
    - rewrite (trace_bind_Ok _ _ _ Hv) in Hev.
      apply in_app_or in Hev as [Hev|Hev]; [assumption|]. exfalso.
      destruct (List.filter _ frames).
      + cbn in Hev. destruct Hev as [?|[]]. discriminate.
      + destruct (Pws.min_of _) as [ms|e1]; [|destruct Hev].
        cbn [Eff.lift Eff.bind Eff.trace Eff.ret snd app] in Hev.
        destruct (Pws.window_filter ms end_date _); destruct Hev.
    - now rewrite (trace_bind_Raise _ _ _ Hv) in Hev. }
  apply in_trace_mapM in Hloop as ([station start_date] & Hin & Hev).
  exists station, start_date.
  destruct (end_date <? start_date) eqn:Hskip.
  - cbn in Hev. destruct Hev as [?|[]]. discriminate.
  - assert (Hr : In req (Scenario.requests_of
                           (Eff.trace (Pws.fetch_pws_range to_datetime get station
                                         start_date end_date)))).
    { apply list_elem_of_In, list_elem_of_omap. exists (Request req).
      split; [now apply list_elem_of_In | reflexivity]. }
    destruct (pws_range_trace to_datetime get station start_date end_date)
      as (logs & Et & Hlogs).
    rewrite Et, requests_of_log, requests_of_app,
      (requests_of_logs logs Hlogs), app_nil_r in Hr.
    apply list_elem_of_In, list_elem_of_omap in Hr as (ev & Hev' & E).
    destruct ev as [r| |]; try discriminate. injection E as ->.
    apply list_elem_of_In, in_trace_mapM in Hev' as (day & Hday & Hd).
    assert (Hr : In req (Scenario.requests_of
                           (Eff.trace (df_day <- Pws.fetch_pws_day to_datetime get
                                                   station day ;;
                                       Eff.sleep Pws.REQUEST_SLEEP_SECONDS ;;;
                                       Eff.ret df_day)))).
    { apply list_elem_of_In, list_elem_of_omap. exists (Request req).
      split; [now apply list_elem_of_In | reflexivity]. }
    rewrite pws_step_requests in Hr. destruct Hr as [<-|[]].
    exists day. split; [reflexivity|]. split; [assumption|].
    apply list_elem_of_In in Hday. unfold Pws.days in Hday.
    apply elem_of_seqZ in Hday. lia.
Qed.

Lemma X12_pws_requests_within_station_windows_witness :
  exists station start_date day,
    WuDay "KORMCMIN133" Scenario.END_DATE = WuDay station day
    /\ In (station, start_date) Scenario.two_windows
    /\ start_date <= day <= Scenario.END_DATE.
Proof.
  apply (X12_pws_requests_within_station_windows Iso.to_datetime
           Scenario.wu_early Scenario.two_windows Scenario.END_DATE
           (WuDay "KORMCMIN133" Scenario.END_DATE)).
  vm_compute. right. right. left. reflexivity.
Defined.

Lemma concat_rows_nonempty (dfs : list Wu.DataFrame) :
  concat (map Wu.rows (List.filter (fun df => negb (Wu.empty df)) dfs))
  = concat (map Wu.rows dfs).
Proof.
  induction dfs as [|df dfs IH]; [reflexivity|]. simpl.
  unfold Wu.empty at 1. destruct (Wu.rows df) eqn:E; simpl.
  - exact IH.
  - now rewrite E, IH.
Qed.

(** The rows of a day, none when the fetch of that day raises. *)
Lemma rows_of_days {A} (f : A -> Eff.M Wu.DataFrame) (l : list A) dfs :
  Forall2 (fun x df => Eff.value (f x) = Ok df) l dfs ->
  concat (map Wu.rows dfs)
  = concat (map (fun x => match Eff.value (f x) with
                          | Ok df => Wu.rows df
                          | Raise _ => []
                          end) l).
Proof.
  induction 1 as [|x df l dfs Hx _ IH]; [reflexivity|].
  simpl. now rewrite Hx, IH.
Qed.

(** X13. The frame [fetch_pws_range] returns holds the rows fetched for
    the days of the range, day after day in the order of the days; a
    day whose request failed, or that had no observations, adds
    nothing. *)
Theorem X13_pws_range_rows
        (to_datetime : bool -> Cell -> option Z)
        (get : string -> Z -> Response Wu.Json)
        (station : string) (start_date end_date : Z) (df : Wu.DataFrame) :
  Eff.value (Pws.fetch_pws_range to_datetime get station start_date end_date)
  = Ok df ->
  Wu.rows df
  = concat (map (fun day =>
                   match Eff.value (Pws.fetch_pws_day to_datetime get station day)
                   with
                   | Ok df_day => Wu.rows df_day
                   | Raise _ => []
                   end)
                (Pws.days start_date end_date))
  /\ (forall day,
        get station day = ConnectionError
        \/ (exists status body, get station day = Http status body
                                /\ raises_for_status status = true)
        \/ (exists status, get station day
                           = Http status (Wu.JsonObject (Some []))) ->
        Eff.value (Pws.fetch_pws_day to_datetime get station day)
        = Ok Wu.empty_frame).
Proof.
  intros Hv. split.
  - unfold Pws.fetch_pws_range in Hv.
    rewrite (value_bind_eq _ _ tt) in Hv by reflexivity.
    apply value_bind_Ok in Hv as (dfs & Hdfs & Hv).
    apply value_mapM_Ok in Hdfs.
    assert (Hdays : Forall2 (fun day d =>
                       Eff.value (Pws.fetch_pws_day to_datetime get station day)
                       = Ok d) (Pws.days start_date end_date) dfs).
    { eapply Forall2_impl; [exact Hdfs|]. intros day d. apply pws_step_value. }
    rewrite <- (rows_of_days _ _ _ Hdays), <- concat_rows_nonempty.
    destruct (List.filter _ dfs) as [|f fs].
    + apply value_log_ret in Hv as <-. reflexivity.
    + injection Hv as <-. reflexivity.
  - intros day [H | [(status & body & H & Hst) | (status & H)]].
    + rewrite pws_day_request_failure by (now left). reflexivity.
    + rewrite pws_day_request_failure by (right; eauto). reflexivity.
    + unfold Pws.fetch_pws_day. rewrite H.
      destruct (raises_for_status status); reflexivity.
Qed.

Lemma X13_pws_range_rows_witness :
  exists df,
    Eff.value (Pws.fetch_pws_range Iso.to_datetime Scenario.wu_every_day
                 "KORMCMIN127" (Scenario.END_DATE - 1) Scenario.END_DATE) = Ok df
    /\ length (Wu.rows df) = 2%nat
    /\ Wu.rows df
       = concat (map (fun day =>
                        match Eff.value (Pws.fetch_pws_day Iso.to_datetime
                                           Scenario.wu_every_day "KORMCMIN127" day)
                        with
                        | Ok df_day => Wu.rows df_day
                        | Raise _ => []
                        end)
                     (Pws.days (Scenario.END_DATE - 1) Scenario.END_DATE)).
Proof.
  eexists. split; [vm_compute; reflexivity|]. split; [reflexivity|].
  apply (X13_pws_range_rows Iso.to_datetime Scenario.wu_every_day "KORMCMIN127"
           (Scenario.END_DATE - 1) Scenario.END_DATE).
  vm_compute. reflexivity.
Defined.

(** ** The Weather Underground observations *)

Lemma contains_time_utc : Text.contains "time" (Text.lower "obsTimeUtc") = true.
Proof. reflexivity. Qed.

Lemma contains_time_local : Text.contains "time" (Text.lower "obsTimeLocal") = true.
Proof. reflexivity. Qed.

Lemma time_column_cases columns :
  (In "obsTimeUtc" columns
   /\ Wu.time_column columns = Some ("obsTimeUtc", true))
  \/ (~ In "obsTimeUtc" columns /\ In "obsTimeLocal" columns
      /\ Wu.time_column columns = Some ("obsTimeLocal", false))
  \/ (~ In "obsTimeUtc" columns /\ ~ In "obsTimeLocal" columns
      /\ exists c,
           List.find (fun c => Text.contains "time" (Text.lower c)) columns = Some c
           /\ Wu.time_column columns = Some (c, false))
  \/ (~ In "obsTimeUtc" columns /\ ~ In "obsTimeLocal" columns
      /\ List.find (fun c => Text.contains "time" (Text.lower c)) columns = None
      /\ Wu.time_column columns = None).
Proof.
  unfold Wu.time_column.
  case_bool_decide as Hu; rewrite list_elem_of_In in Hu; [now left | right].
  case_bool_decide as Hl; rewrite list_elem_of_In in Hl; [now left | right].
  destruct (List.find _ columns) as [c|] eqn:Hf.
  - left. repeat split; try assumption. now exists c.
  - right. repeat split; assumption.
Qed.

(** X14. The column the timestamp is read from is always a column of
    the frame whose name contains "time" (letter case ignored); it is
    read as UTC exactly when it is [obsTimeUtc], which wins over
    [obsTimeLocal], which wins over any other such column; and no
    column is found exactly when no column name contains "time". *)
Theorem X14_time_column :
  forall columns,
    (forall c utc, Wu.time_column columns = Some (c, utc) ->
                   In c columns
                   /\ Text.contains "time" (Text.lower c) = true
                   /\ (utc = true <-> c = "obsTimeUtc"))
    /\ (In "obsTimeUtc" columns ->
        Wu.time_column columns = Some ("obsTimeUtc", true))
    /\ (~ In "obsTimeUtc" columns -> In "obsTimeLocal" columns ->
        Wu.time_column columns = Some ("obsTimeLocal", false))
    /\ (Wu.time_column columns = None
        <-> forall c, In c columns -> Text.contains "time" (Text.lower c) = false).
Proof.
  intros columns.
  destruct (time_column_cases columns)
    as [[Hu E] | [(Hu & Hl & E) | [(Hu & Hl & c & Hf & E) | (Hu & Hl & Hf & E)]]];
    rewrite E.
  - split; [|split; [|split]].
    + intros c utc [= <- <-]. split; [assumption|]. split; [reflexivity|].
      split; reflexivity.
    + reflexivity.
    + contradiction.
    + split; [discriminate|]. intros Hnone.
      specialize (Hnone _ Hu). rewrite contains_time_utc in Hnone. discriminate.
  - split; [|split; [|split]].
    + intros c utc [= <- <-]. split; [assumption|]. split; [reflexivity|].
      split; discriminate.
    + contradiction.
    + reflexivity.
    + split; [discriminate|]. intros Hnone.
      specialize (Hnone _ Hl). rewrite contains_time_local in Hnone. discriminate.
  - apply find_some in Hf as [Hin Hc].
    split; [|split; [|split]].
    + intros c' utc [= <- <-]. split; [assumption|]. split; [assumption|].
      split; [discriminate|]. intros ->. contradiction.
    + contradiction.
    + contradiction.
    + split; [discriminate|]. intros Hnone.
      rewrite (Hnone _ Hin) in Hc. discriminate.
  - split; [|split; [|split]].
    + discriminate.
    + contradiction.
    + contradiction.
    + split; [|reflexivity]. intros _ c Hc. now apply (find_none _ _ Hf).
Qed.

Lemma by_timestamp_total a b :
  Wu.by_timestamp a b = true \/ Wu.by_timestamp b a = true.
Proof. apply ts_leb_total. Qed.

(** X15. The frame built from the observations of one day has one row
    per observation, in non-decreasing order of timestamp with the null
    timestamps last; every row carries the station it was fetched for;
    its timestamp is read from the located time column of that same
    observation, and is null when the observation lacks that field or no
    time column exists: no timestamp is made up. *)
Theorem X15_normalize_rows :
  forall to_datetime station_id0 station_name0 observations,
    let df := Wu.normalize to_datetime station_id0 station_name0 observations in
    length (Wu.rows df) = length observations
    /\ Frame.is_sorted Wu.by_timestamp (Wu.rows df) = true
    /\ (forall r, In r (Wu.rows df) ->
          station_id r = station_id0
          /\ station_name r = station_name0
          /\ (exists o, In o observations /\ fields r = list_to_map o)
          /\ timestamp r
             = match Wu.time_column (Wu.columns_of observations) with
               | Some (c, utc) => Wu.parse to_datetime utc (fields r !! c)
               | None => None
               end).
Proof.
  intros to_datetime sid name observations df. unfold df, Wu.normalize. simpl.
  split; [|split].
  - rewrite (Permutation_length (sort_values_perm _ _)). apply length_map.
  - apply sort_values_sorted, by_timestamp_total.
  - intros r Hr. apply (Permutation_in _ (sort_values_perm _ _)) in Hr.
    apply in_map_iff in Hr as (o & <- & Ho). simpl.
    split; [reflexivity|]. split; [reflexivity|]. split; [now exists o|].
    destruct (Wu.time_column _) as [[c utc]|]; reflexivity.
Qed.

(** ** fetch_pws_all_data.py *)

Lemma value_mapM_map {A B} (f : A -> Eff.M B) (g : A -> B) (l : list A) :
  (forall x, In x l -> Eff.value (f x) = Ok (g x)) ->
  Eff.value (Eff.mapM f l) = Ok (map g l).
Proof.
  induction l as [|x l IH]; simpl; intros H; [reflexivity|].
  rewrite (value_bind_eq _ _ (g x)) by auto.
  rewrite (value_bind_eq _ _ (map g l)) by auto. reflexivity.
Qed.

Lemma try_except_value {A} (m : Eff.M A) (a : A) lvl :
  Eff.value m <> Raise SystemExit ->
  Eff.value (Eff.try_except m Eff.any_exception (Eff.log lvl ;;; Eff.ret a))
  = Ok match Eff.value m with Ok x => x | Raise _ => a end.
Proof.
  destruct m as [[x|e] t]; simpl; intros H; [reflexivity|].
  destruct e; simpl; try reflexivity. congruence.
Qed.

Lemma trace_logs_mapM {A B} (f : A -> Eff.M B) (l : list A) :
  (forall x, Forall is_log (Eff.trace (f x))) ->
  Forall is_log (Eff.trace (Eff.mapM f l)).
Proof.
  intros Hf. apply Forall_forall. intros ev Hev.
  apply list_elem_of_In, in_trace_mapM in Hev as (x & _ & Hx).
  specialize (Hf x). rewrite Forall_forall in Hf. apply Hf.
  now apply list_elem_of_In.
Qed.

Lemma concat_rows_map {A} (g : A -> Wu.DataFrame) (l : list A) :
  concat (map Wu.rows (map g l)) = concat (map (fun x => Wu.rows (g x)) l).
Proof. now rewrite map_map. Qed.

(** X16. The day loop of [fetch_pws_all_data.py] isolates a failing
    day: whatever the provider and the directory do, [fetch_pws_range]
    returns, and its rows are the rows of the days that could be
    fetched, in the order of the days; a day whose fetch raises adds
    nothing and stops nothing. *)
Theorem X16_pws_all_range_isolates_failures :
  forall to_datetime get get_station_info station start_date end_date,
  exists df,
    Eff.value (PwsAll.fetch_pws_range to_datetime get get_station_info station
                 start_date end_date) = Ok df
    /\ Wu.rows df
       = concat (map (fun day =>
                        match Eff.value (PwsAll.fetch_pws_day to_datetime get
                                           get_station_info station day) with
                        | Ok df_day => Wu.rows df_day
                        | Raise _ => []
                        end)
                     (Pws.days start_date end_date)).
Proof.
  intros to_datetime get info station start_date end_date.
  set (g := fun day =>
              match Eff.value (PwsAll.fetch_pws_day to_datetime get info station day)
              with Ok x => x | Raise _ => Wu.empty_frame end).
  assert (Hloop : Eff.value
            (Eff.mapM (fun current =>
                         Eff.try_except
                           (PwsAll.fetch_pws_day to_datetime get info station current)
                           Eff.any_exception
                           (Eff.log ERROR ;;; Eff.ret Wu.empty_frame))
                      (Pws.days start_date end_date))
          = Ok (map g (Pws.days start_date end_date))).
  { apply value_mapM_map. intros day _.
    apply try_except_value, pws_all_day_no_exit. }
  assert (Hrows : concat (map Wu.rows (map g (Pws.days start_date end_date)))
                  = concat (map (fun day =>
                        match Eff.value (PwsAll.fetch_pws_day to_datetime get
                                           info station day) with
                        | Ok df_day => Wu.rows df_day
                        | Raise _ => []
                        end) (Pws.days start_date end_date))).
  { rewrite map_map. f_equal. apply map_ext. intros day. unfold g.
    destruct (Eff.value (PwsAll.fetch_pws_day to_datetime get info station day));
      reflexivity. }
  unfold PwsAll.fetch_pws_range.
  rewrite (value_bind_eq _ _ tt) by reflexivity.
  rewrite (value_bind_eq _ _ _ Hloop).
  rewrite <- Hrows, <- concat_rows_nonempty.
  destruct (List.filter _ (map g _)); eexists; split; reflexivity.
Qed.

Lemma filter_empty_frames {A} (l : list A) :
  List.filter (fun df => negb (Wu.empty df)) (map (fun _ => Wu.empty_frame) l) = [].
Proof. induction l as [|x l IH]; simpl; [reflexivity | exact IH]. Qed.

Lemma pws_all_day_pg to_datetime get stations station day :
  PwsAll.fetch_pws_day to_datetime get (Stations.pg_backend stations) station day
  = (Raise TypeError, []).
Proof. reflexivity. Qed.

Lemma pws_all_range_pg to_datetime get stations station start_date end_date :
  Eff.value (PwsAll.fetch_pws_range to_datetime get (Stations.pg_backend stations)
               station start_date end_date) = Ok Wu.empty_frame
  /\ Forall is_log
       (Eff.trace (PwsAll.fetch_pws_range to_datetime get
                     (Stations.pg_backend stations) station start_date end_date)).
Proof.
  unfold PwsAll.fetch_pws_range.
  set (step := fun current => Eff.try_except _ _ _).
  assert (Hloop : Eff.value (Eff.mapM step (Pws.days start_date end_date))
                  = Ok (map (fun _ => Wu.empty_frame) (Pws.days start_date end_date))).
  { apply value_mapM_map. intros day _. reflexivity. }
  assert (Hlogs : Forall is_log (Eff.trace (Eff.mapM step (Pws.days start_date end_date)))).
  { apply trace_logs_mapM. intros day. unfold step. rewrite pws_all_day_pg.
    repeat constructor. }
  assert (Hnil : List.filter (fun df => negb (Wu.empty df))
                   (map (fun _ : Z => Wu.empty_frame) (Pws.days start_date end_date))
                 = []).
  { apply filter_empty_frames. }
  split.
  - rewrite (value_bind_eq _ _ tt) by reflexivity.
    rewrite (value_bind_eq _ _ _ Hloop), Hnil. reflexivity.
  - rewrite (trace_bind_Ok _ _ tt) by reflexivity.
    rewrite (trace_bind_Ok _ _ _ Hloop), Hnil.
    apply Forall_app. split; [repeat constructor|].
    apply Forall_app. split; [assumption | repeat constructor].
Qed.

(** X17. With [get_station_info] imported from the Postgres service,
    whose function takes one argument, every day of
    [fetch_pws_all_data.py] fails on its first directory lookup, before
    its request: [fetch_pws_range] returns the empty frame and
    [fetch_pws_data] the empty table, and no request is ever sent to the
    provider, whatever the table of stations holds. *)
Theorem X17_pws_all_with_pg_directory_fetches_nothing :
  forall to_datetime get stations get_station_ids c key END_DATE,
    (forall station start_date end_date,
        Eff.value (PwsAll.fetch_pws_range to_datetime get
                     (Stations.pg_backend stations) station start_date end_date)
        = Ok Wu.empty_frame)
    /\ Eff.value (PwsAll.fetch_pws_data to_datetime get
                    (Stations.pg_backend stations) get_station_ids
                    (Some (String c key)) END_DATE) = Ok []
    /\ Scenario.requests_of
         (Eff.trace (PwsAll.fetch_pws_data to_datetime get
                       (Stations.pg_backend stations) get_station_ids
                       (Some (String c key)) END_DATE)) = [].
Proof.
  intros to_datetime get stations ids c key END_DATE.
  split; [intros; apply pws_all_range_pg|].
  unfold PwsAll.fetch_pws_data.
  destruct (PwsAll.get_pws_ids ids) as [|s l]; [split; reflexivity|].
  set (stations_loop := Eff.mapM _ (s :: l)).
  assert (Hloop : Eff.value stations_loop
                  = Ok (map (fun _ => Wu.empty_frame) (s :: l))).
  { apply value_mapM_map. intros station _. apply pws_all_range_pg. }
  assert (Hlogs : Forall is_log (Eff.trace stations_loop)).
  { apply trace_logs_mapM. intros station. apply pws_all_range_pg. }
  assert (Hnil : List.filter (fun df => negb (Wu.empty df))
                   (map (fun _ : string => Wu.empty_frame) (s :: l)) = []).
  { apply filter_empty_frames. }
  split.
  - rewrite (value_bind_eq _ _ tt) by reflexivity.
    rewrite (value_bind_eq _ _ _ Hloop), Hnil. reflexivity.
  - rewrite (trace_bind_Ok _ _ tt) by reflexivity.
    rewrite (trace_bind_Ok _ _ _ Hloop), Hnil.
    rewrite !requests_of_app, (requests_of_logs _ Hlogs). reflexivity.
Qed.






(** What the registry holds for a PWS id: one of its two records, or
    nothing. *)
Lemma registry_pws_cases station_id0 :
  Stations.Registry.get_station_info "pws" station_id0
  = (if String.eqb "KORMCMIN133" station_id0
     then Some (snd (Stations.Registry.station "KORMCMIN133" "propdada" "pws"
                       "Weather Underground" "McMinnville"))
     else if String.eqb "KORMCMIN127" station_id0
          then Some (snd (Stations.Registry.station "KORMCMIN127" "dustprop" "pws"
                            "Weather Underground" "McMinnville"))
          else None).
Proof. reflexivity. Qed.

(** X19. Against the static registry the identifier sent to Weather
    Underground is always the logical station id itself (no registry
    record has a [metadata] alias or a [code]), and the lookup never
    fails; a station the registry does not list is named by its id. *)
Theorem X19_registry_wu_station_id :
  forall station_id0,
    PwsAll.get_wu_station_id Stations.registry_backend station_id0
    = (Ok station_id0, [])
    /\ (Stations.Registry.get_station_info "pws" station_id0 = None ->
        PwsAll.get_pws_name Stations.registry_backend station_id0
        = (Ok station_id0, [])).
Proof.
  intros sid. unfold PwsAll.get_wu_station_id, PwsAll.get_pws_name,
    PwsAll.get_pws_info, Stations.registry_backend.
  cbn [Stations.call Eff.lift Eff.bind Eff.ret app].
  rewrite registry_pws_cases.
  destruct (String.eqb "KORMCMIN133" sid); [|destruct (String.eqb "KORMCMIN127" sid)].
  - split; [vm_compute; reflexivity | discriminate].
  - split; [vm_compute; reflexivity | discriminate].
  - split; reflexivity.
Qed.

(** ** fetch_airport_mesonet_data.py *)

(** X20. Once the directory has answered, [fetch_asos_for_station]
    sends exactly one request and contains every failure of it: a
    connection error, an error status, an empty body, a body that cannot
    be read as CSV, or a table without rows give no rows.  It returns
    whenever a table that has rows has a [valid] column. *)
Theorem X20_asos_fetch_contained
        (to_datetime : bool -> Cell -> option Z)
        (get : string -> Z -> Z -> Response Airport.Csv)
        (get_station_info : Stations.Callable) (END_DATE : Z)
        (station : string) (start_date end_date : Z)
        (info : option (gmap string Stations.PyVal)) :
  Stations.call get_station_info ["airport"; station] = Ok info ->
  Scenario.requests_of
    (Eff.trace (Airport.fetch_asos_for_station to_datetime get get_station_info
                  END_DATE station start_date end_date))
  = [Mesonet station start_date end_date]
  /\ ((get station start_date end_date = ConnectionError
       \/ exists status body,
            get station start_date end_date = Http status body
            /\ (raises_for_status status = true
                \/ body = Airport.EmptyText \/ body = Airport.BadCsv
                \/ exists columns, body = Airport.Table columns [])) ->
      Eff.value (Airport.fetch_asos_for_station to_datetime get get_station_info
                   END_DATE station start_date end_date) = Ok [])
  /\ ((forall status columns cells records,
          get station start_date end_date
          = Http status (Airport.Table columns (cells :: records)) ->
          raises_for_status status = false -> "valid" ∈ columns) ->
      exists df,
        Eff.value (Airport.fetch_asos_for_station to_datetime get get_station_info
                     END_DATE station start_date end_date) = Ok df).
Proof.
  intros Hcall.
  unfold Airport.fetch_asos_for_station, Airport.get_airport_name.
  rewrite Hcall. cbn [Eff.lift Eff.bind Eff.ret Eff.log Eff.emit Eff.request app].
  destruct (get station start_date end_date) as [|status body].
  { split; [reflexivity|]. split; [reflexivity | eexists; reflexivity]. }
  destruct (raises_for_status status) eqn:Hst.
  { split; [reflexivity|]. split; [reflexivity | eexists; reflexivity]. }
  destruct body as [| |columns [|cells records]].
  - split; [reflexivity|]. split; [reflexivity | eexists; reflexivity].
  - split; [reflexivity|]. split; [reflexivity | eexists; reflexivity].
  - split; [reflexivity|]. split; [reflexivity | eexists; reflexivity].
  - case_bool_decide as Hvalid.
    + match goal with
      | |- context [Airport.global_window ?e ?d] =>
          generalize (Airport.global_window e d)
      end.
      intros df.
      split; [|split].
      * destruct df; reflexivity.
      * intros [H | (st & b & [= <- <-] & [H | [H | [H | [cols H]]]])];
          congruence.
      * intros _. exists df. destruct df; reflexivity.
    + split; [reflexivity|]. split.
      * intros [H | (st & b & [= <- <-] & [H | [H | [H | [cols H]]]])];
          congruence.
      * intros Hguard. exfalso. apply Hvalid.
        exact (Hguard status columns cells records eq_refl Hst).
Qed.

Lemma X20_asos_fetch_contained_witness :
  Scenario.requests_of
    (Eff.trace (Airport.fetch_asos_for_station Iso.to_datetime Runs.mesonet_flaky
                  Stations.registry_backend Scenario.END_DATE "KMMV"
                  (Airport.START_DATE Scenario.END_DATE) Scenario.END_DATE))
  = [Mesonet "KMMV" (Airport.START_DATE Scenario.END_DATE) Scenario.END_DATE]
  /\ Eff.value (Airport.fetch_asos_for_station Iso.to_datetime Runs.mesonet_flaky
                  Stations.registry_backend Scenario.END_DATE "KMMV"
                  (Airport.START_DATE Scenario.END_DATE) Scenario.END_DATE) = Ok [].
Proof.
  destruct (X20_asos_fetch_contained Iso.to_datetime Runs.mesonet_flaky
              Stations.registry_backend Scenario.END_DATE "KMMV"
              (Airport.START_DATE Scenario.END_DATE) Scenario.END_DATE
              (Stations.Registry.get_station_info "airport" "KMMV") eq_refl)
    as (Hreq & Hfail & _).
  split; [exact Hreq|].
  apply Hfail. right. exists 200, Airport.BadCsv.
  split; [reflexivity|]. right. right. left. reflexivity.
Defined.

(** X21. With [get_station_info] imported from the Postgres service,
    [fetch_asos_for_station] raises [TypeError] on its first line,
    before any request, and [fetch_airport_data] stops with that
    exception at its first station, whatever the table of stations
    holds: no request is sent and no table is returned. *)
Theorem X21_airport_with_pg_directory_raises
        (to_datetime : bool -> Cell -> option Z)
        (get : string -> Z -> Z -> Response Airport.Csv)
        (stations : list Stations.Pg.StationRow)
        (get_station_ids : string -> list string) (END_DATE : Z) :
  get_station_ids "airport" <> [] ->
  (forall station start_date end_date,
      Airport.fetch_asos_for_station to_datetime get (Stations.pg_backend stations)
        END_DATE station start_date end_date = (Raise TypeError, []))
  /\ Airport.fetch_airport_data to_datetime get (Stations.pg_backend stations)
       get_station_ids END_DATE = (Raise TypeError, [Log INFO]).
Proof.
  intros Hids. split; [reflexivity|].
  unfold Airport.fetch_airport_data, Airport.get_airport_ids.
  destruct (get_station_ids "airport") as [|s l]; [contradiction | reflexivity].
Qed.

Lemma X21_airport_with_pg_directory_raises_witness :
  (forall station start_date end_date,
      Airport.fetch_asos_for_station Iso.to_datetime Scenario.mesonet_eug
        (Stations.pg_backend []) Scenario.END_DATE station start_date end_date
      = (Raise TypeError, []))
  /\ Airport.fetch_airport_data Iso.to_datetime Scenario.mesonet_eug
       (Stations.pg_backend []) Stations.Registry.get_station_ids
       Scenario.END_DATE = (Raise TypeError, [Log INFO]).
Proof.
  apply (X21_airport_with_pg_directory_raises Iso.to_datetime Scenario.mesonet_eug
           [] Stations.Registry.get_station_ids Scenario.END_DATE).
  vm_compute. discriminate.
Defined.

(** ** The station directories *)

Lemma dict_get_In {V} (d : list (string * V)) k v :
  Stations.Registry.dict_get d k = Some v -> In (k, v) d.
Proof.
  induction d as [|[k' v'] d IH]; simpl; [discriminate|].
  destruct (String.eqb_spec k' k) as [->|Hne].
  - intros [= ->]. now left.
  - intros H. right. auto.
Qed.

Lemma dict_get_keys {V} (d : list (string * V)) k :
  In k (map fst d) <-> is_Some (Stations.Registry.dict_get d k).
Proof.
  induction d as [|[k' v'] d IH]; simpl.
  - split; [tauto | intros [x Hx]; discriminate].
  - destruct (String.eqb_spec k' k) as [->|Hne].
    + split; [eauto | auto].
    + rewrite <- IH. split; [intros [?|?]; [contradiction | assumption] | auto].
Qed.

Lemma registry_records_filed :
  Forall (fun '(source_type, stations_dict) =>
            Forall (fun '(station_id0, info) =>
                      info !! "station_id" = Some (Stations.PStr station_id0)
                      /\ info !! "source_type" = Some (Stations.PStr source_type))
                   stations_dict)
         Stations.Registry.STATION_REGISTRY.
Proof. repeat constructor. Qed.

(** X22. The registry is consistent with itself: an id is listed by
    [get_station_ids] for a source type exactly when [get_station_info]
    finds it under that type, and the record found is filed under its
    own id and its own source type and is one of the twelve records of
    [all_stations_flat]. *)
Theorem X22_registry_consistent :
  (forall source_type station_id0,
      In station_id0 (Stations.Registry.get_station_ids source_type)
      <-> is_Some (Stations.Registry.get_station_info source_type station_id0))
  /\ (forall source_type station_id0 info,
        Stations.Registry.get_station_info source_type station_id0 = Some info ->
        info !! "station_id" = Some (Stations.PStr station_id0)
        /\ info !! "source_type" = Some (Stations.PStr source_type)
        /\ In info Directory.all_stations_flat)
  /\ length Directory.all_stations_flat = 12%nat.
Proof.
  split; [|split].
  - intros source_type sid. apply dict_get_keys.
  - intros source_type sid info H.
    unfold Stations.Registry.get_station_info in H.
    destruct (Stations.Registry.dict_get Stations.Registry.STATION_REGISTRY
                source_type) as [d|] eqn:Hd; [|discriminate].
    apply dict_get_In in Hd. apply dict_get_In in H. simpl in H.
    pose proof registry_records_filed as Hall.
    rewrite Forall_forall in Hall.
    specialize (Hall _ (proj2 (list_elem_of_In _ _) Hd)). simpl in Hall.
    rewrite Forall_forall in Hall.
    specialize (Hall _ (proj2 (list_elem_of_In _ _) H)). simpl in Hall.
    destruct Hall as [H1 H2]. split; [assumption|]. split; [assumption|].
    unfold Directory.all_stations_flat. apply in_concat.
    exists (map snd d). split.
    + apply in_map_iff. exists (source_type, d). split; [reflexivity | assumption].
    + apply in_map_iff. exists (sid, info). split; [reflexivity | assumption].
  - reflexivity.
Qed.

Lemma sorted_ids_In stations station_type sid :
  In sid (Stations.Pg.get_station_ids stations station_type)
  <-> exists r, In r stations
                /\ Stations.Pg.pg_station_id r = sid
                /\ Stations.Pg.pg_station_type r = station_type
                /\ Stations.Pg.pg_active r = true.
Proof.
  unfold Stations.Pg.get_station_ids. split.
  - intros H. apply (Permutation_in _ (sort_values_perm _ _)) in H.
    apply in_map_iff in H as (r & <- & Hr). apply filter_In in Hr as [Hr Hc].
    apply andb_true_iff in Hc as [Ht Ha]. apply String.eqb_eq in Ht.
    exists r. auto.
  - intros (r & Hr & <- & <- & Ha).
    apply (Permutation_in _ (Permutation_sym (sort_values_perm _ _))).
    apply in_map, filter_In. split; [assumption|].
    now rewrite String.eqb_refl, Ha.
Qed.

(** X23. [get_station_ids] of the Postgres service lists exactly the
    ids of the rows of the requested type that are active -- a station
    switched off is never listed -- in ascending order. *)
Theorem X23_pg_station_ids :
  forall stations station_type,
    (forall sid,
        In sid (Stations.Pg.get_station_ids stations station_type)
        <-> exists r, In r stations
                      /\ Stations.Pg.pg_station_id r = sid
                      /\ Stations.Pg.pg_station_type r = station_type
                      /\ Stations.Pg.pg_active r = true)
    /\ Frame.is_sorted String.leb
         (Stations.Pg.get_station_ids stations station_type) = true.
Proof.
  intros stations station_type. split.
  - intros sid. apply sorted_ids_In.
  - apply sort_values_sorted, String.leb_total.
Qed.

Lemma pg_find stations sid r :
  List.find (fun r => String.eqb (Stations.Pg.pg_station_id r) sid) stations = Some r ->
  In r stations /\ Stations.Pg.pg_station_id r = sid.
Proof.
  intros H. apply find_some in H as [Hr He]. now apply String.eqb_eq in He.
Qed.

Lemma dict_of_lookups r :
  Stations.Pg.dict_of r !! "station_id" = Some (Stations.PStr (Stations.Pg.pg_station_id r))
  /\ Stations.Pg.dict_of r !! "station_type"
     = Some (Stations.PStr (Stations.Pg.pg_station_type r))
  /\ Stations.Pg.dict_of r !! "active"
     = Some (Stations.PBool (Stations.Pg.pg_active r))
  /\ forall column,
       column <> "station_id" -> column <> "station_type" -> column <> "active" ->
       Stations.Pg.dict_of r !! column = Stations.Pg.pg_columns r !! column.
Proof.
  unfold Stations.Pg.dict_of. split; [|split; [|split]].
  - apply lookup_insert_eq.
  - rewrite lookup_insert_ne by discriminate. apply lookup_insert_eq.
  - rewrite !lookup_insert_ne by discriminate. apply lookup_insert_eq.
  - intros column H1 H2 H3. now rewrite !lookup_insert_ne by congruence.
Qed.

(** X24. [get_station_info] of the Postgres service finds a station by
    its id alone, whatever its type and whether it is active or not, and
    answers [None] exactly when no row has that id.  The record it
    returns is [dict(row)] of a row of that id: the id, the type and
    the [active] flag of the row, and every other column of the table
    under its own name with the value the row has there. *)
Theorem X24_pg_station_info :
  forall stations sid,
    (Stations.Pg.get_station_info stations sid = None
     <-> forall r, In r stations -> Stations.Pg.pg_station_id r <> sid)
    /\ (forall info,
          Stations.Pg.get_station_info stations sid = Some info ->
          exists r,
            In r stations
            /\ Stations.Pg.pg_station_id r = sid
            /\ info = Stations.Pg.dict_of r
            /\ info !! "station_id" = Some (Stations.PStr sid)
            /\ info !! "station_type"
               = Some (Stations.PStr (Stations.Pg.pg_station_type r))
            /\ info !! "active" = Some (Stations.PBool (Stations.Pg.pg_active r))
            /\ forall column,
                 column <> "station_id" -> column <> "station_type" ->
                 column <> "active" ->
                 info !! column = Stations.Pg.pg_columns r !! column).
Proof.
  intros stations sid. unfold Stations.Pg.get_station_info.
  destruct (List.find _ stations) as [r|] eqn:Hf.
  - apply pg_find in Hf as [Hr Hid]. split.
    + split; [discriminate|]. intros H. now destruct (H r Hr).
    + intros info [= <-].
      destruct (dict_of_lookups r) as (H1 & H2 & H3 & H4).
      exists r. split; [exact Hr|]. split; [exact Hid|]. split; [reflexivity|].
      split; [now rewrite H1, Hid|]. split; [exact H2|]. split; [exact H3 | exact H4].
  - split; [|discriminate]. split; [|reflexivity].
    intros _ r Hr E. apply (find_none _ _ Hf) in Hr.
    rewrite E, String.eqb_refl in Hr. discriminate.
Qed.

Lemma find_first_of_unique stations r :
  NoDup (map Stations.Pg.pg_station_id stations) -> In r stations ->
  List.find (fun x => String.eqb (Stations.Pg.pg_station_id x)
                                 (Stations.Pg.pg_station_id r)) stations = Some r.
Proof.
  induction stations as [|x stations IH]; simpl; intros Hnd Hr; [destruct Hr|].
  apply NoDup_cons in Hnd as [Hx Hnd].
  destruct Hr as [->|Hr].
  - now rewrite String.eqb_refl.
  - destruct (String.eqb_spec (Stations.Pg.pg_station_id x)
                              (Stations.Pg.pg_station_id r)) as [E|_]; [|auto].
    exfalso. apply Hx. rewrite E. apply list_elem_of_In. now apply in_map.
Qed.

(** X25. When the station ids of the table are distinct (the primary
    key), listing then looking up agree: every id [get_station_ids]
    lists for a type is found by [get_station_info], and the record
    found has that id and that type. *)
Theorem X25_pg_list_then_lookup
        (stations : list Stations.Pg.StationRow) (station_type sid : string) :
  NoDup (map Stations.Pg.pg_station_id stations) ->
  In sid (Stations.Pg.get_station_ids stations station_type) ->
  exists info,
    Stations.Pg.get_station_info stations sid = Some info
    /\ info !! "station_id" = Some (Stations.PStr sid)
    /\ info !! "station_type" = Some (Stations.PStr station_type).
Proof.
  intros Hnd Hin. apply sorted_ids_In in Hin as (r & Hr & <- & <- & _).
  exists (Stations.Pg.dict_of r). unfold Stations.Pg.get_station_info.
  rewrite (find_first_of_unique stations r Hnd Hr).
  destruct (dict_of_lookups r) as (H1 & H2 & _). auto.
Qed.

Lemma X25_pg_list_then_lookup_witness :
  Stations.Pg.get_station_ids Directory.sample_table "airport" = ["KSLE"]
  /\ exists info,
       Stations.Pg.get_station_info Directory.sample_table "KSLE" = Some info
       /\ info !! "station_id" = Some (Stations.PStr "KSLE")
       /\ info !! "station_type" = Some (Stations.PStr "airport").
Proof.
  split; [reflexivity|].
  apply (X25_pg_list_then_lookup Directory.sample_table "airport" "KSLE").
  - vm_compute. repeat constructor; rewrite list_elem_of_In; simpl; intuition discriminate.
  - vm_compute. left. reflexivity.
Defined.

(** X26. [get_all_stations] without a type, or with the empty string as
    type, returns one record for every row of the table, active or not;
    with a type it returns the records of exactly the rows of that
    type. *)
Theorem X26_pg_all_stations :
  forall stations,
    Directory.get_all_stations stations (Some "")
    = Directory.get_all_stations stations None
    /\ length (Directory.get_all_stations stations None) = length stations
    /\ (forall r, In r stations ->
                  In (Stations.Pg.dict_of r) (Directory.get_all_stations stations None))
    /\ (forall c s info,
          In info (Directory.get_all_stations stations (Some (String c s)))
          <-> exists r, In r stations
                        /\ Stations.Pg.pg_station_type r = String c s
                        /\ info = Stations.Pg.dict_of r).
Proof.
  intros stations. split; [reflexivity|]. split; [|split].
  - unfold Directory.get_all_stations. rewrite length_map.
    apply Permutation_length, sort_values_perm.
  - intros r Hr. unfold Directory.get_all_stations. apply in_map.
    now apply (Permutation_in _ (Permutation_sym (sort_values_perm _ _))).
  - intros c s info. unfold Directory.get_all_stations. rewrite in_map_iff. split.
    + intros (r & <- & Hr). apply (Permutation_in _ (sort_values_perm _ _)) in Hr.
      apply filter_In in Hr as [Hr Ht]. apply String.eqb_eq in Ht. eauto.
    + intros (r & Hr & Ht & ->). exists r. split; [reflexivity|].
      apply (Permutation_in _ (Permutation_sym (sort_values_perm _ _))).
      apply filter_In. split; [assumption|]. now apply String.eqb_eq.
Qed.

(** ** The api.weather.gov fetcher *)

Lemma noaa_bind_Ok {A B} (m : Noaa.M A) (f : A -> Noaa.M B) (b : B) :
  Noaa.value (Noaa.bind m f) = Ok b ->
  exists a, Noaa.value m = Ok a /\ Noaa.value (f a) = Ok b
            /\ Noaa.trace (Noaa.bind m f) = (Noaa.trace m ++ Noaa.trace (f a))%list.
Proof.
  destruct m as [[a|e] t]; simpl; [|discriminate].
  destruct (f a) as [r t'] eqn:E; simpl. intros ->.
  exists a. rewrite E. auto.
Qed.

Lemma noaa_bind_value {A B} (m : Noaa.M A) (f : A -> Noaa.M B) (a : A) :
  Noaa.value m = Ok a -> Noaa.value (Noaa.bind m f) = Noaa.value (f a).
Proof.
  destruct m as [[a'|e] t]; simpl; [|discriminate].
  intros [= ->]. now destruct (f a).
Qed.

Lemma noaa_bind_Raise {A B} (m : Noaa.M A) (f : A -> Noaa.M B) (e : Exn) :
  Noaa.value m = Raise e -> Noaa.value (Noaa.bind m f) = Raise e.
Proof.
  destruct m as [[a'|e'] t]; simpl; [discriminate | intros [= ->]; reflexivity].
Qed.

Lemma calls_of_app t1 t2 :
  Noaa.calls_of (t1 ++ t2) = (Noaa.calls_of t1 ++ Noaa.calls_of t2)%list.
Proof. unfold Noaa.calls_of. apply List.filter_app. Qed.

Lemma calls_of_prints tr : Forall is_print tr -> Noaa.calls_of tr = [].
Proof.
  induction 1 as [|[s a b|q|] tr H _ IH]; simpl; try contradiction; auto.
Qed.

Lemma noaa_stamps_quiet to_datetime (features : list Wu.Obs) :
  Noaa.trace (Noaa.mapM (fun o : Wu.Obs =>
                           Noaa.stamp to_datetime
                             (list_to_map (M := gmap string Cell) o
                                !! "properties.timestamp")) features) = [].
Proof.
  induction features as [|o os IH]; [reflexivity|]. simpl.
  assert (Hs : forall c, Noaa.trace (Noaa.stamp to_datetime c) = []).
  { intros [[s|z|]|]; simpl; try reflexivity; destruct (to_datetime _); reflexivity. }
  specialize (Hs (list_to_map (M := gmap string Cell) o !! "properties.timestamp")).
  destruct (Noaa.stamp to_datetime _) as [[ts|e] t]; simpl in *; subst t;
    [|reflexivity].
  destruct (Noaa.mapM _ os) as [[tss|e] t]; simpl in *; subst t; reflexivity.
Qed.

(** A chunk is one GET, between printed lines. *)
Lemma noaa_chunk_trace to_datetime get station a b :
  exists prints,
    Noaa.trace (Noaa.fetch_station_chunk to_datetime get station a b)
    = Noaa.Print :: Noaa.Get station (Noaa.whole_seconds a) (Noaa.whole_seconds b)
        :: prints
    /\ Forall is_print prints.
Proof.
  unfold Noaa.fetch_station_chunk.
  destruct (get station _ _) as [|status body].
  { eexists. split; [reflexivity | constructor]. }
  destruct (negb (status =? 200)).
  { eexists. split; [reflexivity | repeat constructor]. }
  destruct body as [| |[[|o os]|]];
    try (eexists; split; [reflexivity | repeat constructor]).
  destruct (bool_decide _).
  - pose proof (noaa_stamps_quiet to_datetime (o :: os)) as Hq.
    cbn [Noaa.bind Noaa.emit Noaa.trace snd app].
    destruct (Noaa.mapM _ (o :: os)) as [[stamps|e] t]; simpl in Hq; subst t;
      exists []; split; try reflexivity; constructor.
  - eexists. split; [reflexivity | repeat constructor].
Qed.

(** The loop asks for one chunk and pauses, turn after turn. *)
Lemma noaa_loop_calls to_datetime get station end_ fuel :
  forall current dfs,
    Noaa.value (Noaa.range_loop to_datetime get fuel station current end_) = Ok dfs ->
    Noaa.calls_of (Noaa.trace (Noaa.range_loop to_datetime get fuel station
                                 current end_))
    = concat (map (fun '(a, b) =>
                     [Noaa.Get station (Noaa.whole_seconds a) (Noaa.whole_seconds b);
                      Noaa.Pause (1 # 2)])
                  (Noaa.tiles fuel current end_)).
Proof.
  induction fuel as [|fuel IH]; intros current dfs;
    cbn [Noaa.range_loop Noaa.tiles];
    destruct (current <? end_); try (intros _; reflexivity).
  intros H.
  apply noaa_bind_Ok in H as (df & Hdf & H & ->).
  apply noaa_bind_Ok in H as ([] & _ & H & ->).
  apply noaa_bind_Ok in H as (rest & Hrest & _ & ->).
  destruct (noaa_chunk_trace to_datetime get station current
              (Z.min (current + Noaa.chunk) end_)) as (prints & -> & Hp).
  rewrite !calls_of_app, (IH _ _ Hrest).
  cbn [Noaa.trace Noaa.emit Noaa.ret snd].
  change (Noaa.Print :: Noaa.Get station (Noaa.whole_seconds current)
            (Noaa.whole_seconds (Z.min (current + Noaa.chunk) end_)) :: prints)
    with ([Noaa.Print; Noaa.Get station (Noaa.whole_seconds current)
            (Noaa.whole_seconds (Z.min (current + Noaa.chunk) end_))] ++ prints)%list.
  rewrite calls_of_app, (calls_of_prints prints Hp).
  cbn. now rewrite app_nil_r.
Qed.

Lemma whole_seconds_add t k :
  Noaa.whole_seconds (t + k * Noaa.chunk) = Noaa.whole_seconds t + k * Noaa.chunk.
Proof.
  unfold Noaa.whole_seconds, Noaa.chunk, Noaa.CHUNK_DAYS, Calendar.US_PER_DAY.
  replace (t + k * (7 * 86400000000)) with (t + (k * 604800) * 1000000) by lia.
  rewrite Z.div_add by lia. lia.
Qed.

Lemma whole_seconds_mono a b :
  a <= b -> Noaa.whole_seconds a <= Noaa.whole_seconds b.
Proof.
  intros H. unfold Noaa.whole_seconds.
  apply Z.mul_le_mono_nonneg_r; [lia|]. apply Z.div_le_mono; lia.
Qed.

Lemma whole_seconds_min a b :
  Noaa.whole_seconds (Z.min a b)
  = Z.min (Noaa.whole_seconds a) (Noaa.whole_seconds b).
Proof.
  destruct (Z.le_ge_cases a b) as [H|H].
  - pose proof (whole_seconds_mono a b H). rewrite !Z.min_l by lia. reflexivity.
  - pose proof (whole_seconds_mono b a H). rewrite !Z.min_r by lia. reflexivity.
Qed.

Lemma chunk_pos : 0 < Noaa.chunk.
Proof. reflexivity. Qed.

Lemma tiles_closed end_ fuel :
  forall current,
    end_ - current <= Z.of_nat fuel * Noaa.chunk ->
    Noaa.tiles fuel current end_
    = map (fun i => (current + i * Noaa.chunk,
                     Z.min (current + (i + 1) * Noaa.chunk) end_))
          (seqZ 0 (Noaa.chunk_count current end_)).
Proof.
  pose proof chunk_pos as Hc.
  induction fuel as [|fuel IH]; intros current Hfuel; unfold Noaa.chunk_count;
    simpl; destruct (Z.ltb_spec current end_) as [Hlt|Hge];
    try reflexivity.
  - lia.
  - destruct (Z.le_gt_cases end_ (current + Noaa.chunk)) as [Hlast|Hmore].
    + assert (E : (end_ - current + Noaa.chunk - 1) / Noaa.chunk = 1).
      { symmetry. apply (Z.div_unique _ _ _ (end_ - current - 1)); lia. }
      rewrite E, Z.min_r by lia. cbn [seqZ]. simpl.
      rewrite Z.min_r by lia.
      replace (Noaa.tiles fuel end_ end_) with (@nil (Z * Z)).
      * f_equal. f_equal; lia.
      * destruct fuel; simpl; rewrite Z.ltb_irrefl; reflexivity.
    + rewrite Z.min_l by lia.
      rewrite IH by lia. unfold Noaa.chunk_count.
      destruct (Z.ltb_spec (current + Noaa.chunk) end_) as [_|?]; [|lia].
      set (n := (end_ - current + Noaa.chunk - 1) / Noaa.chunk).
      assert (En : (end_ - (current + Noaa.chunk) + Noaa.chunk - 1) / Noaa.chunk
                   = n - 1).
      { unfold n.
        replace (end_ - current + Noaa.chunk - 1)
          with (end_ - (current + Noaa.chunk) + Noaa.chunk - 1 + 1 * Noaa.chunk)
          by lia.
        rewrite Z.div_add by lia. lia. }
      assert (Hn : 0 < n).
      { unfold n. apply Z.div_str_pos. lia. }
      rewrite En, (seqZ_cons 0 n) by lia. cbn [map].
      f_equal; [f_equal; lia|].
      replace (Z.succ 0) with (1 + 0) by lia.
      rewrite <- (fmap_add_seqZ 1 0 (Z.pred n)).
      replace (Z.pred n) with (n - 1) by lia.
      change (Z.add 1 <$> seqZ 0 (n - 1)) with (map (Z.add 1) (seqZ 0 (n - 1))).
      rewrite map_map. apply map_ext. intros i. f_equal; [lia|]. f_equal. lia.
Qed.

Lemma turns_enough start end_ :
  end_ - start <= Z.of_nat (Noaa.turns start end_) * Noaa.chunk.
Proof.
  pose proof chunk_pos as Hc. unfold Noaa.turns.
  destruct (Z.lt_ge_cases (end_ - start) 0) as [Hneg|Hpos].
  - lia.
  - assert (0 <= (end_ - start) / Noaa.chunk) by (apply Z.div_pos; lia).
    rewrite Z2Nat.id by lia.
    pose proof (Z.mod_pos_bound (end_ - start) Noaa.chunk Hc).
    pose proof (Z.div_mod (end_ - start) Noaa.chunk ltac:(lia)). lia.
Qed.

(** X27. A run of [fetch_station_range] that returns has done, apart
    from printing, exactly this: for each chunk of [CHUNK_DAYS] = 7
    days in turn, one GET and then one pause of half a second.  The
    chunks follow one another without gap or overlap from [start] to
    [end] (the last one cut at [end]), with their bounds cut to whole
    seconds; there are as many as it takes seven-day chunks to cover the
    range, none when [start] is not before [end]; the loop ends. *)
Theorem X27_noaa_chunks_tile_the_range
        (to_datetime : Cell -> option Z)
        (get : string -> Z -> Z -> Response Noaa.Json)
        (station : string) (start end_ : Z) (df : list Noaa.Observation) :
  Noaa.value (Noaa.fetch_station_range to_datetime get station start end_) = Ok df ->
  Noaa.calls_of (Noaa.trace (Noaa.fetch_station_range to_datetime get station
                               start end_))
  = concat (map (fun i =>
                   [Noaa.Get station
                      (Noaa.whole_seconds start + i * Noaa.chunk)
                      (Z.min (Noaa.whole_seconds start + (i + 1) * Noaa.chunk)
                             (Noaa.whole_seconds end_));
                    Noaa.Pause (1 # 2)])
                (seqZ 0 (Noaa.chunk_count start end_))).
Proof.
  unfold Noaa.fetch_station_range. intros H.
  apply noaa_bind_Ok in H as ([] & _ & H & ->).
  apply noaa_bind_Ok in H as (all_dfs & Hloop & H & ->).
  pose proof (noaa_loop_calls _ _ _ _ _ _ _ Hloop) as Hc.
  rewrite (tiles_closed _ _ _ (turns_enough start end_)) in Hc.
  assert (Htail : Noaa.calls_of (Noaa.trace
                    (match all_dfs with
                     | [] => Noaa.bind (Noaa.emit Noaa.Print) (fun _ => Noaa.ret [])
                     | _ :: _ =>
                         Noaa.bind (Noaa.emit Noaa.Print)
                           (fun _ => Noaa.ret
                              (Frame.sort_values Noaa.by_index
                                 (Frame.drop_duplicates Noaa.index (concat all_dfs))))
                     end)) = []).
  { destruct all_dfs; reflexivity. }
  rewrite !calls_of_app, Hc, Htail.
  cbn [Noaa.trace Noaa.emit snd Noaa.calls_of List.filter app].
  rewrite app_nil_r, map_map. f_equal. apply map_ext. intros i.
  now rewrite whole_seconds_min, !whole_seconds_add.
Qed.

Lemma X27_noaa_chunks_tile_the_range_witness :
  Noaa.chunk_count Runs.noaa_start Runs.noaa_end = 3
  /\ Noaa.calls_of (Noaa.trace (Noaa.fetch_station_range Runs.iso Runs.noaa_ok "KEUG"
                                  Runs.noaa_start Runs.noaa_end))
     = concat (map (fun i =>
                      [Noaa.Get "KEUG"
                         (Noaa.whole_seconds Runs.noaa_start + i * Noaa.chunk)
                         (Z.min (Noaa.whole_seconds Runs.noaa_start
                                 + (i + 1) * Noaa.chunk)
                                (Noaa.whole_seconds Runs.noaa_end));
                       Noaa.Pause (1 # 2)])
                   (seqZ 0 (Noaa.chunk_count Runs.noaa_start Runs.noaa_end))).
Proof.
  split; [reflexivity|].
  eapply (X27_noaa_chunks_tile_the_range Runs.iso Runs.noaa_ok "KEUG"
           Runs.noaa_start Runs.noaa_end).
  vm_compute. reflexivity.
Defined.

Lemma noaa_mapM_Ok {A B} (f : A -> Noaa.M B) (l : list A) (ys : list B) :
  Noaa.value (Noaa.mapM f l) = Ok ys ->
  Forall2 (fun x y => Noaa.value (f x) = Ok y) l ys.
Proof.
  revert ys. induction l as [|x l IH]; intros ys; cbn [Noaa.mapM].
  - intros [= <-]. constructor.
  - intros H.
    apply noaa_bind_Ok in H as (y & Hy & H & _).
    apply noaa_bind_Ok in H as (ys' & Hys & H & _).
    injection H as <-. constructor; auto.
Qed.

Lemma noaa_zip_Forall2 {A B} (P : A -> B -> Prop) (l : list A) (ys : list B) :
  Forall2 P l ys -> forall x y, In (y, x) (zip ys l) -> P x y.
Proof.
  induction 1 as [|x y l ys Hxy _ IH]; simpl; [tauto|].
  intros x' y' [[= <- <-]|Hin]; auto.
Qed.

Lemma noaa_stamp_quiet to_datetime c :
  Noaa.trace (Noaa.stamp to_datetime c) = [].
Proof.
  destruct c as [[s|z|]|]; simpl; try reflexivity;
    destruct (to_datetime _); reflexivity.
Qed.

Lemma noaa_chunk_rows to_datetime get station a b rows :
  Noaa.value (Noaa.fetch_station_chunk to_datetime get station a b) = Ok rows ->
  Forall (stamped to_datetime) rows.
Proof.
  unfold Noaa.fetch_station_chunk. intros H.
  apply noaa_bind_Ok in H as ([] & _ & H & _).
  apply noaa_bind_Ok in H as ([] & _ & H & _).
  destruct (get station _ _) as [|status body]; [discriminate|].
  destruct (negb (status =? 200)); [injection H as <-; constructor|].
  destruct body as [| |[[|o os]|]]; try discriminate;
    try (injection H as <-; constructor).
  destruct (bool_decide _); [|injection H as <-; constructor].
  apply noaa_bind_Ok in H as (stamps & Hst & H & _).
  injection H as <-.
  apply noaa_mapM_Ok in Hst.
  apply Forall_forall. intros obs Hin. apply list_elem_of_In in Hin.
  apply (Permutation_in _ (sort_values_perm _ _)) in Hin.
  apply in_map_iff in Hin as ([ts f] & <- & Hin).
  pose proof (noaa_zip_Forall2 _ _ _ Hst _ _ Hin) as Hv.
  unfold stamped. cbn [Noaa.properties Noaa.index].
  pose proof (noaa_stamp_quiet to_datetime
                (list_to_map (M := gmap string Cell) f !! "properties.timestamp"))
    as Hq.
  cbv beta in Hv.
  destruct (Noaa.stamp to_datetime _) as [r t]. simpl in Hv, Hq. now subst.
Qed.

Lemma noaa_loop_rows to_datetime get station end_ fuel :
  forall current dfs,
    Noaa.value (Noaa.range_loop to_datetime get fuel station current end_) = Ok dfs ->
    Forall (Forall (stamped to_datetime)) dfs.
Proof.
  induction fuel as [|fuel IH]; intros current dfs;
    cbn [Noaa.range_loop];
    destruct (current <? end_); try (intros [= <-]; constructor).
  intros H.
  apply noaa_bind_Ok in H as (df & Hdf & H & _).
  apply noaa_bind_Ok in H as ([] & _ & H & _).
  apply noaa_bind_Ok in H as (rest & Hrest & H & _).
  injection H as <-.
  apply noaa_chunk_rows in Hdf. apply IH in Hrest.
  destruct df; [assumption | constructor; assumption].
Qed.

(** X28. The frame [fetch_station_range] returns carries every
    timestamp once, in ascending order (a missing timestamp last), and
    the index of each of its rows is what [pd.to_datetime] read in that
    row's own "properties.timestamp" field: the concatenation, the
    removal of duplicated indices and the sort neither invent a row nor
    move a timestamp from one observation to another. *)
Theorem X28_noaa_range_frame
        (to_datetime : Cell -> option Z)
        (get : string -> Z -> Z -> Response Noaa.Json)
        (station : string) (start end_ : Z) (df : list Noaa.Observation) :
  Noaa.value (Noaa.fetch_station_range to_datetime get station start end_) = Ok df ->
  NoDup (map Noaa.index df)
  /\ Frame.is_sorted Noaa.by_index df = true
  /\ forall obs, In obs df ->
       Noaa.stamp to_datetime (Noaa.properties obs !! "properties.timestamp")
       = (Ok (Noaa.index obs), []).
Proof.
  unfold Noaa.fetch_station_range. intros H.
  apply noaa_bind_Ok in H as ([] & _ & H & _).
  apply noaa_bind_Ok in H as (all_dfs & Hloop & H & _).
  apply noaa_loop_rows in Hloop.
  assert (Htot : forall a b, Noaa.by_index a b = true \/ Noaa.by_index b a = true)
    by (intros a b; apply ts_leb_total).
  destruct all_dfs as [|d ds].
  { injection H as <-. split; [constructor | split; [reflexivity | intros ? []]]. }
  apply noaa_bind_Ok in H as ([] & _ & H & _). injection H as <-.
  split; [|split].
  - rewrite (Permutation_map Noaa.index (sort_values_perm Noaa.by_index _)).
    apply drop_duplicates_from_NoDup.
  - apply sort_values_sorted, Htot.
  - intros obs Hin.
    apply (Permutation_in _ (sort_values_perm _ _)) in Hin.
    apply drop_duplicates_from_In in Hin.
    change (In obs (concat (d :: ds))) in Hin.
    apply in_concat in Hin as (rows & Hrows & Hin).
    apply list_elem_of_In in Hrows, Hin.
    rewrite Forall_forall in Hloop. specialize (Hloop rows Hrows).
    rewrite Forall_forall in Hloop. exact (Hloop obs Hin).
Qed.

Lemma X28_noaa_range_frame_witness :
  map Noaa.index
      (match Noaa.value (Noaa.fetch_station_range Runs.iso Runs.noaa_ok "KEUG"
                           Runs.noaa_start Runs.noaa_end) with
       | Ok df => df
       | Raise _ => []
       end)
  = [Some (Calendar.Timestamp (Calendar.mk_date 2025 11 1) + 10 * 3600000000);
     Some (Calendar.Timestamp (Calendar.mk_date 2025 11 2) + 10 * 3600000000)]
  /\ exists df,
       Noaa.value (Noaa.fetch_station_range Runs.iso Runs.noaa_ok "KEUG"
                     Runs.noaa_start Runs.noaa_end) = Ok df
       /\ NoDup (map Noaa.index df)
       /\ Frame.is_sorted Noaa.by_index df = true
       /\ forall obs, In obs df ->
            Noaa.stamp Runs.iso (Noaa.properties obs !! "properties.timestamp")
            = (Ok (Noaa.index obs), []).
Proof.
  split; [vm_compute; reflexivity|].
  destruct (Noaa.value (Noaa.fetch_station_range Runs.iso Runs.noaa_ok "KEUG"
                          Runs.noaa_start Runs.noaa_end)) as [df|e] eqn:E.
  - exists df. split; [reflexivity|].
    exact (X28_noaa_range_frame Runs.iso Runs.noaa_ok "KEUG"
             Runs.noaa_start Runs.noaa_end df E).
  - exfalso. vm_compute in E. discriminate E.
Defined.

Lemma noaa_chunk_answered to_datetime get station a b rows :
  Noaa.value (Noaa.fetch_station_chunk to_datetime get station a b) = Ok rows ->
  get station (Noaa.whole_seconds a) (Noaa.whole_seconds b) <> ConnectionError
  /\ get station (Noaa.whole_seconds a) (Noaa.whole_seconds b)
     <> Http 200 Noaa.NotJson
  /\ get station (Noaa.whole_seconds a) (Noaa.whole_seconds b)
     <> Http 200 Noaa.JsonOther.
Proof.
  unfold Noaa.fetch_station_chunk. intros H.
  apply noaa_bind_Ok in H as ([] & _ & H & _).
  apply noaa_bind_Ok in H as ([] & _ & H & _).
  destruct (get station _ _) as [|status body]; [discriminate|].
  split; [discriminate|].
  destruct (Z.eqb_spec status 200) as [->|Hne].
  - simpl in H. destruct body; try discriminate. split; discriminate.
  - split; congruence.
Qed.

Lemma noaa_loop_answered to_datetime get station end_ fuel :
  forall current dfs,
    Noaa.value (Noaa.range_loop to_datetime get fuel station current end_) = Ok dfs ->
    forall a b, In (a, b) (Noaa.tiles fuel current end_) ->
      get station (Noaa.whole_seconds a) (Noaa.whole_seconds b) <> ConnectionError
      /\ get station (Noaa.whole_seconds a) (Noaa.whole_seconds b)
         <> Http 200 Noaa.NotJson
      /\ get station (Noaa.whole_seconds a) (Noaa.whole_seconds b)
         <> Http 200 Noaa.JsonOther.
Proof.
  induction fuel as [|fuel IH]; intros current dfs;
    cbn [Noaa.range_loop Noaa.tiles];
    destruct (current <? end_);
    try (intros _ a b Hin; simpl in Hin; contradiction).
  intros H a b Hin.
  apply noaa_bind_Ok in H as (df & Hdf & H & _).
  apply noaa_bind_Ok in H as ([] & _ & H & _).
  apply noaa_bind_Ok in H as (rest & Hrest & _ & _).
  destruct Hin as [[= <- <-]|Hin].
  - exact (noaa_chunk_answered _ _ _ _ _ _ Hdf).
  - exact (IH _ _ Hrest a b Hin).
Qed.

Lemma noaa_loop_refused to_datetime get station end_ :
  (forall a b, exists status body,
      get station a b = Http status body /\ status <> 200) ->
  forall fuel current,
    Noaa.value (Noaa.range_loop to_datetime get fuel station current end_) = Ok [].
Proof.
  intros Href. induction fuel as [|fuel IH]; intros current;
    cbn [Noaa.range_loop]; destruct (current <? end_); try reflexivity.
  assert (Hc : Noaa.value (Noaa.fetch_station_chunk to_datetime get station current
                             (Z.min (current + Noaa.chunk) end_)) = Ok []).
  { unfold Noaa.fetch_station_chunk.
    destruct (Href (Noaa.whole_seconds current)
                (Noaa.whole_seconds (Z.min (current + Noaa.chunk) end_)))
      as (status & body & -> & Hne).
    destruct (Z.eqb_spec status 200); [contradiction | reflexivity]. }
  rewrite (noaa_bind_value _ _ _ Hc).
  erewrite (noaa_bind_value (Noaa.emit _)) by reflexivity.
  rewrite (noaa_bind_value _ _ _ (IH _)). reflexivity.
Qed.

(** X29. What [fetch_station_range] does with a request that fails.
    An answer with a status other than 200 is taken for a chunk without
    data: when every request is refused the function returns the empty
    frame, as it does when the station has no observations.  Nothing
    else is caught: when the request of any chunk of the range cannot
    connect, or is answered with status 200 and a body that is not a
    JSON object, the function raises and the rows of the chunks fetched
    before are lost. *)
Theorem X29_noaa_failures
        (to_datetime : Cell -> option Z)
        (get : string -> Z -> Z -> Response Noaa.Json)
        (station : string) (start end_ : Z) :
  ((forall a b, exists status body,
       get station a b = Http status body /\ status <> 200) ->
   Noaa.value (Noaa.fetch_station_range to_datetime get station start end_) = Ok [])
  /\ forall i,
       0 <= i < Noaa.chunk_count start end_ ->
       (let answer :=
          get station
              (Noaa.whole_seconds start + i * Noaa.chunk)
              (Z.min (Noaa.whole_seconds start + (i + 1) * Noaa.chunk)
                     (Noaa.whole_seconds end_)) in
        answer = ConnectionError \/ answer = Http 200 Noaa.NotJson
        \/ answer = Http 200 Noaa.JsonOther) ->
       exists e,
         Noaa.value (Noaa.fetch_station_range to_datetime get station start end_)
         = Raise e.
Proof.
  split.
  - intros Href. unfold Noaa.fetch_station_range.
    erewrite (noaa_bind_value (Noaa.emit _)) by reflexivity.
    rewrite (noaa_bind_value _ _ _ (noaa_loop_refused to_datetime get station end_
                                      Href _ _)).
    reflexivity.
  - intros i Hi Hbad. cbv zeta in Hbad.
    destruct (Noaa.value (Noaa.fetch_station_range to_datetime get station
                            start end_)) as [df|e] eqn:E; [exfalso | eauto].
    unfold Noaa.fetch_station_range in E.
    apply noaa_bind_Ok in E as ([] & _ & E & _).
    apply noaa_bind_Ok in E as (all_dfs & Hloop & _ & _).
    pose proof (noaa_loop_answered _ _ _ _ _ _ _ Hloop
                  (start + i * Noaa.chunk)
                  (Z.min (start + (i + 1) * Noaa.chunk) end_)) as Hans.
    rewrite whole_seconds_min, !whole_seconds_add in Hans.
    destruct Hans as (H1 & H2 & H3).
    + rewrite (tiles_closed _ _ _ (turns_enough start end_)).
      apply in_map_iff. exists i. split; [reflexivity|].
      apply list_elem_of_In, elem_of_seqZ. lia.
    + destruct Hbad as [?|[?|?]]; contradiction.
Qed.

Lemma X29_noaa_failures_witness :
  Noaa.value (Noaa.fetch_station_range Runs.iso (fun _ _ _ => Http 503 Noaa.NotJson)
                "KEUG" Runs.noaa_start Runs.noaa_end) = Ok []
  /\ exists e,
       Noaa.value (Noaa.fetch_station_range Runs.iso Runs.noaa_down "KEUG"
                     Runs.noaa_start Runs.noaa_end) = Raise e.
Proof.
  split.
  - apply (X29_noaa_failures Runs.iso (fun _ _ _ => Http 503 Noaa.NotJson) "KEUG"
             Runs.noaa_start Runs.noaa_end).
    intros a b. exists 503, Noaa.NotJson. split; [reflexivity | lia].
  - apply (proj2 (X29_noaa_failures Runs.iso Runs.noaa_down "KEUG"
                    Runs.noaa_start Runs.noaa_end) 1).
    + vm_compute. split; [discriminate | reflexivity].
    + left. vm_compute. reflexivity.
Defined.

(** ** Column names after the header loop *)

Lemma plain_no_suffix name name' p :
  plain name = true -> name <> name' +:+ "_" +:+ p.
Proof.
  revert name. induction name' as [|c name' IH]; intros [|d name]; simpl;
    try discriminate.
  - destruct (Ascii.eqb_spec d "_") as [->|Hd]; [discriminate|].
    intros _ [= E _]. contradiction.
  - intros [_ Hp]%andb_true_iff [= _ E]. exact (IH _ Hp E).
Qed.

Lemma plain_suffix_inj name name' p p' :
  plain name = true -> plain name' = true ->
  name +:+ "_" +:+ p = name' +:+ "_" +:+ p' -> name = name' /\ p = p'.
Proof.
  revert name'. induction name as [|c name IH]; intros [|d name']; simpl.
  - intros _ _ [= E]. auto.
  - destruct (Ascii.eqb_spec d "_") as [->|Hd]; [discriminate|].
    intros _ _ [= E _]. congruence.
  - destruct (Ascii.eqb_spec c "_") as [->|Hc]; [discriminate|].
    intros _ _ [= E _]. congruence.
  - intros [_ Hp]%andb_true_iff [_ Hp']%andb_true_iff [= -> E].
    destruct (IH _ Hp Hp' E) as [-> ->]. auto.
Qed.

Lemma suffixed_inj name name' k k' :
  plain name = true -> plain name' = true ->
  suffixed name k = suffixed name' k' -> name = name' /\ k = k'.
Proof.
  intros Hp Hp'. destruct k as [|k], k' as [|k']; simpl.
  - auto.
  - intros E. exfalso. exact (plain_no_suffix _ _ _ Hp E).
  - intros E. exfalso. exact (plain_no_suffix _ _ _ Hp' (eq_sym E)).
  - intros E. destruct (plain_suffix_inj _ _ _ _ Hp Hp' E) as [-> Hk].
    split; [reflexivity|]. exact (pretty_nat_inj _ _ Hk).
Qed.

Lemma count_occ_take_lt (raw : list string) (name : string) (i j : nat) :
  raw !! i = Some name -> (i < j)%nat ->
  (count_occ string_dec (take i raw) name
   < count_occ string_dec (take j raw) name)%nat.
Proof.
  revert i j. induction raw as [|x raw IH]; intros i j; [discriminate|].
  destruct j as [|j]; [lia|]. destruct i as [|i]; simpl.
  - intros [= ->] _. destruct (string_dec name name); [lia | contradiction].
  - intros Hi Hij. specialize (IH i j Hi ltac:(lia)).
    destruct (string_dec x name); lia.
Qed.

(** X30. When no column name of the feed contains an underscore, the
    header loop of [fetch_ndbc_realtime] yields pairwise different
    names, one per column and in the order of the feed, so that no
    column of the table hides another.  The condition is needed: a feed
    that itself names a column ["WDIR_1"] after two columns ["WDIR"]
    gets that name twice. *)
Theorem X30_deduped_names_unique :
  (forall raw_col_names,
      Forall (fun name => plain name = true) raw_col_names ->
      NoDup (Buoy.dedupe_names raw_col_names)
      /\ length (Buoy.dedupe_names raw_col_names) = length raw_col_names)
  /\ Buoy.dedupe_names ["WDIR"; "WDIR"; "WDIR_1"] = ["WDIR"; "WDIR_1"; "WDIR_1"].
Proof.
  split; [|reflexivity].
  intros raw Hplain. unfold Buoy.dedupe_names.
  rewrite dedupe_names_from_spec. split; [|apply length_imap].
  apply NoDup_alt. intros i j x Hi Hj.
  rewrite list_lookup_imap in Hi, Hj.
  destruct (raw !! i) as [n|] eqn:Eni; [|discriminate].
  destruct (raw !! j) as [m|] eqn:Enj; [|discriminate].
  simpl in Hi, Hj. injection Hi as Hi. injection Hj as Hj.
  rewrite Forall_forall in Hplain.
  pose proof (Hplain n (list_elem_of_lookup_2 _ _ _ Eni)) as Hn.
  pose proof (Hplain m (list_elem_of_lookup_2 _ _ _ Enj)) as Hm.
  rewrite <- Hj in Hi.
  apply (suffixed_inj _ _ _ _ Hn Hm) in Hi as [-> Hc].
  unfold occurrences in Hc. rewrite lookup_empty in Hc. simpl in Hc.
  destruct (Nat.lt_trichotomy i j) as [Hlt|[->|Hlt]]; [|reflexivity|].
  - pose proof (count_occ_take_lt raw m i j Eni Hlt). lia.
  - pose proof (count_occ_take_lt raw m j i Enj Hlt). lia.
Qed.

Lemma X30_deduped_names_unique_witness :
  NoDup (Buoy.dedupe_names ["WDIR"; "WSPD"; "WDIR"; "GST"; "WDIR"])
  /\ length (Buoy.dedupe_names ["WDIR"; "WSPD"; "WDIR"; "GST"; "WDIR"]) = 5%nat.
Proof.
  apply (proj1 X30_deduped_names_unique ["WDIR"; "WSPD"; "WDIR"; "GST"; "WDIR"]).
  repeat constructor.
Defined.
